(** * Gemini Creative Suite: the chat window and the Gemini service

    A shallow embedding of [src/components/ChatWindow.tsx] (the chat view:
    [loadConversation], [saveMessage], [handleSubmit], [handleGenerateImage],
    [handleRecallGeneration], [fileToBase64], [handleFileChange] and the
    handlers and [disabled] conditions of the markup) and of the service
    module ([buildContents], [getChatResponseStream], [generateImage],
    [analyzeImage], [editImage]), followed by the properties of the
    specification that concern them and by further properties of the code.

    Conventions.
    - A JavaScript string is the list of its UTF-16 code units ([jsstring]);
      [length], [substring], [trim] and [+] act on code units, as in the
      language.
    - The view is a record of the component's [useState] cells and its
      conversation ref; an event handler is a computation in the monad [M],
      which threads the [World] (view, conversation store, clock reads,
      trace of outside calls) and may complete abruptly.
    - A handler runs from start to end without another handler in between:
      what it reads from its render closure is the view at its start.
    - The calls of the conversation store resolve, a read with the
      conversation or its absence and a write with an acknowledgement, as
      section 6 of the specification has them ([dbService] is not among
      the sources).
    - Rendering ([renderMessagePart], the class names and the scrolling
      effect) is left out, except for the [disabled] conditions of the
      controls and for what the focus of the input depends on: the text
      input is rendered only while the generation panel is closed. *)

From Stdlib Require Import ZArith DecimalString.
From stdpp Require Import strings list gmap.

Local Open Scope Z_scope.

(** ** JavaScript strings and numbers *)

Abbreviation jsstring := (list N).

(** The code units of an ASCII literal. *)
Fixpoint lit (s : string) : jsstring :=
  match s with
  | EmptyString => []
  | String a s' => Ascii.N_of_ascii a :: lit s'
  end.

Arguments lit : simpl never.

(** The code unit of the double quote. *)
Definition dquote : N := 34%N.

(** A string is falsy exactly when it is empty. *)
Definition truthy (s : jsstring) : bool :=
  match s with [] => false | _ :: _ => true end.

(** [WhiteSpace] and [LineTerminator] code units of ECMAScript. *)
Definition is_ws (c : N) : bool :=
  ((9 <=? c) && (c <=? 13) || (c =? 32) || (c =? 160) || (c =? 5760)
   || (8192 <=? c) && (c <=? 8202) || (c =? 8232) || (c =? 8233)
   || (c =? 8239) || (c =? 8287) || (c =? 12288) || (c =? 65279))%N.

Fixpoint trimStart (s : jsstring) : jsstring :=
  match s with
  | c :: s' => if is_ws c then trimStart s' else s
  | [] => []
  end.

Definition trimEnd (s : jsstring) : jsstring := rev (trimStart (rev s)).

(** [String.prototype.trim]. *)
Definition trim (s : jsstring) : jsstring := trimEnd (trimStart s).

(** [s.substring(0, n)]. *)
Definition substring0 (n : nat) (s : jsstring) : jsstring := take n s.

(** A JavaScript number as the view meets it: an integer or [NaN].
    [Num z] stands for the Number nearest to [z]. *)
Inductive JsNumber :=
| NaN
| Num (z : Z).

(** [n.toString()] of an integer (decimal, [-] for negatives). *)
Definition toString (z : Z) : jsstring :=
  lit (NilZero.string_of_int (Z.to_int z)).

Arguments toString : simpl never.

Definition is_digit (c : N) : bool := ((48 <=? c) && (c <=? 57))%N.

Fixpoint digits_prefix (s : jsstring) : jsstring :=
  match s with
  | c :: s' => if is_digit c then c :: digits_prefix s' else []
  | [] => []
  end.

Definition digits_value (ds : jsstring) : Z :=
  fold_left (fun acc c => 10 * acc + (Z.of_N c - 48)) ds 0.

(** [parseInt(s, 10)]: leading white space, an optional sign, then the
    longest run of decimal digits; [NaN] when there is none. *)
Definition parseInt10 (s : jsstring) : JsNumber :=
  let s1 := trimStart s in
  let '(sign, s2) :=
    match s1 with
    | 45%N :: r => (-1, r)
    | 43%N :: r => (1, r)
    | _ => (1, s1)
    end in
  match digits_prefix s2 with
  | [] => NaN
  | ds => Num (sign * digits_value ds)
  end.

(** A value read from a field that the types do not constrain. *)
Inductive JsValue :=
| JsUndefined
| JsNull
| JsBool (b : bool)
| JsNumberV (n : JsNumber)
| JsString (s : jsstring).

(** ** Data model *)

(** Modelled from the spec: the declarations of [../types] are not among the
    sources. Author is one of USER or MODEL (section 3). *)
Inductive Author := USER | MODEL.

(** Modelled from the spec: the aspect ratios of section 3, which are the
    entries of [aspectRatios] in the view. *)
Inductive AspectRatio :=
| Ratio_1_1 | Ratio_16_9 | Ratio_9_16 | Ratio_4_3 | Ratio_3_4.

(** Modelled from the spec: the fixed set of image models, which are the
    entries of [imagenModels] in the view. *)
Inductive ImagenModel :=
| Imagen_3_0_generate_002
| Imagen_4_0_generate_001
| Imagen_4_0_ultra_generate_001
| Imagen_4_0_fast_generate_001.

(** Modelled from the spec: [GenerationEvent['parameters']], the generation
    parameters of section 3. The image count is a JavaScript number; the
    declaration does not bound it. *)
Record GenerationParameters := {
  gp_model : ImagenModel;
  gp_aspectRatio : AspectRatio;
  gp_numberOfImages : JsNumber;
  gp_outputMimeType : option jsstring;
}.

Record ResultImage := { img_url : jsstring }.

(** Modelled from the spec: the tagged union Part of section 3; the fields
    are those the view and the service read and write. *)
Inductive MessagePart :=
| TextPart (text : jsstring)
| ImagePart (url base64 mimeType : jsstring)
| ImageGenerationResultPart
    (images : list ResultImage) (prompt : jsstring)
    (parameters : GenerationParameters).

(** Modelled from the spec: [ChatMessage]. [msg_content] is the field of the
    old format, which migration carries along ([{ ...msg, parts }]); the
    messages the view creates do not have it. *)
Record ChatMessage := {
  msg_id : jsstring;
  msg_author : Author;
  msg_parts : list MessagePart;
  msg_content : JsValue;
}.

(** A message as the store may hold it: the old format has no [parts]
    ([sm_parts] is [None] when [msg.parts] is missing or falsy; an array,
    even empty, is truthy). *)
Record StoredMessage := {
  sm_id : jsstring;
  sm_author : Author;
  sm_parts : option (list MessagePart);
  sm_content : JsValue;
}.

(** A view message seen as a stored one (the same object). *)
Definition stored (m : ChatMessage) : StoredMessage :=
  {| sm_id := msg_id m; sm_author := msg_author m;
     sm_parts := Some (msg_parts m); sm_content := msg_content m |}.

(** Modelled from the spec: [ChatConversation] and the other conversation
    kinds, told apart by the type tag (section 3). *)
Record Conversation := {
  conv_id : jsstring;
  conv_title : jsstring;
  conv_messages : list StoredMessage;
  conv_createdAt : Z;
  conv_modelUsed : jsstring;
  conv_isFavorite : bool;
  conv_type : jsstring;
}.

Record UploadedImage := {
  up_url : jsstring;
  up_base64 : jsstring;
  up_mimeType : jsstring;
}.

(** ** The provider's wire format and the remote endpoint *)

Inductive Part :=
| WireText (text : jsstring)
| WireInlineData (mimeType data : jsstring).

Record Content := {
  role : jsstring;
  wire_parts : list Part;
}.

Record ChatRequest := {
  chat_model : jsstring;
  chat_contents : list Content;
  chat_systemInstruction : jsstring;
}.

Record ImageConfig := {
  cfg_numberOfImages : JsNumber;
  cfg_aspectRatio : AspectRatio;
  cfg_outputMimeType : jsstring;
}.

Record ImageRequest := {
  ireq_model : ImagenModel;
  ireq_prompt : jsstring;
  ireq_config : ImageConfig;
}.

Inductive JsError :=
| RemoteError (msg : jsstring)
| TypeError (msg : jsstring).

(** What [ai.models.generateContentStream] does for a request: the promise
    rejects, or it resolves to a stream that delivers chunks, of which the
    generator reads [chunk.text] (a string, by the type of the generator),
    and then ends, normally ([None]) or by an error. *)
Inductive ChatRemote :=
| ChatRejects (e : JsError)
| ChatResolves (chunks : list jsstring) (ending : option JsError).

Record SdkImage := { imageBytes : option jsstring }.
Record SdkGeneratedImage := { image : option SdkImage }.

(** What [ai.models.generateImages] does for a request. *)
Inductive ImageRemote :=
| ImagesRejects (e : JsError)
| ImagesResolves (generatedImages : option (list SdkGeneratedImage)).

(** The surroundings of the component: the clock behind [Date.now()] (its
    successive readings) and the remote endpoint. *)
Record Env := {
  clock : nat -> Z;
  chatRemote : ChatRequest -> ChatRemote;
  imageRemote : ImageRequest -> ImageRemote;
}.

(** Calls that leave the component. *)
Inductive Event :=
| DbGet (key : jsstring)
| DbPut (c : Conversation)
| ConversationCreated (key : jsstring)
| ChatRequested (req : ChatRequest)
| ImagesRequested (req : ImageRequest)
| ConsoleError (label : jsstring) (e : JsError)
| FocusInput.

(** ** The view state *)

Record ViewState := {
  messages : list ChatMessage;
  input : jsstring;
  isLoading : bool;
  model : jsstring;
  uploadedImage : option UploadedImage;
  showGenerationPanel : bool;
  genPrompt : jsstring;
  genAspectRatio : AspectRatio;
  genModel : ImagenModel;
  genNumImages : JsNumber;
  currentConversationIdRef : option jsstring;
}.

Definition defaultModel : jsstring := lit "gemini-2.5-flash".

(** The view of a freshly mounted component with the given identifier. *)
Definition initialView (conversationId : option jsstring) : ViewState :=
  {| messages := []; input := []; isLoading := false;
     model := defaultModel; uploadedImage := None;
     showGenerationPanel := false; genPrompt := [];
     genAspectRatio := Ratio_3_4; genModel := Imagen_3_0_generate_002;
     genNumImages := Num 4; currentConversationIdRef := conversationId |}.

Definition with_messages (f : list ChatMessage -> list ChatMessage)
    (s : ViewState) : ViewState :=
  {| messages := f (messages s); input := input s; isLoading := isLoading s;
     model := model s; uploadedImage := uploadedImage s;
     showGenerationPanel := showGenerationPanel s; genPrompt := genPrompt s;
     genAspectRatio := genAspectRatio s; genModel := genModel s;
     genNumImages := genNumImages s;
     currentConversationIdRef := currentConversationIdRef s |}.

Definition with_input (v : jsstring) (s : ViewState) : ViewState :=
  {| messages := messages s; input := v; isLoading := isLoading s;
     model := model s; uploadedImage := uploadedImage s;
     showGenerationPanel := showGenerationPanel s; genPrompt := genPrompt s;
     genAspectRatio := genAspectRatio s; genModel := genModel s;
     genNumImages := genNumImages s;
     currentConversationIdRef := currentConversationIdRef s |}.

Definition with_isLoading (v : bool) (s : ViewState) : ViewState :=
  {| messages := messages s; input := input s; isLoading := v;
     model := model s; uploadedImage := uploadedImage s;
     showGenerationPanel := showGenerationPanel s; genPrompt := genPrompt s;
     genAspectRatio := genAspectRatio s; genModel := genModel s;
     genNumImages := genNumImages s;
     currentConversationIdRef := currentConversationIdRef s |}.

Definition with_model (v : jsstring) (s : ViewState) : ViewState :=
  {| messages := messages s; input := input s; isLoading := isLoading s;
     model := v; uploadedImage := uploadedImage s;
     showGenerationPanel := showGenerationPanel s; genPrompt := genPrompt s;
     genAspectRatio := genAspectRatio s; genModel := genModel s;
     genNumImages := genNumImages s;
     currentConversationIdRef := currentConversationIdRef s |}.

Definition with_uploadedImage (v : option UploadedImage)
    (s : ViewState) : ViewState :=
  {| messages := messages s; input := input s; isLoading := isLoading s;
     model := model s; uploadedImage := v;
     showGenerationPanel := showGenerationPanel s; genPrompt := genPrompt s;
     genAspectRatio := genAspectRatio s; genModel := genModel s;
     genNumImages := genNumImages s;
     currentConversationIdRef := currentConversationIdRef s |}.

Definition with_showGenerationPanel (v : bool) (s : ViewState) : ViewState :=
  {| messages := messages s; input := input s; isLoading := isLoading s;
     model := model s; uploadedImage := uploadedImage s;
     showGenerationPanel := v; genPrompt := genPrompt s;
     genAspectRatio := genAspectRatio s; genModel := genModel s;
     genNumImages := genNumImages s;
     currentConversationIdRef := currentConversationIdRef s |}.

Definition with_genPrompt (v : jsstring) (s : ViewState) : ViewState :=
  {| messages := messages s; input := input s; isLoading := isLoading s;
     model := model s; uploadedImage := uploadedImage s;
     showGenerationPanel := showGenerationPanel s; genPrompt := v;
     genAspectRatio := genAspectRatio s; genModel := genModel s;
     genNumImages := genNumImages s;
     currentConversationIdRef := currentConversationIdRef s |}.

Definition with_genAspectRatio (v : AspectRatio) (s : ViewState) : ViewState :=
  {| messages := messages s; input := input s; isLoading := isLoading s;
     model := model s; uploadedImage := uploadedImage s;
     showGenerationPanel := showGenerationPanel s; genPrompt := genPrompt s;
     genAspectRatio := v; genModel := genModel s;
     genNumImages := genNumImages s;
     currentConversationIdRef := currentConversationIdRef s |}.

Definition with_genModel (v : ImagenModel) (s : ViewState) : ViewState :=
  {| messages := messages s; input := input s; isLoading := isLoading s;
     model := model s; uploadedImage := uploadedImage s;
     showGenerationPanel := showGenerationPanel s; genPrompt := genPrompt s;
     genAspectRatio := genAspectRatio s; genModel := v;
     genNumImages := genNumImages s;
     currentConversationIdRef := currentConversationIdRef s |}.

Definition with_genNumImages (v : JsNumber) (s : ViewState) : ViewState :=
  {| messages := messages s; input := input s; isLoading := isLoading s;
     model := model s; uploadedImage := uploadedImage s;
     showGenerationPanel := showGenerationPanel s; genPrompt := genPrompt s;
     genAspectRatio := genAspectRatio s; genModel := genModel s;
     genNumImages := v;
     currentConversationIdRef := currentConversationIdRef s |}.

Definition with_currentConversationIdRef (v : option jsstring)
    (s : ViewState) : ViewState :=
  {| messages := messages s; input := input s; isLoading := isLoading s;
     model := model s; uploadedImage := uploadedImage s;
     showGenerationPanel := showGenerationPanel s; genPrompt := genPrompt s;
     genAspectRatio := genAspectRatio s; genModel := genModel s;
     genNumImages := genNumImages s;
     currentConversationIdRef := v |}.

(** ** The world and the handler monad *)

(** Modelled from the spec: the local conversation store ([dbService] is not
    among the sources). Section 6: conversations are keyed by their
    identifier, [getConversation(id)] gives the conversation or its
    absence, [addOrUpdateConversation(c)] stores [c] under its identifier. *)
Abbreviation Store := (gmap jsstring Conversation).

Definition getConversation (key : jsstring) (db : Store)
    : option Conversation := db !! key.

Definition addOrUpdateConversation (c : Conversation) (db : Store) : Store :=
  <[conv_id c := c]> db.

Record World := {
  view : ViewState;
  db : Store;
  reads : nat;
  trace : list Event;
}.

Inductive Completion (A : Type) :=
| Returned (a : A)
| Threw (e : JsError).
Arguments Returned {A} a.
Arguments Threw {A} e.

(** A handler: it reads and updates the world and returns or throws. *)
Definition M (A : Type) : Type := World -> Completion A * World.

#[export] Instance M_ret : MRet M := fun A a w => (Returned a, w).

#[export] Instance M_bind : MBind M := fun A B f m w =>
  match m w with
  | (Returned a, w') => f a w'
  | (Threw e, w') => (Threw e, w')
  end.

Definition throw {A} (e : JsError) : M A := fun w => (Threw e, w).

Definition modifyView (f : ViewState -> ViewState) : M unit := fun w =>
  (Returned tt,
   {| view := f (view w); db := db w; reads := reads w; trace := trace w |}).

Definition emit (ev : Event) : M unit := fun w =>
  (Returned tt,
   {| view := view w; db := db w; reads := reads w;
      trace := trace w ++ [ev] |}).

Definition readRef : M (option jsstring) := fun w =>
  (Returned (currentConversationIdRef (view w)), w).

Definition setMessages f : M unit := modifyView (with_messages f).
Definition setInput v : M unit := modifyView (with_input v).
Definition setIsLoading v : M unit := modifyView (with_isLoading v).
Definition setModel v : M unit := modifyView (with_model v).
Definition setUploadedImage v : M unit := modifyView (with_uploadedImage v).
Definition setShowGenerationPanel v : M unit :=
  modifyView (with_showGenerationPanel v).
Definition setGenPrompt v : M unit := modifyView (with_genPrompt v).
Definition setGenAspectRatio v : M unit := modifyView (with_genAspectRatio v).
Definition setGenModel v : M unit := modifyView (with_genModel v).
Definition setGenNumImages v : M unit := modifyView (with_genNumImages v).
Definition setRef v : M unit := modifyView (with_currentConversationIdRef v).

(** [inputRef.current?.focus()]. *)
Definition focusInput : M unit := emit FocusInput.

(** [await dbService.getConversation(key)]. *)
Definition dbGetConversation (key : jsstring) : M (option Conversation) :=
  fun w =>
  (Returned (getConversation key (db w)),
   {| view := view w; db := db w; reads := reads w;
      trace := trace w ++ [DbGet key] |}).

(** [await dbService.addOrUpdateConversation(c)]. *)
Definition dbAddOrUpdateConversation (c : Conversation) : M unit := fun w =>
  (Returned tt,
   {| view := view w; db := addOrUpdateConversation c (db w);
      reads := reads w; trace := trace w ++ [DbPut c] |}).

(** ** The service: generators and async functions *)

(** What a generator or an async function of the service does, in order:
    the fragments it yields and the calls it makes; then how it ends. *)
Inductive Step :=
| Yield (fragment : jsstring)
| Effect (ev : Event).

Record Task (A : Type) := {
  steps : list Step;
  outcome : Completion A;
}.
Arguments steps {A} t.
Arguments outcome {A} t.

#[export] Instance Task_ret : MRet Task := fun A a =>
  {| steps := []; outcome := Returned a |}.

#[export] Instance Task_bind : MBind Task := fun A B f t =>
  match outcome t with
  | Returned a => {| steps := steps t ++ steps (f a); outcome := outcome (f a) |}
  | Threw e => {| steps := steps t; outcome := Threw e |}
  end.

Definition yield (fragment : jsstring) : Task unit :=
  {| steps := [Yield fragment]; outcome := Returned tt |}.

Definition perform (ev : Event) : Task unit :=
  {| steps := [Effect ev]; outcome := Returned tt |}.

Definition raise {A} (e : JsError) : Task A :=
  {| steps := []; outcome := Threw e |}.

(** [try { body } catch (error) { handler }]. *)
Definition tryCatch {A} (body : Task A) (handler : JsError -> Task A)
    : Task A :=
  match outcome body with
  | Returned a => body
  | Threw e =>
      {| steps := steps body ++ steps (handler e);
         outcome := outcome (handler e) |}
  end.

(** The fragments a task yields, in order. *)
Fixpoint fragments (ss : list Step) : list jsstring :=
  match ss with
  | Yield c :: r => c :: fragments r
  | Effect _ :: r => fragments r
  | [] => []
  end.

Definition isTextOrImage (part : MessagePart) : bool :=
  match part with
  | TextPart _ | ImagePart _ _ _ => true
  | ImageGenerationResultPart _ _ _ => false
  end.

(** [buildContents]: [filter] with [some], then [map] with [reduce]. *)
Definition buildContents (messages : list ChatMessage) : list Content :=
  map
    (fun msg =>
       let parts :=
         fold_left
           (fun acc part =>
              match part with
              | TextPart text => acc ++ [WireText text]
              | ImagePart _ base64 mimeType =>
                  acc ++ [WireInlineData mimeType base64]
              | ImageGenerationResultPart _ _ _ => acc
              end)
           (msg_parts msg) [] in
       {| role := match msg_author msg with
                  | USER => lit "user"
                  | MODEL => lit "model"
                  end;
          wire_parts := parts |})
    (List.filter (fun msg => existsb isTextOrImage (msg_parts msg)) messages).

Definition systemInstruction : jsstring :=
  lit "You are a helpful and creative AI assistant. Your name is Gemini.".

Definition chatApology : jsstring :=
  lit "Sorry, I encountered an error. Please try again.".

Definition imageApology : jsstring :=
  lit "Sorry, I failed to generate the image. Please try again.".

(** [a || b] on an optional string. *)
Definition orElse (a : option jsstring) (b : jsstring) : jsstring :=
  match a with
  | Some s => if truthy s then s else b
  | None => b
  end.

(** A template hole filled with an optional string. *)
Definition interpolate (a : option jsstring) : jsstring :=
  match a with
  | Some s => s
  | None => lit "undefined"
  end.

Section Service.
Variable env : Env.

(** [await ai.models.generateContentStream(req)]. *)
Definition generateContentStream (req : ChatRequest)
    : Task (list jsstring * option JsError) :=
  perform (ChatRequested req);;
  match chatRemote env req with
  | ChatRejects e => raise e
  | ChatResolves chunks ending => mret (chunks, ending)
  end.

(** [for await (const chunk of responseStream) { yield chunk.text; }]. *)
Fixpoint yieldChunks (chunks : list jsstring) (ending : option JsError)
    : Task unit :=
  match chunks with
  | text :: rest => yield text;; yieldChunks rest ending
  | [] =>
      match ending with
      | None => mret tt
      | Some e => raise e
      end
  end.

Definition getChatResponseStream (messages : list ChatMessage)
    (model : jsstring) : Task unit :=
  tryCatch
    (let contents := buildContents messages in
     responseStream ←
       generateContentStream
         {| chat_model := model; chat_contents := contents;
            chat_systemInstruction := systemInstruction |};
     yieldChunks responseStream.1 responseStream.2)
    (fun error =>
       perform (ConsoleError (lit "Error getting chat response stream:")
                  error);;
       yield chatApology).

(** [await ai.models.generateImages(req)]. *)
Definition generateImages (req : ImageRequest)
    : Task (option (list SdkGeneratedImage)) :=
  perform (ImagesRequested req);;
  match imageRemote env req with
  | ImagesRejects e => raise e
  | ImagesResolves generatedImages => mret generatedImages
  end.

(** [generatedImages.map(img => `data:${mimeType};base64,${img.image.imageBytes}`)];
    reading [imageBytes] of a missing [image] throws. *)
Fixpoint dataUrls (mimeType : jsstring) (imgs : list SdkGeneratedImage)
    : Task (list jsstring) :=
  match imgs with
  | img :: rest =>
      match image img with
      | Some i =>
          urls ← dataUrls mimeType rest;
          mret ((lit "data:" ++ mimeType ++ lit ";base64,"
                 ++ interpolate (imageBytes i)) :: urls)
      | None => raise (TypeError (lit "img.image is undefined"))
      end
  | [] => mret []
  end.

Definition generateImage (prompt : jsstring)
    (params : GenerationParameters) : Task (option (list jsstring)) :=
  tryCatch
    (let model := gp_model params in
     let numberOfImages := gp_numberOfImages params in
     let aspectRatio := gp_aspectRatio params in
     let outputMimeType := gp_outputMimeType params in
     let config :=
       {| cfg_numberOfImages := numberOfImages;
          cfg_aspectRatio := aspectRatio;
          cfg_outputMimeType := orElse outputMimeType (lit "image/png") |} in
     response ←
       generateImages
         {| ireq_model := model; ireq_prompt := prompt;
            ireq_config := config |};
     let mimeType := orElse outputMimeType (lit "image/png") in
     match response with
     | Some imgs =>
         if (0 <? length imgs)%nat
         then urls ← dataUrls mimeType imgs; mret (Some urls)
         else mret None
     | None => mret None
     end)
    (fun error =>
       perform (ConsoleError (lit "Error generating image:") error);;
       mret None).
End Service.

(** ** The chat view *)

Definition isText (p : MessagePart) : bool :=
  match p with
  | TextPart _ => true
  | _ => false
  end.

Definition isInitial (m : ChatMessage) : bool :=
  bool_decide (msg_id m = lit "initial").

Definition greeting : ChatMessage :=
  {| msg_id := lit "initial";
     msg_author := MODEL;
     msg_parts :=
       [TextPart (lit "Hello! I'm Gemini. How can I assist you today? You can ask me anything or generate an image!")];
     msg_content := JsUndefined |}.

(** The callback of [convo.messages.map] in [loadConversation]. *)
Definition migrate (msg : StoredMessage) : ChatMessage :=
  match sm_parts msg with
  | Some parts =>
      {| msg_id := sm_id msg; msg_author := sm_author msg;
         msg_parts := parts; msg_content := sm_content msg |}
  | None =>
      match sm_content msg with
      | JsString content =>
          {| msg_id := sm_id msg; msg_author := sm_author msg;
             msg_parts := [TextPart content];
             msg_content := sm_content msg |}
      | _ =>
          {| msg_id := sm_id msg; msg_author := sm_author msg;
             msg_parts := [TextPart []];
             msg_content := sm_content msg |}
      end
  end.

(** An identifier that passes [if (id)]: neither [null] nor empty. *)
Definition truthyId (r : option jsstring) : option jsstring :=
  match r with
  | Some k => if truthy k then Some k else None
  | None => None
  end.

(** [(message.parts.find(p => p.type === 'text'))?.text || 'New Chat']. *)
Definition titleText (message : ChatMessage) : jsstring :=
  match List.find isText (msg_parts message) with
  | Some (TextPart text) => if truthy text then text else lit "New Chat"
  | _ => lit "New Chat"
  end.

(** [existingConvo.messages.push(message)]. *)
Definition pushMessage (c : Conversation) (message : ChatMessage)
    : Conversation :=
  {| conv_id := conv_id c; conv_title := conv_title c;
     conv_messages := conv_messages c ++ [stored message];
     conv_createdAt := conv_createdAt c; conv_modelUsed := conv_modelUsed c;
     conv_isFavorite := conv_isFavorite c; conv_type := conv_type c |}.

Definition isChat (c : Conversation) : bool :=
  bool_decide (conv_type c = lit "chat").

(** [msg.id === modelMessageId ? { ...msg, parts: [text] } : msg]. *)
Definition replaceText (modelMessageId fullResponse : jsstring)
    (msg : ChatMessage) : ChatMessage :=
  if bool_decide (msg_id msg = modelMessageId)
  then {| msg_id := msg_id msg; msg_author := msg_author msg;
          msg_parts := [TextPart fullResponse];
          msg_content := msg_content msg |}
  else msg.

Section View.
Variable env : Env.

(** [Date.now()]. *)
Definition dateNow : M Z := fun w =>
  (Returned (clock env (reads w)),
   {| view := view w; db := db w; reads := S (reads w);
      trace := trace w |}).

(** Runs the steps of a task, handing each fragment to the loop body. *)
Fixpoint forAwaitSteps {S : Type} (body : S -> jsstring -> M S)
    (ss : list Step) (acc : S) : M S :=
  match ss with
  | Yield chunk :: rest =>
      acc' ← body acc chunk; forAwaitSteps body rest acc'
  | Effect ev :: rest => emit ev;; forAwaitSteps body rest acc
  | [] => mret acc
  end.

(** [for await (const chunk of task) body]: an error of the generator
    ends the loop and the handler around it. *)
Definition forAwait {S : Type} (task : Task unit)
    (body : S -> jsstring -> M S) (init : S) : M S :=
  acc ← forAwaitSteps body (steps task) init;
  match outcome task with
  | Returned _ => mret acc
  | Threw e => throw e
  end.

(** [await task] for an async function of the service. *)
Definition await {A : Type} (task : Task A) : M A :=
  forAwaitSteps (fun _ _ => mret tt) (steps task) tt;;
  match outcome task with
  | Returned a => mret a
  | Threw e => throw e
  end.

(** The effect of the component on a change of [conversationId]; [s] is
    the view of the render the effect belongs to. The text input is
    rendered only while the generation panel is closed, and the state
    updates of the effect are not rendered before its last line:
    [inputRef.current] is the input when the panel was closed in [s], and
    [null] otherwise, so that [inputRef.current?.focus()] does nothing
    then. *)
Definition loadConversation (conversationId : option jsstring) : M unit :=
  fun w =>
  let s := view w in
  (setRef conversationId;;
   match truthyId conversationId with
   | Some key =>
       convo ← dbGetConversation key;
       match convo with
       | Some c =>
           if isChat c
           then
             setMessages (fun _ => map migrate (conv_messages c));;
             setModel (conv_modelUsed c)
           else
             setMessages (fun _ => []);;
             setModel defaultModel
       | None =>
           setMessages (fun _ => []);;
           setModel defaultModel
       end
   | None =>
       setMessages (fun _ => [greeting]);;
       setModel defaultModel
   end;;
   setInput [];;
   setUploadedImage None;;
   setShowGenerationPanel false;;
   if showGenerationPanel s then mret tt else focusInput) w.

(** [saveMessage]; [model] is the chat model of the render the handler
    belongs to. *)
Definition saveMessage (model : jsstring) (message : ChatMessage)
    : M jsstring :=
  convoId ← readRef;
  match truthyId convoId with
  | None =>
      let titleText := titleText message in
      t ← dateNow;
      let convoId := toString t in
      setRef (Some convoId);;
      createdAt ← dateNow;
      let newConversation :=
        {| conv_id := convoId;
           conv_title :=
             substring0 40 titleText
             ++ (if (40 <? length titleText)%nat then lit "..." else []);
           conv_messages := [stored message];
           conv_createdAt := createdAt;
           conv_modelUsed := model;
           conv_isFavorite := false;
           conv_type := lit "chat" |} in
      dbAddOrUpdateConversation newConversation;;
      emit (ConversationCreated convoId);;
      mret convoId
  | Some convoId =>
      existingConvo ← dbGetConversation convoId;
      match existingConvo with
      | Some c =>
          if isChat c
          then dbAddOrUpdateConversation (pushMessage c message)
          else mret tt
      | None => mret tt
      end;;
      mret convoId
  end.

(** The body of the streaming loop of [handleSubmit]. *)
Definition receiveChunk (modelMessageId : jsstring)
    (fullResponse chunk : jsstring) : M jsstring :=
  let fullResponse := fullResponse ++ chunk in
  setMessages (map (replaceText modelMessageId fullResponse));;
  mret fullResponse.

(** The guard of [handleSubmit]:
    [!input.trim() && !uploadedImage || isLoading]. *)
Definition submitRejected (s : ViewState) : bool :=
  negb (truthy (trim (input s))) && negb (bool_decide (is_Some (uploadedImage s)))
  || isLoading s.

(** The message [handleSubmit] builds from the input and the upload. *)
Definition userParts (s : ViewState) : list MessagePart :=
  match uploadedImage s with
  | Some u => [ImagePart (up_url u) (up_base64 u) (up_mimeType u)]
  | None => []
  end
  ++ (if truthy (trim (input s)) then [TextPart (input s)] else []).

(** [handleSubmit] up to the streaming loop: the history sent to the
    service and the identifier of the placeholder. *)
Definition submitStart (s : ViewState)
    : M (list ChatMessage * jsstring) :=
  let userParts := userParts s in
  t ← dateNow;
  let userMessage :=
    {| msg_id := toString t; msg_author := USER;
       msg_parts := userParts; msg_content := JsUndefined |} in
  let currentMessages :=
    List.filter (fun m => negb (isInitial m)) (messages s) in
  let updatedMessages := currentMessages ++ [userMessage] in
  setMessages (fun _ => updatedMessages);;
  setInput [];;
  setUploadedImage None;;
  setIsLoading true;;
  saveMessage (model s) userMessage;;
  t' ← dateNow;
  let modelMessageId := toString (t' + 1) in
  let modelMessage :=
    {| msg_id := modelMessageId; msg_author := MODEL;
       msg_parts := [TextPart []]; msg_content := JsUndefined |} in
  setMessages (fun prev => prev ++ [modelMessage]);;
  mret (updatedMessages, modelMessageId).

(** [handleSubmit] after the streaming loop. *)
Definition submitFinish (s : ViewState)
    (modelMessageId fullResponse : jsstring) : M unit :=
  setIsLoading false;;
  let finalModelMessage :=
    {| msg_id := modelMessageId; msg_author := MODEL;
       msg_parts := [TextPart fullResponse];
       msg_content := JsUndefined |} in
  saveMessage (model s) finalModelMessage;;
  focusInput.

(** [handleSubmit]; [s] is the view of the render the handler belongs
    to. [e.preventDefault()] touches neither view nor store. *)
Definition handleSubmit : M unit := fun w =>
  let s := view w in
  (if submitRejected s then mret tt
   else
     '(updatedMessages, modelMessageId) ← submitStart s;
     fullResponse ←
       forAwait (getChatResponseStream env updatedMessages (model s))
         (receiveChunk modelMessageId) [];
     submitFinish s modelMessageId fullResponse) w.

(** The guard of [handleGenerateImage]. *)
Definition generateRejected (s : ViewState) : bool :=
  negb (truthy (trim (genPrompt s))) || isLoading s.

Definition handleGenerateImage : M unit := fun w =>
  let s := view w in
  (if generateRejected s then mret tt
   else
     setIsLoading true;;
     setShowGenerationPanel false;;
     t ← dateNow;
     let userMessage :=
       {| msg_id := toString t; msg_author := USER;
          msg_parts :=
            [TextPart (lit "Generate image: " ++ [dquote] ++ genPrompt s
                       ++ [dquote])];
          msg_content := JsUndefined |} in
     setMessages
       (fun prev =>
          List.filter (fun m => negb (isInitial m)) prev ++ [userMessage]);;
     saveMessage (model s) userMessage;;
     let params :=
       {| gp_model := genModel s; gp_aspectRatio := genAspectRatio s;
          gp_numberOfImages := genNumImages s;
          gp_outputMimeType := None |} in
     result ← await (generateImage env (genPrompt s) params);
     match result with
     | Some urls =>
         t' ← dateNow;
         let modelMessage :=
           {| msg_id := toString (t' + 1); msg_author := MODEL;
              msg_parts :=
                [ImageGenerationResultPart
                   (map (fun url => {| img_url := url |}) urls)
                   (genPrompt s) params];
              msg_content := JsUndefined |} in
         setMessages (fun prev => prev ++ [modelMessage]);;
         saveMessage (model s) modelMessage
     | None =>
         t' ← dateNow;
         let errorMessage :=
           {| msg_id := toString (t' + 1); msg_author := MODEL;
              msg_parts := [TextPart imageApology];
              msg_content := JsUndefined |} in
         setMessages (fun prev => prev ++ [errorMessage]);;
         saveMessage (model s) errorMessage
     end;;
     setGenPrompt [];;
     setIsLoading false;;
     focusInput) w.

Definition handleRecallGeneration (prompt : jsstring)
    (params : GenerationParameters) : M unit :=
  setGenPrompt prompt;;
  setGenModel (gp_model params);;
  setGenAspectRatio (gp_aspectRatio params);;
  setGenNumImages (gp_numberOfImages params);;
  setShowGenerationPanel true;;
  setUploadedImage None.

(** [onChange] of the text input and of the fields of the panel. *)
Definition onChangeInput (value : jsstring) : M unit := setInput value.
Definition onChangeGenPrompt (value : jsstring) : M unit :=
  setGenPrompt value.
Definition onChangeGenNumImages (value : jsstring) : M unit :=
  setGenNumImages (parseInt10 value).

(** The button that opens the generation panel. *)
Definition onOpenGenerationPanel : M unit :=
  setShowGenerationPanel true;;
  setUploadedImage None.
End View.

(** The world of a component mounted over a store. *)
Definition mount (conversationId : option jsstring) (store : Store) : World :=
  {| view := initialView conversationId; db := store; reads := 0;
     trace := [] |}.

(** * Notions used by the properties *)

(** The world after one more outside call. *)
Definition logged (ev : Event) (w : World) : World :=
  {| view := view w; db := db w; reads := reads w; trace := trace w ++ [ev] |}.

Definition isDbPut (ev : Event) : bool :=
  match ev with
  | DbPut _ => true
  | _ => false
  end.

(** The outside calls a task makes, in order. *)
Fixpoint effects (ss : list Step) : list Event :=
  match ss with
  | Yield _ :: r => effects r
  | Effect ev :: r => ev :: effects r
  | [] => []
  end.

(** ** Stored messages and conversations *)

(** [{ ...msg, parts }]. *)
Definition withParts (parts : list MessagePart) (msg : StoredMessage)
    : StoredMessage :=
  {| sm_id := sm_id msg; sm_author := sm_author msg;
     sm_parts := Some parts; sm_content := sm_content msg |}.

(** The view message [m] is the stored message [msg] as the specification
    has it after loading: the message itself when it has [parts]; otherwise the
    message with a single text part, of its [content] when that is a
    string, and empty when it is not. *)
Definition loadedAs (msg : StoredMessage) (m : ChatMessage) : Prop :=
  match sm_parts msg with
  | Some _ => stored m = msg
  | None =>
      match sm_content msg with
      | JsString content => stored m = withParts [TextPart content] msg
      | _ => stored m = withParts [TextPart []] msg
      end
  end.

(** The store has a chat conversation under [key]. *)
Definition storesChat (key : jsstring) (store : Store) : Prop :=
  exists c, getConversation key store = Some c /\ conv_type c = lit "chat".

(** [saveMessage] will write: there is no conversation yet, or the ref
    names a chat conversation of the store. *)
Definition persistable (w : World) : Prop :=
  match truthyId (currentConversationIdRef (view w)) with
  | None => True
  | Some key => storesChat key (db w)
  end.

(** The title the specification gives to a conversation created for
    [message]: the first text part cut at 40 code units, with an ellipsis
    when it was longer; ['New Chat'] without a text part. *)
Definition specTitle (message : ChatMessage) : jsstring :=
  match List.find isText (msg_parts message) with
  | Some (TextPart text) =>
      if (40 <? length text)%nat then take 40 text ++ lit "..." else text
  | _ => lit "New Chat"
  end.

(** The title as the code gives it: an empty first text part counts as no
    text part. *)
Definition codeTitle (message : ChatMessage) : jsstring :=
  match List.find isText (msg_parts message) with
  | Some (TextPart []) => lit "New Chat"
  | _ => specTitle message
  end.

(** ** Submitting and streaming *)

(** The model message of [handleSubmit] with the text accumulated so far. *)
Definition placeholder (modelMessageId text : jsstring) : ChatMessage :=
  {| msg_id := modelMessageId; msg_author := MODEL;
     msg_parts := [TextPart text]; msg_content := JsUndefined |}.

(** The user message [handleSubmit] builds in world [w]. *)
Definition userMessageOf (env : Env) (w : World) : ChatMessage :=
  {| msg_id := toString (clock env (reads w)); msg_author := USER;
     msg_parts := userParts (view w); msg_content := JsUndefined |}.

(** The history [handleSubmit] sends to the service in world [w]. *)
Definition historyOf (env : Env) (w : World) : list ChatMessage :=
  List.filter (fun m => negb (isInitial m)) (messages (view w))
  ++ [userMessageOf env w].

(** The request [getChatResponseStream] sends for a history and a model. *)
Definition chatRequest (messages : list ChatMessage) (model : jsstring)
    : ChatRequest :=
  {| chat_model := model; chat_contents := buildContents messages;
     chat_systemInstruction := systemInstruction |}.

(** The remote call fails: the promise rejects or the stream breaks. *)
Definition chatFails (r : ChatRemote) : Prop :=
  match r with
  | ChatRejects _ => True
  | ChatResolves _ (Some _) => True
  | ChatResolves _ None => False
  end.

(** The texts the remote call delivered before it ended. *)
Definition received (r : ChatRemote) : list jsstring :=
  match r with
  | ChatRejects _ => []
  | ChatResolves chunks _ => chunks
  end.

(** ** The wire translation in the words of the specification *)

(** A text part stays a text, an image part becomes inline data with its
    MIME type and base64 payload, any other part is not replayed. *)
Definition wirePart (part : MessagePart) : option Part :=
  match part with
  | TextPart text => Some (WireText text)
  | ImagePart _ base64 mimeType => Some (WireInlineData mimeType base64)
  | ImageGenerationResultPart _ _ _ => None
  end.

(** Role ['user'] for USER, ['model'] for all others. *)
Definition wireRole (a : Author) : jsstring :=
  match a with
  | USER => lit "user"
  | MODEL => lit "model"
  end.

Definition translate (msg : ChatMessage) : Content :=
  {| role := wireRole (msg_author msg);
     wire_parts := omap wirePart (msg_parts msg) |}.

(** The message contains a text or image part. *)
Definition replayed (msg : ChatMessage) : Prop :=
  Exists (fun part => is_Some (wirePart part)) (msg_parts msg).

#[export] Instance replayed_dec (msg : ChatMessage) : Decision (replayed msg).
Proof. unfold replayed. apply _. Defined.

(** Messages without a text or image part are dropped, the others
    translated, in order. *)
Definition specContents (messages : list ChatMessage) : list Content :=
  translate <$> filter replayed messages.

(** ** Image generation *)

(** The parameters [handleGenerateImage] passes to the service. *)
Definition paramsOf (s : ViewState) : GenerationParameters :=
  {| gp_model := genModel s; gp_aspectRatio := genAspectRatio s;
     gp_numberOfImages := genNumImages s; gp_outputMimeType := None |}.

(** The request [generateImage] sends for a prompt and parameters. *)
Definition imageRequest (prompt : jsstring) (params : GenerationParameters)
    : ImageRequest :=
  {| ireq_model := gp_model params; ireq_prompt := prompt;
     ireq_config :=
       {| cfg_numberOfImages := gp_numberOfImages params;
          cfg_aspectRatio := gp_aspectRatio params;
          cfg_outputMimeType :=
            orElse (gp_outputMimeType params) (lit "image/png") |} |}.

(** The remote call fails or returns no images. *)
Definition imagesFail (r : ImageRemote) : Prop :=
  match r with
  | ImagesRejects _ => True
  | ImagesResolves None => True
  | ImagesResolves (Some []) => True
  | ImagesResolves (Some (_ :: _)) => False
  end.

(** The user message [handleGenerateImage] builds in world [w]. *)
Definition generationRequestOf (env : Env) (w : World) : ChatMessage :=
  {| msg_id := toString (clock env (reads w)); msg_author := USER;
     msg_parts :=
       [TextPart (lit "Generate image: " ++ [dquote] ++ genPrompt (view w)
                  ++ [dquote])];
     msg_content := JsUndefined |}.

(** The parts of the MODEL message that answers a generation. *)
Definition replyParts (s : ViewState) (result : option (list jsstring))
    : list MessagePart :=
  match result with
  | Some urls =>
      [ImageGenerationResultPart (map (fun url => {| img_url := url |}) urls)
         (genPrompt s) (paramsOf s)]
  | None => [TextPart imageApology]
  end.

(** * Sample surroundings, worlds and messages *)

(** A clock that advances by one millisecond per reading; the remote
    endpoint answers with an empty stream and without images. *)
Definition idleEnv : Env :=
  {| clock := fun n => 1700000000000 + Z.of_nat n;
     chatRemote := fun _ => ChatResolves [] None;
     imageRemote := fun _ => ImagesResolves None |}.

(** The stream delivers ["Hel"] and ["lo"] and ends. *)
Definition helloEnv : Env :=
  {| clock := fun n => 1700000000000 + Z.of_nat n;
     chatRemote := fun _ => ChatResolves [lit "Hel"; lit "lo"] None;
     imageRemote := fun _ => ImagesResolves None |}.

(** The stream delivers ["Hel"] and ["lo"] and breaks. *)
Definition brokenStreamEnv : Env :=
  {| clock := fun n => 1700000000000 + Z.of_nat n;
     chatRemote :=
       fun _ => ChatResolves [lit "Hel"; lit "lo"]
                  (Some (RemoteError (lit "network")));
     imageRemote := fun _ => ImagesRejects (RemoteError (lit "network")) |}.

(** Every remote call is rejected. *)
Definition rejectingEnv : Env :=
  {| clock := fun n => 1700000000000 + Z.of_nat n;
     chatRemote := fun _ => ChatRejects (RemoteError (lit "network"));
     imageRemote := fun _ => ImagesRejects (RemoteError (lit "quota")) |}.

(** Stored messages: old format with text, old format without, current. *)
Definition legacyText : StoredMessage :=
  {| sm_id := lit "1"; sm_author := USER; sm_parts := None;
     sm_content := JsString (lit "hi") |}.

Definition legacyBare : StoredMessage :=
  {| sm_id := lit "2"; sm_author := MODEL; sm_parts := None;
     sm_content := JsUndefined |}.

Definition currentFormat : StoredMessage :=
  {| sm_id := lit "3"; sm_author := USER;
     sm_parts := Some [TextPart (lit "a"); TextPart (lit "b")];
     sm_content := JsUndefined |}.

(** A chat conversation stored under ["7"] with the three of them. *)
Definition legacyConversation : Conversation :=
  {| conv_id := lit "7"; conv_title := lit "old";
     conv_messages := [legacyText; legacyBare; currentFormat];
     conv_createdAt := 1500000000000; conv_modelUsed := lit "gemini-2.5-pro";
     conv_isFavorite := false; conv_type := lit "chat" |}.

Definition legacyStore : Store := {[ lit "7" := legacyConversation ]}.

Definition aMessage : ChatMessage :=
  {| msg_id := lit "7"; msg_author := USER;
     msg_parts := [TextPart (lit "hi")]; msg_content := JsUndefined |}.

(** An upload followed by a text of 42 code units. *)
Definition longMessage : ChatMessage :=
  {| msg_id := lit "7"; msg_author := USER;
     msg_parts :=
       [ImagePart (lit "blob:1") (lit "AAAA") (lit "image/png");
        TextPart (lit "0123456789012345678901234567890123456789ab")];
     msg_content := JsUndefined |}.

(** A reply of the model whose stream yielded nothing. *)
Definition emptyTextMessage : ChatMessage :=
  {| msg_id := lit "7"; msg_author := MODEL;
     msg_parts := [TextPart []]; msg_content := JsUndefined |}.

Definition generationRequest : ChatMessage :=
  {| msg_id := lit "1700000000000"; msg_author := USER;
     msg_parts := [TextPart (lit "Generate image: cat")];
     msg_content := JsUndefined |}.

Definition generationResult : ChatMessage :=
  {| msg_id := lit "1700000000001"; msg_author := MODEL;
     msg_parts :=
       [ImageGenerationResultPart
          [{| img_url := lit "data:image/png;base64,AAAA" |}]
          (lit "cat")
          {| gp_model := Imagen_3_0_generate_002; gp_aspectRatio := Ratio_3_4;
             gp_numberOfImages := Num 1; gp_outputMimeType := None |}];
     msg_content := JsUndefined |}.

(** Three blanks in the input, nothing attached. *)
Definition blankInput : World :=
  {| view := with_input (lit "   ") (initialView None); db := ∅; reads := 0;
     trace := [] |}.

(** A text in the input while a request is in flight. *)
Definition busy : World :=
  {| view := with_isLoading true (with_input (lit "hi") (initialView None));
     db := ∅; reads := 0; trace := [] |}.

(** The ref names the conversation ["42"]; the store is empty. *)
Definition staleRef : World := mount (Some (lit "42")) ∅.

(** A new conversation showing the greeting, ["hi"] typed. *)
Definition typedHi : World :=
  {| view := with_input (lit "hi") (with_messages (fun _ => [greeting])
                                      (initialView None));
     db := ∅; reads := 0; trace := [] |}.

(** The greeting, a generation and its result on screen; an image
    attached and ["describe"] typed. *)
Definition describeUpload : World :=
  {| view :=
       with_uploadedImage
         (Some {| up_url := lit "blob:1"; up_base64 := lit "AAAA";
                  up_mimeType := lit "image/png" |})
         (with_input (lit "describe")
            (with_messages
               (fun _ => [greeting; generationRequest; generationResult])
               (initialView None)));
     db := ∅; reads := 0; trace := [] |}.

(** The generation panel open with the prompt ["cat"]. *)
Definition promptCat (conversationId : option jsstring) : World :=
  {| view := with_showGenerationPanel true
               (with_genPrompt (lit "cat") (initialView conversationId));
     db := ∅; reads := 0; trace := [] |}.

(** The user opens the panel, types a prompt, types 9 in the count field. *)
Definition nineImages : World :=
  let run (m : M unit) (w : World) := (m w).2 in
  run (onChangeGenNumImages (lit "9"))
    (run (onChangeGenPrompt (lit "cat"))
       (run onOpenGenerationPanel
          (run (loadConversation None) (mount None ∅)))).

(** * The rest of the service: image analysis and image editing *)

(** The modalities a response may be asked for ([Modality] of the SDK);
    the service asks for [IMAGE] only. *)
Inductive Modality := TEXT | IMAGE.

(** The request of [ai.models.generateContent]: a model, the parts of the
    single content, and the response modalities when given. *)
Record GenerateContentRequest := {
  gc_model : jsstring;
  gc_parts : list Part;
  gc_responseModalities : option (list Modality);
}.

(** The response, as far as the service reads it; every field of the SDK
    types is optional. *)
Record ResponseInlineData := {
  rid_data : option jsstring;
  rid_mimeType : option jsstring;
}.

Record ResponsePart := {
  rp_inlineData : option ResponseInlineData;
  rp_text : option jsstring;
}.

Record ResponseContent := { rc_parts : option (list ResponsePart) }.

Record Candidate := { cand_content : option ResponseContent }.

Record GenerateContentResponse := {
  resp_text : option jsstring;
  resp_candidates : option (list Candidate);
}.

(** What [ai.models.generateContent] does for a request. *)
Inductive ContentRemote :=
| ContentRejects (e : JsError)
| ContentResolves (response : GenerateContentResponse).

(** The calls of these two functions that leave the service. *)
Inductive ServiceEvent :=
| GenerateContentCalled (req : GenerateContentRequest)
| ErrorLogged (label : jsstring) (e : JsError).

(** An async function of the service: the calls it makes, then how its
    promise settles. *)
Record Async (A : Type) := {
  calls : list ServiceEvent;
  settled : Completion A;
}.
Arguments calls {A} a.
Arguments settled {A} a.

#[export] Instance Async_ret : MRet Async := fun A a =>
  {| calls := []; settled := Returned a |}.

#[export] Instance Async_bind : MBind Async := fun A B f t =>
  match settled t with
  | Returned a => {| calls := calls t ++ calls (f a); settled := settled (f a) |}
  | Threw e => {| calls := calls t; settled := Threw e |}
  end.

Definition called (ev : ServiceEvent) : Async unit :=
  {| calls := [ev]; settled := Returned tt |}.

Definition reject {A} (e : JsError) : Async A :=
  {| calls := []; settled := Threw e |}.

(** [try { body } catch (error) { handler }] in an async function. *)
Definition tryAsync {A} (body : Async A) (handler : JsError -> Async A)
    : Async A :=
  match settled body with
  | Returned a => body
  | Threw e =>
      {| calls := calls body ++ calls (handler e);
         settled := settled (handler e) |}
  end.

(** Reading a property of [undefined] throws. *)
Definition defined {A} (what : string) (v : option A) : Async A :=
  match v with
  | Some a => mret a
  | None => reject (TypeError (lit what))
  end.

Definition analyzeApology : jsstring :=
  lit "Sorry, I couldn't analyze the image.".

(** The loop of [editImage] over the parts of the first candidate: the
    first part with inline data ends it. *)
Fixpoint firstInlineImage (parts : list ResponsePart) : option jsstring :=
  match parts with
  | part :: rest =>
      match rp_inlineData part with
      | Some inlineData =>
          let base64ImageBytes := rid_data inlineData in
          Some (lit "data:image/png;base64," ++ interpolate base64ImageBytes)
      | None => firstInlineImage rest
      end
  | [] => None
  end.

Section ContentService.
Variable contentRemote : GenerateContentRequest -> ContentRemote.

(** [await ai.models.generateContent(req)]. *)
Definition generateContent (req : GenerateContentRequest)
    : Async GenerateContentResponse :=
  called (GenerateContentCalled req);;
  match contentRemote req with
  | ContentRejects e => reject e
  | ContentResolves response => mret response
  end.

(** [analyzeImage]; the result is [response.text], which the SDK may leave
    undefined. *)
Definition analyzeImage (base64Image mimeType prompt : jsstring)
    : Async (option jsstring) :=
  tryAsync
    (let imagePart := WireInlineData mimeType base64Image in
     let textPart := WireText prompt in
     response ←
       generateContent
         {| gc_model := lit "gemini-2.5-flash";
            gc_parts := [imagePart; textPart];
            gc_responseModalities := None |};
     mret (resp_text response))
    (fun error =>
       called (ErrorLogged (lit "Error analyzing image:") error);;
       mret (Some analyzeApology)).

(** [editImage]: [response.candidates[0].content.parts] is scanned for the
    first inline payload. *)
Definition editImage (base64Image mimeType prompt : jsstring)
    : Async (option jsstring) :=
  tryAsync
    (response ←
       generateContent
         {| gc_model := lit "gemini-2.5-flash-image";
            gc_parts := [WireInlineData mimeType base64Image; WireText prompt];
            gc_responseModalities := Some [IMAGE] |};
     candidates ← defined "response.candidates" (resp_candidates response);
     candidate ← defined "response.candidates[0]" (head candidates);
     content ← defined "content" (cand_content candidate);
     parts ← defined "parts" (rc_parts content);
     mret (firstInlineImage parts))
    (fun error =>
       called (ErrorLogged (lit "Error editing image:") error);;
       mret None).
End ContentService.

(** * The rest of the view: file selection, the other controls *)

Definition comma : N := 44%N.

(** [s.split(',')]. *)
Fixpoint splitComma (s : jsstring) : list jsstring :=
  match s with
  | [] => [[]]
  | c :: r =>
      if (c =? comma)%N then [] :: splitComma r
      else
        match splitComma r with
        | segment :: segments => (c :: segment) :: segments
        | [] => [[c]]
        end
  end.

(** [s.split(',')[1]]. *)
Definition secondSegment (s : jsstring) : option jsstring :=
  splitComma s !! 1%nat.

(** What the [FileReader] does with a file: [onload] with its result, a
    data URL, given as what precedes its first separator comma and what
    follows ([data:<type>;base64] and the payload); or [onerror]. *)
Inductive ReaderOutcome :=
| ReaderLoads (header rest : jsstring)
| ReaderFails (e : JsError).

(** [reader.result] on load. *)
Definition readerResult (header rest : jsstring) : jsstring :=
  header ++ comma :: rest.

(** A file of the file input: its [type], the URL that
    [URL.createObjectURL] gives it, and what reading it does. *)
Record SelectedFile := {
  file_type : jsstring;
  file_objectURL : jsstring;
  file_reader : ReaderOutcome;
}.

(** [fileToBase64]: the promise resolves with [result.split(',')[1]] or
    rejects with the error of the reader. The result of the reader has a
    comma, so the second segment exists ([secondSegment_readerResult]). *)
Definition fileToBase64 (file : SelectedFile) : M jsstring :=
  match file_reader file with
  | ReaderLoads header rest =>
      mret (default [] (secondSegment (readerResult header rest)))
  | ReaderFails e => throw e
  end.

(** [handleFileChange]; [file] is [e.target.files?.[0]]. Emptying the value
    of the file input afterwards touches neither view nor store. *)
Definition handleFileChange (file : option SelectedFile) : M unit :=
  match file with
  | Some f =>
      base64 ← fileToBase64 f;
      setUploadedImage
        (Some {| up_url := file_objectURL f; up_base64 := base64;
                 up_mimeType := file_type f |});;
      setShowGenerationPanel false
  | None => mret tt
  end.

(** The other [onChange] and [onClick] handlers of the markup. *)
Definition onChangeModel (value : jsstring) : M unit := setModel value.
Definition onChangeGenModel (value : ImagenModel) : M unit :=
  setGenModel value.
Definition onChangeGenAspectRatio (value : AspectRatio) : M unit :=
  setGenAspectRatio value.
Definition onRemoveUpload : M unit := setUploadedImage None.
Definition onCancelGeneration : M unit := setShowGenerationPanel false.

(** [disabled] of the model selector:
    [messages.length > 1 && messages.some(m => m.id !== 'initial')
     || showGenerationPanel]. *)
Definition modelSelectDisabled (s : ViewState) : bool :=
  (1 <? length (messages s))%nat
  && existsb (fun m => negb (isInitial m)) (messages s)
  || showGenerationPanel s.

(** [disabled] of the send button:
    [isLoading || (!input.trim() && !uploadedImage)]. *)
Definition sendDisabled (s : ViewState) : bool :=
  isLoading s
  || negb (truthy (trim (input s)))
     && negb (bool_decide (is_Some (uploadedImage s))).

(** [disabled] of the Generate button: [!genPrompt.trim() || isLoading]. *)
Definition generateDisabled (s : ViewState) : bool :=
  negb (truthy (trim (genPrompt s))) || isLoading s.

(** What the user, or the parent through [conversationId], can do to the
    component. *)
Inductive Action :=
| ChangeConversation (conversationId : option jsstring)
| ChangeInput (value : jsstring)
| ChangeModel (value : jsstring)
| SelectFile (file : option SelectedFile)
| RemoveUpload
| OpenGenerationPanel
| CancelGeneration
| ChangeGenPrompt (value : jsstring)
| ChangeGenModel (value : ImagenModel)
| ChangeGenAspectRatio (value : AspectRatio)
| ChangeGenNumImages (value : jsstring)
| Submit
| Generate
| Recall (prompt : jsstring) (params : GenerationParameters).

(** The handler the markup binds to each action. *)
Definition dispatch (env : Env) (a : Action) : M unit :=
  match a with
  | ChangeConversation conversationId => loadConversation conversationId
  | ChangeInput value => onChangeInput value
  | ChangeModel value => onChangeModel value
  | SelectFile file => handleFileChange file
  | RemoveUpload => onRemoveUpload
  | OpenGenerationPanel => onOpenGenerationPanel
  | CancelGeneration => onCancelGeneration
  | ChangeGenPrompt value => onChangeGenPrompt value
  | ChangeGenModel value => onChangeGenModel value
  | ChangeGenAspectRatio value => onChangeGenAspectRatio value
  | ChangeGenNumImages value => onChangeGenNumImages value
  | Submit => handleSubmit env
  | Generate => handleGenerateImage env
  | Recall prompt params => handleRecallGeneration prompt params
  end.

(** The world after a handler has run, however it ended. *)
Definition worldAfter {A} (m : M A) (w : World) : World := (m w).2.

(** The world after a sequence of actions, one handler after the other. *)
Definition worldAfterAll (env : Env) (actions : list Action) (w : World)
    : World :=
  fold_left (fun w a => worldAfter (dispatch env a) w) actions w.

(** * Further notions *)

(** The store is keyed by the identifiers of its conversations. *)
Definition keyed (store : Store) : Prop :=
  forall key c, getConversation key store = Some c -> conv_id c = key.

(** Upload and generation panel exclude each other. *)
Definition exclusive (s : ViewState) : Prop :=
  showGenerationPanel s = true -> uploadedImage s = None.

(** The conversation [saveMessage] creates for [message] in world [w]. *)
Definition newConversationOf (env : Env) (model : jsstring)
    (message : ChatMessage) (w : World) : Conversation :=
  {| conv_id := toString (clock env (reads w));
     conv_title :=
       substring0 40 (titleText message)
       ++ (if (40 <? length (titleText message))%nat then lit "..." else []);
     conv_messages := [stored message];
     conv_createdAt := clock env (S (reads w));
     conv_modelUsed := model;
     conv_isFavorite := false;
     conv_type := lit "chat" |}.

(** The identifier [saveMessage] returns in world [w]. *)
Definition savedKey (env : Env) (w : World) : jsstring :=
  match truthyId (currentConversationIdRef (view w)) with
  | Some key => key
  | None => toString (clock env (reads w))
  end.

(** The world [saveMessage] leaves. *)
Definition savedWorld (env : Env) (model : jsstring) (message : ChatMessage)
    (w : World) : World :=
  match truthyId (currentConversationIdRef (view w)) with
  | None =>
      let c := newConversationOf env model message w in
      {| view := with_currentConversationIdRef (Some (conv_id c)) (view w);
         db := addOrUpdateConversation c (db w);
         reads := S (S (reads w));
         trace := trace w ++ [DbPut c; ConversationCreated (conv_id c)] |}
  | Some key =>
      match getConversation key (db w) with
      | Some c =>
          if isChat c
          then
            {| view := view w;
               db := addOrUpdateConversation (pushMessage c message) (db w);
               reads := reads w;
               trace :=
                 trace w ++ [DbGet key; DbPut (pushMessage c message)] |}
          else logged (DbGet key) w
      | None => logged (DbGet key) w
      end
  end.

(** The messages of the conversation the ref names, as stored. *)
Definition storedMessages (w : World) : list StoredMessage :=
  match truthyId (currentConversationIdRef (view w)) with
  | Some key =>
      match getConversation key (db w) with
      | Some c => conv_messages c
      | None => []
      end
  | None => []
  end.

(** The message list after the streaming loop has received [frags],
    starting from the accumulated text [acc]. *)
Definition streamedFrom (modelMessageId acc : jsstring)
    (frags : list jsstring) (msgs : list ChatMessage) : list ChatMessage :=
  match frags with
  | [] => msgs
  | _ :: _ => map (replaceText modelMessageId (acc ++ concat frags)) msgs
  end.

(** The identifier [handleSubmit] gives the model message in world [w]. *)
Definition modelMessageIdOf (env : Env) (w : World) : jsstring :=
  let reads1 :=
    match truthyId (currentConversationIdRef (view w)) with
    | Some _ => S (reads w)
    | None => S (S (S (reads w)))
    end in
  toString (clock env reads1 + 1).

(** The parameters without the output MIME type, which the view drops. *)
Definition withoutMimeType (params : GenerationParameters)
    : GenerationParameters :=
  {| gp_model := gp_model params; gp_aspectRatio := gp_aspectRatio params;
     gp_numberOfImages := gp_numberOfImages params;
     gp_outputMimeType := None |}.

Definition isConversationCreated (ev : Event) : bool :=
  match ev with
  | ConversationCreated _ => true
  | _ => false
  end.

Definition isConsoleError (ev : Event) : bool :=
  match ev with
  | ConsoleError _ _ => true
  | _ => false
  end.

Definition isChatRequested (ev : Event) : bool :=
  match ev with
  | ChatRequested _ => true
  | _ => false
  end.

(** [segment] up to its first comma. *)
Fixpoint untilComma (s : jsstring) : jsstring :=
  match s with
  | [] => []
  | c :: r => if (c =? comma)%N then [] else c :: untilComma r
  end.

Definition isImagesRequested (ev : Event) : bool :=
  match ev with
  | ImagesRequested _ => true
  | _ => false
  end.

(** The outside calls of [saveMessage] in world [w]. *)
Definition savedEvents (env : Env) (model : jsstring) (message : ChatMessage)
    (w : World) : list Event :=
  match truthyId (currentConversationIdRef (view w)) with
  | None =>
      let c := newConversationOf env model message w in
      [DbPut c; ConversationCreated (conv_id c)]
  | Some key =>
      match getConversation key (db w) with
      | Some c =>
          if isChat c then [DbGet key; DbPut (pushMessage c message)]
          else [DbGet key]
      | None => [DbGet key]
      end
  end.

(** The world after one reading of the clock. *)
Definition afterRead (w : World) : World :=
  {| view := view w; db := db w; reads := S (reads w); trace := trace w |}.

(** ** Further sample inputs *)

(** A chat conversation stored under ["42"], one old-format message and
    one current. *)
Definition storedChat : Conversation :=
  {| conv_id := lit "42"; conv_title := lit "hi";
     conv_messages := [legacyText; currentFormat];
     conv_createdAt := 1600000000000; conv_modelUsed := lit "gemini-2.5-pro";
     conv_isFavorite := true; conv_type := lit "chat" |}.

Definition oneChat : Store := {[ lit "42" := storedChat ]}.

(** The component showing the conversation ["42"] of [oneChat], ["more"]
    typed. *)
Definition resumed : World :=
  {| view :=
       with_input (lit "more")
         (with_messages (fun _ => map migrate (conv_messages storedChat))
            (initialView (Some (lit "42"))));
     db := oneChat; reads := 0; trace := [] |}.

(** The remote endpoint returns two images, the second without bytes. *)
Definition paintingEnv : Env :=
  {| clock := fun n => 1700000000000 + Z.of_nat n;
     chatRemote := fun _ => ChatResolves [] None;
     imageRemote :=
       fun _ =>
         ImagesResolves
           (Some [{| image := Some {| imageBytes := Some (lit "AAAA") |} |};
                  {| image := Some {| imageBytes := None |} |}]) |}.


Definition pngFile : SelectedFile :=
  {| file_type := lit "image/png"; file_objectURL := lit "blob:1";
     file_reader := ReaderLoads (lit "data:image/png;base64") (lit "AAAA") |}.

Definition unreadableFile : SelectedFile :=
  {| file_type := lit "image/png"; file_objectURL := lit "blob:2";
     file_reader := ReaderFails (RemoteError (lit "NotReadableError")) |}.

Definition recalledParams : GenerationParameters :=
  {| gp_model := Imagen_4_0_generate_001; gp_aspectRatio := Ratio_16_9;
     gp_numberOfImages := Num 2; gp_outputMimeType := Some (lit "image/jpeg") |}.

(** A response whose first candidate has a text part, then two inline
    images. *)
Definition editedResponse : GenerateContentResponse :=
  {| resp_text := Some (lit "done");
     resp_candidates :=
       Some [{| cand_content :=
                  Some {| rc_parts :=
                            Some [{| rp_inlineData := None;
                                     rp_text := Some (lit "done") |};
                                  {| rp_inlineData :=
                                       Some {| rid_data := Some (lit "BBBB");
                                               rid_mimeType :=
                                                 Some (lit "image/jpeg") |};
                                     rp_text := None |};
                                  {| rp_inlineData :=
                                       Some {| rid_data := Some (lit "CCCC");
                                               rid_mimeType := None |};
                                     rp_text := None |}] |} |}] |}.

(** A response without candidates. *)
Definition blockedResponse : GenerateContentResponse :=
  {| resp_text := None; resp_candidates := None |}.

(** A session: a message is typed and sent, an image is generated, a file
    is attached, the panel is opened again. *)
Definition session : list Action :=
  [ChangeConversation None; ChangeInput (lit "hi"); Submit;
   OpenGenerationPanel; ChangeGenPrompt (lit "cat"); Generate;
   SelectFile (Some pngFile); SelectFile (Some unreadableFile);
   Recall (lit "dog") recalledParams].

(** ** The worlds [handleSubmit] passes through *)

(** After the view updates that precede the first save. *)
Definition submitStarted (env : Env) (w : World) : World :=
  {| view :=
       with_isLoading true
         (with_uploadedImage None
            (with_input []
               (with_messages (fun _ => historyOf env w) (view w))));
     db := db w; reads := S (reads w); trace := trace w |}.

(** After the user message has been saved. *)
Definition submitSaved (env : Env) (w : World) : World :=
  savedWorld env (model (view w)) (userMessageOf env w) (submitStarted env w).

Definition submitMessageId (env : Env) (w : World) : jsstring :=
  toString (clock env (reads (submitSaved env w)) + 1).

(** The chat stream of the submission and the text it yields. *)
Definition submitStream (env : Env) (w : World) : Task unit :=
  getChatResponseStream env (historyOf env w) (model (view w)).

Definition submitReply (env : Env) (w : World) : ChatMessage :=
  placeholder (submitMessageId env w)
    (concat (fragments (steps (submitStream env w)))).

(** After the streaming loop and [setIsLoading(false)]. *)
Definition submitStreamed (env : Env) (w : World) : World :=
  {| view :=
       with_isLoading false
         (with_messages
            (fun prev =>
               streamedFrom (submitMessageId env w) []
                 (fragments (steps (submitStream env w)))
                 (prev ++ [placeholder (submitMessageId env w) []]))
            (view (submitSaved env w)));
     db := db (submitSaved env w);
     reads := S (reads (submitSaved env w));
     trace := trace (submitSaved env w) ++ effects (steps (submitStream env w)) |}.

(** When [handleSubmit] returns. *)
Definition submitted (env : Env) (w : World) : World :=
  logged FocusInput
    (savedWorld env (model (view w)) (submitReply env w)
       (submitStreamed env w)).

(** ** The worlds [handleGenerateImage] passes through *)

Definition generateStarted (env : Env) (w : World) : World :=
  {| view :=
       with_messages
         (fun prev =>
            List.filter (fun m => negb (isInitial m)) prev
            ++ [generationRequestOf env w])
         (with_showGenerationPanel false (with_isLoading true (view w)));
     db := db w; reads := S (reads w); trace := trace w |}.

Definition generateSaved (env : Env) (w : World) : World :=
  savedWorld env (model (view w)) (generationRequestOf env w)
    (generateStarted env w).

Definition generateTask (env : Env) (w : World)
    : Task (option (list jsstring)) :=
  generateImage env (genPrompt (view w)) (paramsOf (view w)).

(** The MODEL message that answers the generation with [result]. *)
Definition generateReply (env : Env) (w : World)
    (result : option (list jsstring)) : ChatMessage :=
  {| msg_id := toString (clock env (reads (generateSaved env w)) + 1);
     msg_author := MODEL;
     msg_parts := replyParts (view w) result;
     msg_content := JsUndefined |}.

Definition generateAnswered (env : Env) (w : World)
    (result : option (list jsstring)) : World :=
  {| view :=
       with_messages (fun prev => prev ++ [generateReply env w result])
         (view (generateSaved env w));
     db := db (generateSaved env w);
     reads := S (reads (generateSaved env w));
     trace :=
       trace (generateSaved env w) ++ effects (steps (generateTask env w)) |}.

(** The world [w] with the view [s]. *)
Definition withView (s : ViewState) (w : World) : World :=
  {| view := s; db := db w; reads := reads w; trace := trace w |}.

(** When [handleGenerateImage] returns. *)
Definition generated (env : Env) (w : World)
    (result : option (list jsstring)) : World :=
  let w3 :=
    savedWorld env (model (view w)) (generateReply env w result)
      (generateAnswered env w result) in
  logged FocusInput
    (withView (with_isLoading false (with_genPrompt [] (view w3))) w3).

(** ** Data URLs *)

(** [`data:${mimeType};base64,${bytes}`]. *)
Definition dataUrl (mimeType : jsstring) (bytes : option jsstring)
    : jsstring :=
  lit "data:" ++ mimeType ++ lit ";base64," ++ interpolate bytes.

(** [img.image.imageBytes] of an image object that has its [image]. *)
Definition bytesOf (img : SdkGeneratedImage) : option jsstring :=
  match image img with
  | Some i => imageBytes i
  | None => None
  end.

Definition hasImage (img : SdkGeneratedImage) : bool :=
  bool_decide (is_Some (image img)).

(** The store has a conversation under each key of [keys]. *)
Definition holds (keys : list jsstring) (store : Store) : Prop :=
  Forall (fun key => is_Some (getConversation key store)) keys.

(** [response.candidates[0].content.parts], when every step of the path is
    there. *)
Definition firstCandidateParts (response : GenerateContentResponse)
    : option (list ResponsePart) :=
  candidates ← resp_candidates response;
  candidate ← head candidates;
  content ← cand_content candidate;
  rc_parts content.

(** The requests of [analyzeImage] and [editImage]. *)
Definition analyzeRequest (base64Image mimeType prompt : jsstring)
    : GenerateContentRequest :=
  {| gc_model := lit "gemini-2.5-flash";
     gc_parts := [WireInlineData mimeType base64Image; WireText prompt];
     gc_responseModalities := None |}.

Definition editRequest (base64Image mimeType prompt : jsstring)
    : GenerateContentRequest :=
  {| gc_model := lit "gemini-2.5-flash-image";
     gc_parts := [WireInlineData mimeType base64Image; WireText prompt];
     gc_responseModalities := Some [IMAGE] |}.

(** A remote endpoint for [generateContent] that answers every request
    with [response]. *)
Definition answering (response : GenerateContentResponse)
    : GenerateContentRequest -> ContentRemote :=
  fun _ => ContentResolves response.

(** * Properties *)

(** Unfolds the primitives of the handler monad. *)
Ltac unfold_M :=
  unfold mbind, mret, M_bind, M_ret, throw, setMessages, setInput,
    setIsLoading, setModel, setUploadedImage, setShowGenerationPanel,
    setGenPrompt, setGenAspectRatio, setGenModel, setGenNumImages, setRef,
    focusInput, modifyView, emit, readRef, dbGetConversation,
    dbAddOrUpdateConversation, dateNow in *.

(** ** The primitives on small inputs *)

Example trim_inner_blank : trim (lit "  a b  ") = lit "a b".
Proof. reflexivity. Qed.

Example trim_blank : trim (lit "   ") = [].
Proof. reflexivity. Qed.

Example parseInt10_digits : parseInt10 (lit " 12.5") = Num 12.
Proof. reflexivity. Qed.

Example parseInt10_negative : parseInt10 (lit "-3") = Num (-3).
Proof. reflexivity. Qed.

Example parseInt10_none : parseInt10 (lit "abc") = NaN.
Proof. reflexivity. Qed.

Example toString_stamp : toString 1700000000001 = lit "1700000000001".
Proof. reflexivity. Qed.

Example buildContents_sample :
  buildContents [greeting; generationRequest; generationResult; longMessage]
  = [{| role := lit "model";
        wire_parts :=
          [WireText (lit "Hello! I'm Gemini. How can I assist you today? You can ask me anything or generate an image!")] |};
     {| role := lit "user";
        wire_parts := [WireText (lit "Generate image: cat")] |};
     {| role := lit "user";
        wire_parts :=
          [WireInlineData (lit "image/png") (lit "AAAA");
           WireText (lit "0123456789012345678901234567890123456789ab")] |}].
Proof. reflexivity. Qed.

(** The scenario of the specification: a new conversation, ["hi"] typed
    and submitted, the reply streamed as ["Hel"] and ["lo"]. Two messages
    are on screen and in the one conversation stored, and the creation
    callback has fired once. *)
Example submit_hi :
  let w := (handleSubmit helloEnv typedHi).2 in
  let user := {| msg_id := lit "1700000000000"; msg_author := USER;
                 msg_parts := [TextPart (lit "hi")];
                 msg_content := JsUndefined |} in
  let reply := placeholder (lit "1700000000004") (lit "Hello") in
  messages (view w) = [user; reply]
  /\ (conv_messages <$> getConversation (lit "1700000000001") (db w))
     = Some [stored user; stored reply]
  /\ (conv_title <$> getConversation (lit "1700000000001") (db w))
     = Some (lit "hi")
  /\ List.filter
       (fun ev => match ev with ConversationCreated _ => true | _ => false end)
       (trace w)
     = [ConversationCreated (lit "1700000000001")]
  /\ isLoading (view w) = false.
Proof. vm_compute. repeat split. Qed.

(** ** Loading a conversation *)

Lemma loadConversation_chat (key : jsstring) (c : Conversation) (w : World) :
  truthy key = true ->
  getConversation key (db w) = Some c ->
  conv_type c = lit "chat" ->
  let w' := (loadConversation (Some key) w).2 in
  messages (view w') = map migrate (conv_messages c)
  /\ model (view w') = conv_modelUsed c.
Proof.
  intros Hk Hc Ht. unfold loadConversation, truthyId. rewrite Hk.
  unfold_M. cbn. rewrite Hc. unfold isChat.
  rewrite bool_decide_eq_true_2 by assumption. cbn.
  destruct (showGenerationPanel (view w)); split; reflexivity.
Qed.

(** ** Legacy migration *)

Lemma migrate_loadedAs (msg : StoredMessage) : loadedAs msg (migrate msg).
Proof.
  destruct msg as [i a ps c]. unfold loadedAs, migrate, stored, withParts.
  cbn. destruct ps; [reflexivity|]. destruct c; reflexivity.
Qed.

Lemma migrate_withParts (msg : StoredMessage) :
  exists parts, stored (migrate msg) = withParts parts msg.
Proof.
  destruct msg as [i a ps c]. unfold migrate, stored, withParts. cbn.
  destruct ps; [eauto|]. destruct c; eauto.
Qed.

Lemma loadConversation_returns (conversationId : option jsstring)
    (w : World) :
  (loadConversation conversationId w).1 = Returned tt.
Proof.
  unfold loadConversation.
  destruct (truthyId conversationId) as [key|]; unfold_M; cbn.
  - destruct (getConversation key (db w)) as [c|]; [destruct (isChat c)|];
      cbn; destruct (showGenerationPanel (view w)); reflexivity.
  - destruct (showGenerationPanel (view w)); reflexivity.
Qed.

(** C3. Loading a chat conversation of the store returns normally and
    shows one message for each stored message, in the stored order: a
    stored message without [parts] and with a string [content] is shown as
    that message with the single text part [content]; one without [parts]
    and without a string [content], as that message with a single empty
    text part; one with [parts], as it is. Hence every message shown after
    the load is its stored message with a [parts] field. *)
Theorem migrate_legacy (key : jsstring) (c : Conversation) (w : World) :
  truthy key = true ->
  getConversation key (db w) = Some c ->
  conv_type c = lit "chat" ->
  let r := loadConversation (Some key) w in
  r.1 = Returned tt
  /\ Forall2 loadedAs (conv_messages c) (messages (view r.2))
  /\ Forall2 (fun msg m => exists parts, stored m = withParts parts msg)
       (conv_messages c) (messages (view r.2))
  /\ (forall msg content,
        sm_parts msg = None -> sm_content msg = JsString content ->
        forall m, loadedAs msg m -> msg_parts m = [TextPart content])
  /\ (forall msg,
        sm_parts msg = None ->
        (forall content, sm_content msg <> JsString content) ->
        forall m, loadedAs msg m -> msg_parts m = [TextPart []])
  /\ (forall msg,
        is_Some (sm_parts msg) -> forall m, loadedAs msg m -> stored m = msg).
Proof.
  intros Hk Hc Ht. cbn zeta.
  destruct (loadConversation_chat key c w Hk Hc Ht) as [Hmsgs _].
  cbn zeta in Hmsgs. rewrite Hmsgs. clear Hmsgs Hc Ht.
  split; [apply loadConversation_returns|].
  split; [|split].
  - induction (conv_messages c) as [|msg msgs IH]; cbn [map];
      [constructor | constructor; [apply migrate_loadedAs | exact IH]].
  - induction (conv_messages c) as [|msg msgs IH]; cbn [map];
      [constructor | constructor; [apply migrate_withParts | exact IH]].
  - unfold loadedAs. repeat split.
    + intros msg content -> -> m [= _ _ Hparts _]. exact Hparts.
    + intros msg -> Hno m.
      destruct (sm_content msg) as [| | b | n | s] eqn:Hcontent;
        try (intros [= _ _ Hparts _]; exact Hparts).
      destruct (Hno s). reflexivity.
    + intros msg [parts ->] m H. exact H.
Qed.

Lemma migrate_legacy_witness :
  Forall2 loadedAs [legacyText; legacyBare; currentFormat]
    (messages (view (loadConversation (Some (lit "7"))
                       (mount None legacyStore)).2))
  /\ (msg_parts <$> messages (view (loadConversation (Some (lit "7"))
                                      (mount None legacyStore)).2))
     = [[TextPart (lit "hi")]; [TextPart []];
        [TextPart (lit "a"); TextPart (lit "b")]].
Proof.
  split; [|reflexivity].
  apply (proj1 (proj2 (migrate_legacy (lit "7") legacyConversation
                         (mount None legacyStore) eq_refl eq_refl eq_refl))).
Defined.

(** ** Without a conversation *)

(** C2, as the code has it. On a change of identifier: when the identifier
    is empty ([null] or the empty string) the message list becomes the
    single greeting of MODEL; when it names no conversation of the store, or
    one that is not a chat, the message list becomes empty. In both cases
    the selected chat model becomes the default. *)
Theorem loadConversation_without_conversation
    (conversationId : option jsstring) (w : World) :
  let w' := (loadConversation conversationId w).2 in
  (truthyId conversationId = None ->
     messages (view w') = [greeting] /\ msg_author greeting = MODEL
     /\ model (view w') = defaultModel)
  /\ (forall key,
        truthyId conversationId = Some key ->
        getConversation key (db w) = None
        \/ (exists c, getConversation key (db w) = Some c
                      /\ conv_type c <> lit "chat") ->
        messages (view w') = [] /\ model (view w') = defaultModel).
Proof.
  cbn zeta. split.
  - intros Hid. unfold loadConversation. rewrite Hid. unfold_M. cbn.
    destruct (showGenerationPanel (view w)); repeat split.
  - intros key Hid Hdb. unfold loadConversation. rewrite Hid. unfold_M. cbn.
    destruct Hdb as [-> | (c & -> & Ht)]; cbn.
    + destruct (showGenerationPanel (view w)); split; reflexivity.
    + unfold isChat. rewrite bool_decide_eq_false_2 by assumption. cbn.
      destruct (showGenerationPanel (view w)); split; reflexivity.
Qed.

Lemma loadConversation_without_conversation_witness :
  messages (view (loadConversation None (mount None ∅)).2) = [greeting]
  /\ messages (view (loadConversation (Some (lit "42"))
                       (mount (Some (lit "42")) ∅)).2) = [].
Proof.
  split.
  - apply (proj1 (loadConversation_without_conversation None (mount None ∅))).
    reflexivity.
  - apply (proj2 (loadConversation_without_conversation (Some (lit "42"))
                    (mount (Some (lit "42")) ∅)) (lit "42")).
    + reflexivity.
    + left. reflexivity.
Defined.

(** C2 as stated fails: the identifier ["42"] names no conversation of the
    empty store, and the message list after loading is empty, not a single
    greeting. *)
Lemma loadConversation_absent_counterexample :
  let w := mount (Some (lit "42")) ∅ in
  getConversation (lit "42") (db w) = None
  /\ ~ (exists g, messages (view (loadConversation (Some (lit "42")) w).2) = [g]
                  /\ msg_author g = MODEL).
Proof.
  split; [reflexivity|].
  intros (g & Hg & _). vm_compute in Hg. discriminate Hg.
Qed.

(** ** Submitting *)

(** C5. With an input that is empty once trimmed and no image attached, or
    while a request is in flight, [handleSubmit] returns at once: view,
    store, clock and trace of outside calls are the same as before, so no
    message is appended and nothing is persisted. *)
Theorem handleSubmit_rejected (env : Env) (w : World) :
  (trim (input (view w)) = [] /\ uploadedImage (view w) = None)
  \/ isLoading (view w) = true ->
  handleSubmit env w = (Returned tt, w).
Proof.
  intros H. unfold handleSubmit.
  assert (submitRejected (view w) = true) as ->; [|reflexivity].
  unfold submitRejected. destruct H as [[-> ->] | ->].
  - reflexivity.
  - apply orb_true_r.
Qed.

Lemma handleSubmit_rejected_witness :
  handleSubmit idleEnv blankInput = (Returned tt, blankInput)
  /\ handleSubmit idleEnv busy = (Returned tt, busy).
Proof.
  split.
  - apply (handleSubmit_rejected idleEnv blankInput). left.
    split; reflexivity.
  - apply (handleSubmit_rejected idleEnv busy). right. reflexivity.
Defined.

(** ** Saving a message *)

(** C10. When the conversation ref holds an identifier and the store has
    no conversation under it, or one whose type tag is not ['chat'],
    [saveMessage] drops the message: it reads the store and nothing else,
    it does not throw, and it returns the identifier it found. *)
Theorem saveMessage_dropped (env : Env) (model : jsstring)
    (message : ChatMessage) (w : World) (key : jsstring) :
  currentConversationIdRef (view w) = Some key ->
  key <> [] ->
  getConversation key (db w) = None
  \/ (exists c, getConversation key (db w) = Some c
                /\ conv_type c <> lit "chat") ->
  saveMessage env model message w = (Returned key, logged (DbGet key) w).
Proof.
  intros Href Hkey Hdb. unfold saveMessage. unfold_M. cbn.
  rewrite Href. unfold truthyId.
  destruct key as [|k0 key]; [congruence|]. cbn.
  destruct Hdb as [-> | (c & -> & Ht)]; cbn.
  - reflexivity.
  - unfold isChat. rewrite bool_decide_eq_false_2 by assumption.
    reflexivity.
Qed.

Lemma saveMessage_dropped_witness :
  saveMessage idleEnv defaultModel aMessage staleRef
  = (Returned (lit "42"), logged (DbGet (lit "42")) staleRef).
Proof.
  apply (saveMessage_dropped idleEnv defaultModel aMessage staleRef (lit "42")).
  - reflexivity.
  - discriminate.
  - left. reflexivity.
Defined.

(** What [saveMessage] does without a conversation: it creates one. *)
Lemma saveMessage_new (env : Env) (model : jsstring)
    (message : ChatMessage) (w : World) :
  truthyId (currentConversationIdRef (view w)) = None ->
  let key := toString (clock env (reads w)) in
  let c :=
    {| conv_id := key;
       conv_title :=
         substring0 40 (titleText message)
         ++ (if (40 <? length (titleText message))%nat then lit "..." else []);
       conv_messages := [stored message];
       conv_createdAt := clock env (S (reads w));
       conv_modelUsed := model;
       conv_isFavorite := false;
       conv_type := lit "chat" |} in
  saveMessage env model message w
  = (Returned key,
     {| view := with_currentConversationIdRef (Some key) (view w);
        db := addOrUpdateConversation c (db w);
        reads := S (S (reads w));
        trace := trace w ++ [DbPut c; ConversationCreated key] |}).
Proof.
  intros Href. unfold saveMessage. unfold_M. cbn. rewrite Href. cbn.
  rewrite <- app_assoc. reflexivity.
Qed.

Lemma title_code (message : ChatMessage) :
  substring0 40 (titleText message)
  ++ (if (40 <? length (titleText message))%nat then lit "..." else [])
  = codeTitle message.
Proof.
  unfold codeTitle, specTitle, titleText, substring0.
  destruct (List.find isText (msg_parts message)) as [[text| |]|];
    try reflexivity.
  destruct text as [|c text]; [reflexivity|]. cbn [truthy].
  destruct (40 <? length (c :: text))%nat eqn:Hlen; [reflexivity|].
  apply Nat.ltb_ge in Hlen. rewrite take_ge by lia. apply app_nil_r.
Qed.

(** C6, as the code has it. The conversation created for the first saved
    message is titled after the first text part of the message: its first
    40 code units followed by ['...'] when it is longer than 40, the whole
    text otherwise; and ['New Chat'] when the message has no text part or
    its first text part is empty. *)
Theorem saveMessage_title (env : Env) (model : jsstring)
    (message : ChatMessage) (w : World) :
  truthyId (currentConversationIdRef (view w)) = None ->
  exists key c w',
    saveMessage env model message w = (Returned key, w')
    /\ trace w' = trace w ++ [DbPut c; ConversationCreated key]
    /\ getConversation key (db w') = Some c
    /\ conv_messages c = [stored message]
    /\ conv_title c = codeTitle message
    /\ (forall text,
          List.find isText (msg_parts message) = Some (TextPart text) ->
          text <> [] ->
          conv_title c
          = if (40 <? length text)%nat then take 40 text ++ lit "..."
            else text)
    /\ (List.find isText (msg_parts message) = None
        \/ List.find isText (msg_parts message) = Some (TextPart []) ->
        conv_title c = lit "New Chat").
Proof.
  intros Href. eexists _, _, _. split; [apply saveMessage_new, Href|].
  cbn. rewrite title_code.
  split; [reflexivity|]. split.
  { unfold getConversation, addOrUpdateConversation. cbn.
    apply lookup_insert_eq. }
  split; [reflexivity|]. split; [reflexivity|]. split.
  - intros text Hfind Htext. unfold codeTitle, specTitle. rewrite Hfind.
    destruct text; [congruence|reflexivity].
  - intros [Hfind | Hfind]; unfold codeTitle, specTitle; rewrite Hfind;
      reflexivity.
Qed.

Lemma saveMessage_title_witness :
  exists key c w',
    saveMessage idleEnv defaultModel longMessage (mount None ∅)
    = (Returned key, w')
    /\ getConversation key (db w') = Some c
    /\ conv_title c = lit "0123456789012345678901234567890123456789...".
Proof.
  destruct (saveMessage_title idleEnv defaultModel longMessage (mount None ∅))
    as (key & c & w' & Hrun & _ & Hget & _ & _ & Htitle & _);
    [reflexivity|].
  exists key, c, w'. split; [exact Hrun|]. split; [exact Hget|].
  apply (Htitle (lit "0123456789012345678901234567890123456789ab"));
    [reflexivity | discriminate].
Defined.

(** C6 as stated fails: for a first message whose first text part is the
    empty string the specification gives the empty title, the code the
    title ['New Chat']. *)
Lemma saveMessage_title_counterexample :
  let r := saveMessage idleEnv defaultModel emptyTextMessage (mount None ∅) in
  List.find isText (msg_parts emptyTextMessage) = Some (TextPart [])
  /\ specTitle emptyTextMessage = []
  /\ (conv_title <$> getConversation (toString 1700000000000) (db r.2))
     = Some (lit "New Chat")
  /\ (conv_title <$> getConversation (toString 1700000000000) (db r.2))
     <> Some (specTitle emptyTextMessage).
Proof.
  repeat split; try reflexivity.
  vm_compute. discriminate.
Qed.

(** ** The chat stream *)

Lemma yieldChunks_steps (chunks : list jsstring) (ending : option JsError) :
  steps (yieldChunks chunks ending) = map Yield chunks
  /\ outcome (yieldChunks chunks ending)
     = match ending with
       | None => Returned tt
       | Some e => Threw e
       end.
Proof.
  induction chunks as [|c chunks [IHs IHo]]; cbn.
  - destruct ending; split; reflexivity.
  - unfold mbind, Task_bind. cbn. rewrite IHs, IHo. split; reflexivity.
Qed.

Lemma fragments_app (ss1 ss2 : list Step) :
  fragments (ss1 ++ ss2) = fragments ss1 ++ fragments ss2.
Proof.
  induction ss1 as [|[c|ev] ss1 IH]; cbn; [reflexivity| |assumption].
  now rewrite IH.
Qed.

Lemma fragments_Yield (chunks : list jsstring) :
  fragments (map Yield chunks) = chunks.
Proof. induction chunks as [|c chunks IH]; cbn; [|rewrite IH]; reflexivity. Qed.

(** The steps of the chat generator, by what the remote call does. *)
Lemma getChatResponseStream_steps (env : Env)
    (messages : list ChatMessage) (model : jsstring) :
  let req := chatRequest messages model in
  let task := getChatResponseStream env messages model in
  outcome task = Returned tt
  /\ steps task
     = Effect (ChatRequested req)
       :: match chatRemote env req with
          | ChatRejects e =>
              [Effect (ConsoleError
                         (lit "Error getting chat response stream:") e);
               Yield chatApology]
          | ChatResolves chunks (Some e) =>
              map Yield chunks
              ++ [Effect (ConsoleError
                            (lit "Error getting chat response stream:") e);
                  Yield chatApology]
          | ChatResolves chunks None => map Yield chunks
          end.
Proof.
  cbn zeta. unfold getChatResponseStream, generateContentStream, chatRequest.
  set (req := {| chat_model := model |}).
  unfold tryCatch, mbind, Task_bind. cbn.
  destruct (chatRemote env req) as [e | chunks ending]; cbn.
  - split; reflexivity.
  - destruct (yieldChunks_steps chunks ending) as [Hs Ho].
    rewrite Ho, Hs. destruct ending as [e|]; cbn; split; reflexivity.
Qed.

(** C4. The chat generator never throws. When the remote call fails, by a
    rejected promise or by a stream that breaks, the generator yields the
    texts received so far and then the apology, once, and ends; otherwise
    it yields the texts received. The caller sees text fragments only. *)
Theorem getChatResponseStream_never_throws (env : Env)
    (messages : list ChatMessage) (model : jsstring) :
  let r := chatRemote env (chatRequest messages model) in
  let task := getChatResponseStream env messages model in
  outcome task = Returned tt
  /\ (chatFails r ->
      fragments (steps task) = received r ++ [chatApology])
  /\ (~ chatFails r -> fragments (steps task) = received r).
Proof.
  cbn zeta.
  destruct (getChatResponseStream_steps env messages model) as [Ho Hs].
  split; [exact Ho|]. rewrite Hs. cbn [fragments].
  destruct (chatRemote env (chatRequest messages model))
    as [e | chunks [e|]]; cbn.
  - split; [reflexivity | tauto].
  - rewrite fragments_app, fragments_Yield. split; [reflexivity | tauto].
  - rewrite fragments_Yield. split; [tauto | reflexivity].
Qed.

Lemma getChatResponseStream_never_throws_witness :
  fragments (steps (getChatResponseStream brokenStreamEnv [aMessage]
                      defaultModel))
  = [lit "Hel"; lit "lo"; chatApology].
Proof.
  apply (proj1 (proj2 (getChatResponseStream_never_throws brokenStreamEnv
                         [aMessage] defaultModel))).
  exact I.
Defined.

(** ** Identifiers taken from the clock *)

Lemma toString_head (z : Z) :
  exists c s, toString z = c :: s /\ (c = 45%N \/ is_digit c = true).
Proof.
  unfold toString. destruct (Z.to_int z) as [d | d]; cbn.
  - destruct d; cbn; eexists _, _; (split; [reflexivity|]);
      right; reflexivity.
  - eexists _, _. split; [reflexivity|]. left. reflexivity.
Qed.

Lemma toString_truthy (z : Z) : truthy (toString z) = true.
Proof. destruct (toString_head z) as (c & s & -> & _). reflexivity. Qed.

Lemma toString_not_initial (z : Z) : toString z <> lit "initial".
Proof.
  destruct (toString_head z) as (c & s & -> & Hc). intros Heq.
  injection Heq as -> _. destruct Hc as [Hc | Hc]; discriminate Hc.
Qed.

Lemma truthyId_Some (r : option jsstring) (key : jsstring) :
  truthyId r = Some key <-> r = Some key /\ truthy key = true.
Proof.
  unfold truthyId. split.
  - destruct r as [k|]; [|discriminate].
    destruct (truthy k) eqn:Hk; [|discriminate].
    intros [= <-]. auto.
  - intros [-> ->]. reflexivity.
Qed.

Lemma with_currentConversationIdRef_same (s : ViewState) (key : jsstring) :
  currentConversationIdRef s = Some key ->
  with_currentConversationIdRef (Some key) s = s.
Proof. destruct s; cbn. now intros ->. Qed.

(** ** What [saveMessage] does *)

Arguments saveMessage : simpl never.

(** What [saveMessage] does when the ref holds an identifier. *)
Lemma saveMessage_known (env : Env) (model : jsstring)
    (message : ChatMessage) (w : World) (key : jsstring) :
  truthyId (currentConversationIdRef (view w)) = Some key ->
  saveMessage env model message w
  = (Returned key,
     match getConversation key (db w) with
     | Some c =>
         if isChat c
         then
           {| view := view w;
              db := addOrUpdateConversation (pushMessage c message) (db w);
              reads := reads w;
              trace :=
                trace w ++ [DbGet key; DbPut (pushMessage c message)] |}
         else logged (DbGet key) w
     | None => logged (DbGet key) w
     end).
Proof.
  intros Href. unfold saveMessage. unfold_M. cbn.
  rewrite Href. cbn. unfold logged.
  destruct (getConversation key (db w)) as [c|]; [|reflexivity].
  destruct (isChat c); cbn; [|reflexivity].
  rewrite <- app_assoc. reflexivity.
Qed.

Lemma saveMessage_existing (env : Env) (model : jsstring)
    (message : ChatMessage) (w : World) (key : jsstring) (c : Conversation) :
  truthyId (currentConversationIdRef (view w)) = Some key ->
  getConversation key (db w) = Some c ->
  conv_type c = lit "chat" ->
  saveMessage env model message w
  = (Returned key,
     {| view := view w;
        db := addOrUpdateConversation (pushMessage c message) (db w);
        reads := reads w;
        trace := trace w ++ [DbGet key; DbPut (pushMessage c message)] |}).
Proof.
  intros Href Hdb Ht. rewrite (saveMessage_known env model message w key Href).
  rewrite Hdb. unfold isChat.
  rewrite bool_decide_eq_true_2 by assumption. reflexivity.
Qed.

Lemma saveMessage_missing (env : Env) (model : jsstring)
    (message : ChatMessage) (w : World) (key : jsstring) :
  truthyId (currentConversationIdRef (view w)) = Some key ->
  ~ storesChat key (db w) ->
  saveMessage env model message w = (Returned key, logged (DbGet key) w).
Proof.
  intros Href Hno. rewrite (saveMessage_known env model message w key Href).
  unfold storesChat in Hno.
  destruct (getConversation key (db w)) as [c|]; [|reflexivity].
  unfold isChat. rewrite bool_decide_eq_false_2; [reflexivity|].
  intros Ht. apply Hno. eauto.
Qed.

Lemma storesChat_dec (key : jsstring) (store : Store) :
  storesChat key store \/ ~ storesChat key store.
Proof.
  unfold storesChat. destruct (getConversation key store) as [c|] eqn:Hc.
  - destruct (decide (conv_type c = lit "chat")) as [Ht | Ht].
    + left. eauto.
    + right. intros (c' & [= <-] & Ht'). contradiction.
  - right. intros (c' & [=] & _).
Qed.

(** In every case [saveMessage] returns a non-empty identifier, now held by
    the ref, and leaves the rest of the view alone. What it writes ends
    with the message. It writes exactly when the world is [persistable],
    and then the store has a chat conversation under the identifier. *)
Lemma saveMessage_summary (env : Env) (model : jsstring)
    (message : ChatMessage) (w : World) :
  exists key w' evs,
    saveMessage env model message w = (Returned key, w')
    /\ view w' = with_currentConversationIdRef (Some key) (view w)
    /\ truthy key = true
    /\ trace w' = trace w ++ evs
    /\ (forall req, ChatRequested req ∉ evs)
    /\ (forall c, DbPut c ∈ evs ->
          last (conv_messages c) = Some (stored message))
    /\ (persistable w ->
          (exists c, DbPut c ∈ evs) /\ storesChat key (db w'))
    /\ (~ persistable w -> db w' = db w /\ evs = [DbGet key])
    /\ (forall k,
          truthyId (currentConversationIdRef (view w)) = Some k -> key = k).
Proof.
  unfold persistable.
  destruct (truthyId (currentConversationIdRef (view w))) as [key|] eqn:Href.
  - destruct (storesChat_dec key (db w)) as [(c & Hc & Ht) | Hno].
    + eexists key, _, _. split;
        [apply (saveMessage_existing env model message w key c); assumption|].
      cbn. apply truthyId_Some in Href as [Href Hkey].
      split; [symmetry; apply with_currentConversationIdRef_same, Href|].
      split; [exact Hkey|]. split; [reflexivity|].
      split; [intros req; rewrite !elem_of_cons, elem_of_nil;
              intros [? | [? | []]]; discriminate|].
      split.
      { intros c'. rewrite !elem_of_cons, elem_of_nil.
        intros [? | [[= ->] | []]]; [discriminate|].
        cbn. apply last_snoc. }
      split.
      { intros _. split.
        - eexists. apply list_elem_of_further, list_elem_of_here.
        - unfold storesChat, getConversation, addOrUpdateConversation in *.
          cbn. destruct (decide (conv_id c = key)) as [<- | Hne].
          + rewrite lookup_insert_eq. eexists. split; [reflexivity|].
            exact Ht.
          + rewrite lookup_insert_ne by assumption. eauto. }
      split; [|intros k [= <-]; reflexivity].
      intros Hno. exfalso. apply Hno. exists c. auto.
    + eexists key, _, _. split;
        [apply (saveMessage_missing env model message w key Href Hno)|].
      apply truthyId_Some in Href as [Href Hkey].
      cbn. split; [symmetry; apply with_currentConversationIdRef_same, Href|].
      split; [exact Hkey|]. split; [reflexivity|].
      split; [intros req; rewrite elem_of_cons, elem_of_nil;
              intros [? | []]; discriminate|].
      split; [intros c; rewrite elem_of_cons, elem_of_nil;
              intros [? | []]; discriminate|].
      split; [intros H; contradiction|].
      split; [intros _; split; reflexivity|].
      intros k [= <-]. reflexivity.
  - eexists _, _, _. split; [apply saveMessage_new, Href|]. cbn.
    split; [reflexivity|]. split; [apply toString_truthy|].
    split; [reflexivity|].
    split; [intros req; rewrite !elem_of_cons, elem_of_nil;
            intros [? | [? | []]]; discriminate|].
    split.
    { intros c. rewrite !elem_of_cons, elem_of_nil.
      intros [[= ->] | [? | []]]; [reflexivity | discriminate]. }
    split.
    { intros _. split.
      - eexists. apply list_elem_of_here.
      - unfold storesChat, getConversation, addOrUpdateConversation. cbn.
        rewrite lookup_insert_eq. eexists. split; reflexivity. }
    split; [|discriminate].
    intros H. exfalso. apply H. exact I.
Qed.

(** ** The streaming loop *)

Lemma replaceText_placeholder (modelMessageId text text' : jsstring) :
  replaceText modelMessageId text' (placeholder modelMessageId text)
  = placeholder modelMessageId text'.
Proof.
  unfold replaceText, placeholder. cbn.
  rewrite bool_decide_eq_true_2 by reflexivity. reflexivity.
Qed.

Lemma receiveChunk_run (modelMessageId acc chunk : jsstring) (w : World) :
  receiveChunk modelMessageId acc chunk w
  = (Returned (acc ++ chunk),
     {| view :=
          with_messages (map (replaceText modelMessageId (acc ++ chunk)))
            (view w);
        db := db w; reads := reads w; trace := trace w |}).
Proof. reflexivity. Qed.

(** The loop keeps the placeholder last in the message list, with the text
    accumulated so far; it touches nothing else of the view, and neither
    store nor clock. *)
Lemma forAwaitSteps_receiveChunk (modelMessageId : jsstring)
    (ss : list Step) :
  forall (acc : jsstring) (w : World) (pre : list ChatMessage),
    messages (view w) = pre ++ [placeholder modelMessageId acc] ->
    exists w' pre',
      forAwaitSteps (receiveChunk modelMessageId) ss acc w
      = (Returned (acc ++ concat (fragments ss)), w')
      /\ messages (view w')
         = pre' ++ [placeholder modelMessageId (acc ++ concat (fragments ss))]
      /\ with_messages (fun _ => []) (view w')
         = with_messages (fun _ => []) (view w)
      /\ db w' = db w /\ reads w' = reads w
      /\ trace w' = trace w ++ effects ss.
Proof.
  induction ss as [|[chunk | ev] ss IH]; intros acc w pre Hw.
  - exists w, pre. cbn. rewrite !app_nil_r. repeat split; auto.
  - cbn [forAwaitSteps fragments effects concat].
    unfold mbind, M_bind. rewrite receiveChunk_run.
    edestruct (IH (acc ++ chunk)) as (w' & pre' & Hrun & Hmsg & Hview & rest);
      [|rewrite Hrun; exists w', pre'].
    { cbn. rewrite Hw, map_app. cbn. rewrite replaceText_placeholder.
      reflexivity. }
    rewrite app_assoc. split; [reflexivity|]. split; [exact Hmsg|].
    split; [rewrite Hview; reflexivity | exact rest].
  - cbn [forAwaitSteps fragments effects]. unfold_M. cbn.
    edestruct (IH acc) as (w' & pre' & Hrun & Hmsg & Hview & Hdb & Hr & Ht);
      [|rewrite Hrun; exists w', pre'].
    { cbn. exact Hw. }
    cbn in *. rewrite Ht, <- app_assoc. repeat split; auto.
Qed.

(** ** [handleSubmit], step by step *)

Lemma submitStart_spec (env : Env) (w : World) :
  exists key modelMessageId w1 evs,
    submitStart env (view w) w
    = (Returned (historyOf env w, modelMessageId), w1)
    /\ messages (view w1)
       = historyOf env w ++ [placeholder modelMessageId []]
    /\ currentConversationIdRef (view w1) = Some key
    /\ truthy key = true
    /\ trace w1 = trace w ++ evs
    /\ (forall req, ChatRequested req ∉ evs)
    /\ (forall c, DbPut c ∈ evs ->
          last (conv_messages c) = Some (stored (userMessageOf env w)))
    /\ (persistable w -> (exists c, DbPut c ∈ evs) /\ storesChat key (db w1))
    /\ (~ persistable w -> db w1 = db w).
Proof.
  unfold submitStart. unfold_M. cbn.
  match goal with
  | |- context [saveMessage ?e ?m ?msg ?W] =>
      destruct (saveMessage_summary e m msg W)
        as (key & w' & evs & Hrun & Hview & Hkey & Htr & Hreq & Hput
            & Hyes & Hno & _)
  end.
  rewrite Hrun. cbn. unfold persistable in *. cbn in *.
  exists key. eexists _, _, evs. split; [reflexivity|]. cbn.
  rewrite Hview. cbn.
  split; [reflexivity|]. split; [reflexivity|]. split; [exact Hkey|].
  split; [exact Htr|]. split; [exact Hreq|]. split; [exact Hput|].
  split; [exact Hyes|]. intros Hp. apply Hno, Hp.
Qed.

Lemma handleSubmit_spec (env : Env) (w : World) :
  submitRejected (view w) = false ->
  exists modelMessageId w1 w2 w3 evs1 evs3,
    let task := getChatResponseStream env (historyOf env w) (model (view w)) in
    let final := placeholder modelMessageId (concat (fragments (steps task))) in
    submitStart env (view w) w
    = (Returned (historyOf env w, modelMessageId), w1)
    /\ messages (view w1) = historyOf env w ++ [placeholder modelMessageId []]
    /\ trace w1 = trace w ++ evs1
    /\ (forall req, ChatRequested req ∉ evs1)
    /\ forAwait task (receiveChunk modelMessageId) [] w1
       = (Returned (concat (fragments (steps task))), w2)
    /\ trace w2 = trace w1 ++ effects (steps task)
    /\ handleSubmit env w = (Returned tt, w3)
    /\ messages (view w3) = messages (view w2)
    /\ last (messages (view w3)) = Some final
    /\ isLoading (view w3) = false
    /\ trace w3 = trace w2 ++ evs3 ++ [FocusInput]
    /\ (forall req, ChatRequested req ∉ evs3)
    /\ (forall c, DbPut c ∈ evs3 ->
          last (conv_messages c) = Some (stored final))
    /\ (persistable w -> exists c, DbPut c ∈ evs3).
Proof.
  intros Hguard.
  destruct (submitStart_spec env w)
    as (key & mid & w1 & evs1 & Hstart & Hmsg1 & Href1 & Hkey & Htr1 & Hreq1
        & _ & Hyes1 & _).
  set (task := getChatResponseStream env (historyOf env w) (model (view w))).
  destruct (forAwaitSteps_receiveChunk mid (steps task) [] w1
              (historyOf env w) Hmsg1)
    as (w2 & pre2 & Hloop & Hmsg2 & Hview2 & Hdb2 & _ & Htr2).
  cbn [app] in Hloop, Hmsg2.
  assert (forAwait task (receiveChunk mid) [] w1
          = (Returned (concat (fragments (steps task))), w2)) as Hfor.
  { unfold forAwait, mbind, M_bind. rewrite Hloop.
    destruct (getChatResponseStream_steps env (historyOf env w)
                (model (view w))) as [Ho _].
    fold task in Ho. rewrite Ho. reflexivity. }
  assert (exists w3 evs3,
             submitFinish env (view w) mid
               (concat (fragments (steps task))) w2 = (Returned tt, w3)
             /\ messages (view w3) = messages (view w2)
             /\ isLoading (view w3) = false
             /\ trace w3 = trace w2 ++ evs3 ++ [FocusInput]
             /\ (forall req, ChatRequested req ∉ evs3)
             /\ (forall c, DbPut c ∈ evs3 ->
                   last (conv_messages c)
                   = Some (stored (placeholder mid
                                     (concat (fragments (steps task))))))
             /\ (persistable w -> exists c, DbPut c ∈ evs3))
    as (w3 & evs3 & Hfin & Hmsg3 & Hload3 & Htr3 & Hreq3 & Hput3 & Hyes3).
  { unfold submitFinish. unfold_M. cbn.
    match goal with
    | |- context [saveMessage ?e ?m ?msg ?W] =>
        destruct (saveMessage_summary e m msg W)
          as (key' & w' & evs & Hrun & Hview & _ & Htr & Hreq & Hput
              & Hyes & _)
    end.
    rewrite Hrun. cbn. unfold persistable in Hyes. cbn in Hyes, Htr.
    eexists _, evs. split; [reflexivity|]. cbn. rewrite Hview. cbn.
    split; [reflexivity|]. split; [reflexivity|].
    split; [rewrite Htr, <- app_assoc; reflexivity|].
    split; [exact Hreq|]. split; [exact Hput|].
    intros Hp. apply Hyes.
    apply (f_equal currentConversationIdRef) in Hview2. cbn in Hview2.
    rewrite Hview2, Href1. cbn. rewrite Hkey, Hdb2.
    apply Hyes1, Hp. }
  exists mid, w1, w2, w3, evs1, evs3. cbn zeta.
  split; [exact Hstart|]. split; [exact Hmsg1|]. split; [exact Htr1|].
  split; [exact Hreq1|]. split; [exact Hfor|]. split; [exact Htr2|].
  split.
  { unfold handleSubmit. rewrite Hguard. unfold mbind at 1, M_bind at 1.
    rewrite Hstart. unfold mbind at 1, M_bind at 1. fold task.
    rewrite Hfor. exact Hfin. }
  split; [exact Hmsg3|]. split; [rewrite Hmsg3, Hmsg2; apply last_snoc|].
  repeat split; assumption.
Qed.

(** A loop over [ss1 ++ ss2] is the loop over [ss1] continued over
    [ss2]. *)
Lemma forAwaitSteps_app {S : Type} (body : S -> jsstring -> M S)
    (ss1 ss2 : list Step) :
  forall (acc : S) (w : World),
    forAwaitSteps body (ss1 ++ ss2) acc w
    = match forAwaitSteps body ss1 acc w with
      | (Returned acc', w') => forAwaitSteps body ss2 acc' w'
      | (Threw e, w') => (Threw e, w')
      end.
Proof.
  induction ss1 as [|[chunk | ev] ss1 IH]; intros acc w; cbn.
  - reflexivity.
  - unfold mbind, M_bind. destruct (body acc chunk w) as [[acc' | e] w'].
    + apply IH.
    + reflexivity.
  - unfold mbind, M_bind, emit. apply IH.
Qed.

Lemma fragments_prefix (ss : list Step) :
  forall n : nat,
    (n <= length (fragments ss))%nat ->
    exists k : nat, fragments (take k ss) = take n (fragments ss).
Proof.
  induction ss as [|[chunk | ev] ss IH]; intros n Hn.
  - exists 0%nat. now destruct n.
  - destruct n as [|n].
    + exists 0%nat. reflexivity.
    + cbn in Hn. destruct (IH n) as [k Hk]; [lia|].
      exists (S k). cbn. now rewrite Hk.
  - destruct (IH n Hn) as [k Hk]. exists (S k). exact Hk.
Qed.

(** C1. Whatever fragments the chat stream yields: for every [n] the loop
    of [handleSubmit] passes through a world [wn] in which the first [n]
    fragments have been received, and there the placeholder, last in the
    message list, is a MODEL message whose only part is the text made of
    these [n] fragments in order. [handleSubmit] then returns, the
    placeholder holds the text of all fragments, and every conversation
    written after the stream ends with the MODEL message of that text. Such
    a write happens whenever the conversation is new or stored as a
    chat. *)
Theorem handleSubmit_accumulates (env : Env) (w : World) :
  submitRejected (view w) = false ->
  exists history modelMessageId w1 w2 w3 written,
    let task := getChatResponseStream env history (model (view w)) in
    let frags := fragments (steps task) in
    submitStart env (view w) w = (Returned (history, modelMessageId), w1)
    /\ (forall n : nat,
          (n <= length frags)%nat ->
          exists (k : nat) (wn : World),
            fragments (take k (steps task)) = take n frags
            /\ forAwaitSteps (receiveChunk modelMessageId)
                 (take k (steps task)) [] w1
               = (Returned (concat (take n frags)), wn)
            /\ forAwaitSteps (receiveChunk modelMessageId) (steps task) [] w1
               = forAwaitSteps (receiveChunk modelMessageId)
                   (drop k (steps task)) (concat (take n frags)) wn
            /\ last (messages (view wn))
               = Some (placeholder modelMessageId (concat (take n frags))))
    /\ forAwait task (receiveChunk modelMessageId) [] w1
       = (Returned (concat frags), w2)
    /\ handleSubmit env w = (Returned tt, w3)
    /\ last (messages (view w3))
       = Some (placeholder modelMessageId (concat frags))
    /\ trace w3 = trace w2 ++ written ++ [FocusInput]
    /\ (forall c, DbPut c ∈ written ->
          last (conv_messages c)
          = Some (stored (placeholder modelMessageId (concat frags))))
    /\ (persistable w -> exists c, DbPut c ∈ written).
Proof.
  intros Hguard.
  destruct (handleSubmit_spec env w Hguard)
    as (mid & w1 & w2 & w3 & evs1 & evs3 & Hstart & Hmsg1 & _ & _ & Hfor & _
        & Hrun & _ & Hlast & _ & Htr3 & _ & Hput & Hyes).
  exists (historyOf env w), mid, w1, w2, w3, evs3. cbn zeta.
  split; [exact Hstart|]. split.
  { intros n Hn.
    destruct (fragments_prefix _ n Hn) as [k Hk]. exists k.
    destruct (forAwaitSteps_receiveChunk mid
                (take k (steps (getChatResponseStream env (historyOf env w)
                                  (model (view w))))) [] w1
                (historyOf env w) Hmsg1)
      as (wn & pre & Hloop & Hmsgn & _).
    cbn [app] in Hloop, Hmsgn. rewrite Hk in Hloop, Hmsgn.
    exists wn. split; [exact Hk|]. split; [exact Hloop|]. split.
    - rewrite <- (take_drop k (steps (getChatResponseStream env
                                        (historyOf env w) (model (view w)))))
        at 1.
      rewrite forAwaitSteps_app, Hloop. reflexivity.
    - rewrite Hmsgn. apply last_snoc. }
  repeat split; assumption.
Qed.

Lemma handleSubmit_accumulates_witness :
  exists modelMessageId w3,
    handleSubmit helloEnv typedHi = (Returned tt, w3)
    /\ last (messages (view w3))
       = Some (placeholder modelMessageId (lit "Hel" ++ lit "lo")).
Proof.
  destruct (handleSubmit_accumulates helloEnv typedHi)
    as (history & mid & w1 & w2 & w3 & written & Hstart & _ & _ & Hrun
        & Hlast & _); [reflexivity|].
  exists mid, w3. split; [exact Hrun|].
  rewrite Hlast. reflexivity.
Defined.

(** ** The history and its wire translation *)

Lemma reduce_push (parts : list MessagePart) :
  forall acc : list Part,
    fold_left
      (fun acc part =>
         match part with
         | TextPart text => acc ++ [WireText text]
         | ImagePart _ base64 mimeType =>
             acc ++ [WireInlineData mimeType base64]
         | ImageGenerationResultPart _ _ _ => acc
         end) parts acc
    = acc ++ omap wirePart parts.
Proof.
  induction parts as [|part parts IH]; intros acc; cbn.
  - now rewrite app_nil_r.
  - rewrite IH. destruct part; cbn; [| |reflexivity];
      now rewrite <- app_assoc.
Qed.

Lemma existsb_replayed (msg : ChatMessage) :
  existsb isTextOrImage (msg_parts msg) = true <-> replayed msg.
Proof.
  unfold replayed. rewrite existsb_exists, Exists_exists.
  split; intros (part & Hin & Hp); exists part;
    (split; [rewrite list_elem_of_In in *; assumption
            || (rewrite <- list_elem_of_In; assumption)
            || assumption|]).
  - destruct part; cbn in *; eauto; discriminate.
  - destruct part; cbn in *; [reflexivity | reflexivity|].
    destruct Hp as [? [=]].
Qed.

Lemma buildContents_spec (messages : list ChatMessage) :
  buildContents messages = specContents messages.
Proof.
  unfold buildContents, specContents.
  induction messages as [|msg messages IH]; [reflexivity|].
  cbn [List.filter]. rewrite filter_cons.
  destruct (existsb isTextOrImage (msg_parts msg)) eqn:Hex.
  - apply existsb_replayed in Hex. rewrite decide_True by assumption.
    cbn [map fmap list_fmap]. rewrite IH. f_equal.
    unfold translate, wireRole. rewrite reduce_push. reflexivity.
  - rewrite decide_False; [exact IH|].
    intros Hr. apply existsb_replayed in Hr. congruence.
Qed.

Lemma effects_app (ss1 ss2 : list Step) :
  effects (ss1 ++ ss2) = effects ss1 ++ effects ss2.
Proof.
  induction ss1 as [|[c|ev] ss1 IH]; cbn; [reflexivity|assumption|].
  now rewrite IH.
Qed.

Lemma effects_Yield (chunks : list jsstring) :
  effects (map Yield chunks) = [].
Proof. induction chunks as [|c chunks IH]; cbn; [reflexivity|exact IH]. Qed.

(** The chat generator makes one request, its first outside call. *)
Lemma getChatResponseStream_effects (env : Env)
    (messages : list ChatMessage) (model : jsstring) :
  exists after,
    effects (steps (getChatResponseStream env messages model))
    = ChatRequested (chatRequest messages model) :: after
    /\ forall req, ChatRequested req ∉ after.
Proof.
  destruct (getChatResponseStream_steps env messages model) as [_ ->].
  cbn [effects]. eexists. split; [reflexivity|].
  intros req.
  destruct (chatRemote env (chatRequest messages model))
    as [e | chunks [e|]]; cbn.
  - rewrite elem_of_cons, elem_of_nil. intros [? | []]; discriminate.
  - rewrite effects_app, effects_Yield. cbn.
    rewrite elem_of_cons, elem_of_nil. intros [? | []]; discriminate.
  - rewrite effects_Yield. apply not_elem_of_nil.
Qed.

Lemma historyOf_not_initial (env : Env) (w : World) :
  Forall (fun m => msg_id m <> lit "initial") (historyOf env w).
Proof.
  unfold historyOf. apply Forall_app. split.
  - apply Forall_forall. intros m Hm.
    apply list_elem_of_In, filter_In in Hm as [_ Hm].
    unfold isInitial in Hm. apply negb_true_iff in Hm.
    now apply bool_decide_eq_false in Hm.
  - apply Forall_singleton. cbn. apply toString_not_initial.
Qed.

(** C7. A submission that passes the guard makes one chat request. Its
    history is the message list without the messages of identifier
    ['initial'], followed by the user message; no message of the history
    has the identifier ['initial']. The request carries the selected model
    and the wire translation of the history: the messages with a text or
    image part, in order, each with role ['user'] for USER and ['model']
    otherwise, and with its text and image parts in order, an image part as
    inline data of its MIME type and base64 payload. [buildContents] is
    that translation for every history. *)
Theorem handleSubmit_history (env : Env) (w : World) :
  submitRejected (view w) = false ->
  exists history w3 before after,
    handleSubmit env w = (Returned tt, w3)
    /\ history
       = List.filter (fun m => negb (isInitial m)) (messages (view w))
         ++ [userMessageOf env w]
    /\ Forall (fun m => msg_id m <> lit "initial") history
    /\ trace w3
       = trace w ++ before
         ++ ChatRequested
              {| chat_model := model (view w);
                 chat_contents := specContents history;
                 chat_systemInstruction := systemInstruction |}
            :: after
    /\ (forall req, ChatRequested req ∉ before ++ after)
    /\ (forall messages, buildContents messages = specContents messages).
Proof.
  intros Hguard.
  destruct (handleSubmit_spec env w Hguard)
    as (mid & w1 & w2 & w3 & evs1 & evs3 & _ & _ & Htr1 & Hreq1 & _ & Htr2
        & Hrun & _ & _ & _ & Htr3 & Hreq3 & _).
  destruct (getChatResponseStream_effects env (historyOf env w)
              (model (view w))) as (after & Heff & Hafter).
  exists (historyOf env w), w3, evs1, (after ++ evs3 ++ [FocusInput]).
  split; [exact Hrun|]. split; [reflexivity|].
  split; [apply historyOf_not_initial|]. split.
  { rewrite Htr3, Htr2, Htr1, Heff. unfold chatRequest.
    rewrite buildContents_spec, <- !app_assoc. reflexivity. }
  split; [|exact buildContents_spec].
  intros req. rewrite !elem_of_app, list_elem_of_singleton.
  intros [H | [H | [H | H]]];
    [exact (Hreq1 req H) | exact (Hafter req H) | exact (Hreq3 req H)
    | discriminate H].
Qed.

Lemma handleSubmit_history_witness :
  exists w3,
    handleSubmit helloEnv describeUpload = (Returned tt, w3)
    /\ ChatRequested
         {| chat_model := defaultModel;
            chat_contents :=
              [{| role := lit "user";
                  wire_parts := [WireText (lit "Generate image: cat")] |};
               {| role := lit "user";
                  wire_parts :=
                    [WireInlineData (lit "image/png") (lit "AAAA");
                     WireText (lit "describe")] |}];
            chat_systemInstruction := systemInstruction |}
       ∈ trace w3.
Proof.
  destruct (handleSubmit_history helloEnv describeUpload)
    as (history & w3 & before & after & Hrun & Hhist & _ & Htr & _);
    [reflexivity|].
  exists w3. split; [exact Hrun|].
  rewrite Htr, Hhist. apply elem_of_app. right. apply elem_of_app. right.
  apply list_elem_of_here.
Defined.

(** ** Image generation *)

Arguments generateImage : simpl never.
Arguments dataUrls : simpl never.
Arguments await : simpl never.

Lemma dataUrls_cons (mimeType : jsstring) (img : SdkGeneratedImage)
    (imgs : list SdkGeneratedImage) :
  dataUrls mimeType (img :: imgs)
  = match image img with
    | Some i =>
        urls ← dataUrls mimeType imgs;
        mret ((lit "data:" ++ mimeType ++ lit ";base64,"
               ++ interpolate (imageBytes i)) :: urls)
    | None => raise (TypeError (lit "img.image is undefined"))
    end.
Proof. reflexivity. Qed.

Lemma dataUrls_steps (mimeType : jsstring) (imgs : list SdkGeneratedImage) :
  steps (dataUrls mimeType imgs) = [].
Proof.
  induction imgs as [|img imgs IH]; [reflexivity|].
  rewrite dataUrls_cons. destruct (image img); [|reflexivity].
  unfold mbind, Task_bind.
  destruct (outcome (dataUrls mimeType imgs)); cbn [steps].
  - rewrite IH. reflexivity.
  - exact IH.
Qed.

(** [generateImage] never throws; it sends one request, and returns [null]
    when the remote call fails or returns no images. *)
Lemma generateImage_spec (env : Env) (prompt : jsstring)
    (params : GenerationParameters) :
  let req := imageRequest prompt params in
  let task := generateImage env prompt params in
  exists result log,
    outcome task = Returned result
    /\ effects (steps task) = ImagesRequested req :: log
    /\ (forall c, DbPut c ∉ log)
    /\ (imagesFail (imageRemote env req) -> result = None).
Proof.
  cbn zeta. unfold generateImage, generateImages, imageRequest.
  set (req := {| ireq_model := gp_model params |}).
  unfold tryCatch, mbind, Task_bind. cbn.
  destruct (imageRemote env req) as [e | [imgs|]]; cbn.
  - eexists _, _. split; [reflexivity|]. split; [reflexivity|].
    split; [|reflexivity].
    intros c. rewrite elem_of_cons, elem_of_nil. intros [? | []]; discriminate.
  - destruct imgs as [|img imgs]; cbn.
    + eexists _, _. split; [reflexivity|]. split; [reflexivity|].
      split; [intros c; apply not_elem_of_nil | reflexivity].
    + pose proof (dataUrls_steps (orElse (gp_outputMimeType params)
                                    (lit "image/png")) (img :: imgs)) as Hs.
      destruct (outcome (dataUrls _ (img :: imgs))) as [us | e] eqn:Ho; cbn;
        rewrite ?Ho; cbn; rewrite ?Hs; cbn.
      * eexists _, _. split; [reflexivity|]. split; [reflexivity|].
        split; [intros c; apply not_elem_of_nil | intros []].
      * eexists _, _. split; [reflexivity|]. split; [reflexivity|].
        split; [|intros []].
        intros c. rewrite elem_of_cons, elem_of_nil.
        intros [? | []]; discriminate.
  - eexists _, _. split; [reflexivity|]. split; [reflexivity|].
    split; [intros c; apply not_elem_of_nil | reflexivity].
Qed.

Lemma forAwaitSteps_idle (ss : list Step) :
  forall w : World,
    forAwaitSteps (fun (_ : unit) (_ : jsstring) => mret tt) ss tt w
    = (Returned tt,
       {| view := view w; db := db w; reads := reads w;
          trace := trace w ++ effects ss |}).
Proof.
  induction ss as [|[chunk | ev] ss IH]; intros w; cbn.
  - rewrite app_nil_r. now destruct w.
  - unfold mbind, M_bind, mret, M_ret at 1. apply IH.
  - unfold mbind, M_bind, emit. rewrite IH. cbn.
    now rewrite <- app_assoc.
Qed.

Lemma await_run {A : Type} (task : Task A) (a : A) (w : World) :
  outcome task = Returned a ->
  await task w
  = (Returned a,
     {| view := view w; db := db w; reads := reads w;
        trace := trace w ++ effects (steps task) |}).
Proof.
  intros Ho. unfold await, mbind, M_bind.
  rewrite forAwaitSteps_idle, Ho. reflexivity.
Qed.

Lemma handleGenerateImage_spec (env : Env) (w : World) :
  generateRejected (view w) = false ->
  exists result replyId w3 before log written,
    let req := imageRequest (genPrompt (view w)) (paramsOf (view w)) in
    let reply :=
      {| msg_id := replyId; msg_author := MODEL;
         msg_parts := replyParts (view w) result;
         msg_content := JsUndefined |} in
    outcome (generateImage env (genPrompt (view w)) (paramsOf (view w)))
    = Returned result
    /\ (imagesFail (imageRemote env req) -> result = None)
    /\ handleGenerateImage env w = (Returned tt, w3)
    /\ messages (view w3)
       = List.filter (fun m => negb (isInitial m)) (messages (view w))
         ++ [generationRequestOf env w; reply]
    /\ isLoading (view w3) = false
    /\ genPrompt (view w3) = []
    /\ trace w3
       = trace w ++ before ++ ImagesRequested req :: log ++ written
         ++ [FocusInput]
    /\ (forall c, DbPut c ∉ log)
    /\ (forall c, DbPut c ∈ written ->
          last (conv_messages c) = Some (stored reply))
    /\ (persistable w -> exists c, DbPut c ∈ written)
    /\ (~ persistable w ->
        db w3 = db w /\ forall c, DbPut c ∉ before ++ written).
Proof.
  intros Hguard.
  destruct (generateImage_spec env (genPrompt (view w)) (paramsOf (view w)))
    as (result & log & Ho & Heff & Hlog & Hfail).
  unfold handleGenerateImage. rewrite Hguard. unfold_M. cbn.
  match goal with
  | |- context [saveMessage ?e ?m ?msg ?W] =>
      destruct (saveMessage_summary e m msg W)
        as (key & w1 & evs1 & Hrun1 & Hview1 & Hkey & Htr1 & _ & _
            & Hyes1 & Hno1 & Hsame1)
  end.
  rewrite Hrun1. cbn. fold (paramsOf (view w)).
  rewrite (await_run _ result _ Ho). cbn.
  exists result.
  unfold persistable in Hyes1, Hno1. cbn in Hview1, Htr1, Hyes1, Hno1, Hsame1.
  destruct result as [urls|]; cbn.
  all: match goal with
       | |- context [saveMessage ?e ?m ?msg ?W] =>
           destruct (saveMessage_summary e m msg W)
             as (key3 & w3 & evs3 & Hrun3 & Hview3 & _ & Htr3 & _ & Hput3
                 & Hyes3 & Hno3 & _)
       end.
  all: rewrite Hrun3; cbn.
  all: unfold persistable in Hyes3, Hno3; cbn in Hview3, Htr3, Hyes3, Hno3.
  all: rewrite Hview1 in Hyes3, Hno3; cbn in Hyes3, Hno3.
  all: rewrite Hkey in Hyes3, Hno3.
  all: eexists _, _, evs1, log, evs3.
  all: split; [exact Ho|]; split; [exact Hfail|]; split; [reflexivity|].
  all: cbn; rewrite Hview3; cbn; rewrite Hview1; cbn.
  all: split; [rewrite <- app_assoc; reflexivity|].
  all: split; [reflexivity|]; split; [reflexivity|].
  all: split; [rewrite Htr3, Htr1, Heff, <- !app_assoc; reflexivity|].
  all: split; [exact Hlog|]; split; [exact Hput3|].
  all: split;
    [intros Hp; destruct (Hyes3 (proj2 (Hyes1 Hp))) as [H _]; exact H|].
  all: intros Hp; unfold persistable in Hp.
  all: destruct (Hno1 Hp) as [Hdb1 ->].
  all: destruct Hno3 as [Hdb3 ->];
    [rewrite Hdb1; intros Hs; apply Hp;
     destruct (truthyId (currentConversationIdRef (view w))) as [k0|];
     [rewrite <- (Hsame1 k0 eq_refl); exact Hs | exact I]|].
  all: split; [rewrite Hdb3; exact Hdb1|].
  all: intros c; rewrite elem_of_app, !list_elem_of_singleton.
  all: intros [? | ?]; discriminate.
Qed.

(** C8, as the code has it. When the remote call fails or returns no
    images, [generateImage] returns [null] and does not throw;
    [handleGenerateImage] then returns normally, having appended to the
    message list a MODEL message whose only part is the fixed apology and
    handed it to [saveMessage]. Every conversation written ends with that
    message, and one is written when the conversation is new or stored as
    a chat; otherwise (the ref names no chat conversation of the store)
    the store is left as it was and nothing is written. *)
Theorem handleGenerateImage_failure (env : Env) (w : World) :
  generateRejected (view w) = false ->
  imagesFail (imageRemote env (imageRequest (genPrompt (view w))
                                 (paramsOf (view w)))) ->
  outcome (generateImage env (genPrompt (view w)) (paramsOf (view w)))
  = Returned None
  /\ exists errorMessage w3 before written,
       handleGenerateImage env w = (Returned tt, w3)
       /\ msg_author errorMessage = MODEL
       /\ msg_parts errorMessage = [TextPart imageApology]
       /\ messages (view w3)
          = List.filter (fun m => negb (isInitial m)) (messages (view w))
            ++ [generationRequestOf env w; errorMessage]
       /\ isLoading (view w3) = false
       /\ trace w3 = trace w ++ before ++ written ++ [FocusInput]
       /\ (forall c, DbPut c ∈ written ->
             last (conv_messages c) = Some (stored errorMessage))
       /\ (persistable w -> exists c, DbPut c ∈ written)
       /\ (~ persistable w ->
           db w3 = db w /\ forall c, DbPut c ∉ before ++ written).
Proof.
  intros Hguard Hfails.
  destruct (handleGenerateImage_spec env w Hguard)
    as (result & replyId & w3 & before & log & written & Ho & Hnone & Hrun
        & Hmsg & Hload & _ & Htr & Hlog & Hput & Hyes & Hno).
  cbn zeta in *. specialize (Hnone Hfails). subst result.
  split; [exact Ho|].
  exists {| msg_id := replyId; msg_author := MODEL;
            msg_parts := [TextPart imageApology];
            msg_content := JsUndefined |}, w3,
    (before ++ ImagesRequested (imageRequest (genPrompt (view w))
                                  (paramsOf (view w))) :: log), written.
  split; [exact Hrun|]. split; [reflexivity|]. split; [reflexivity|].
  split; [exact Hmsg|]. split; [exact Hload|].
  split; [rewrite Htr, <- !app_assoc; reflexivity|].
  split; [exact Hput|]. split; [exact Hyes|].
  intros Hp. destruct (Hno Hp) as [Hdb Hnoput]. split; [exact Hdb|].
  intros c Hc. apply (Hnoput c).
  rewrite !elem_of_app, elem_of_cons in Hc. rewrite elem_of_app.
  destruct Hc as [[Hc | [Hc | Hc]] | Hc]; auto; [discriminate Hc|].
  destruct (Hlog c Hc).
Qed.

Lemma handleGenerateImage_failure_witness :
  exists errorMessage w3 c,
    handleGenerateImage rejectingEnv (promptCat None) = (Returned tt, w3)
    /\ msg_parts errorMessage = [TextPart imageApology]
    /\ DbPut c ∈ trace w3
    /\ last (conv_messages c) = Some (stored errorMessage).
Proof.
  destruct (handleGenerateImage_failure rejectingEnv (promptCat None))
    as (_ & errorMessage & w3 & before & written & Hrun & _ & Hparts & _ & _
        & Htr & Hput & Hyes & _); [reflexivity | exact I |].
  destruct Hyes as [c Hc]; [exact I|].
  exists errorMessage, w3, c. split; [exact Hrun|]. split; [exact Hparts|].
  split; [|exact (Hput c Hc)].
  rewrite Htr, !elem_of_app. right. right. left. exact Hc.
Defined.

(** C8 as stated fails: the ref names the conversation ["42"], which the
    store does not have; the remote call fails; the apology is shown and
    nothing is persisted. *)
Lemma handleGenerateImage_failure_counterexample :
  let w := promptCat (Some (lit "42")) in
  let r := handleGenerateImage rejectingEnv w in
  generateRejected (view w) = false
  /\ imagesFail (imageRemote rejectingEnv
                   (imageRequest (genPrompt (view w)) (paramsOf (view w))))
  /\ r.1 = Returned tt
  /\ msg_parts <$> last (messages (view r.2)) = Some [TextPart imageApology]
  /\ db r.2 = ∅
  /\ existsb isDbPut (trace r.2) = false.
Proof.
  cbn zeta. split; [reflexivity|]. split; [exact I|].
  split; [reflexivity|]. split; [reflexivity|].
  split; [|reflexivity].
  vm_compute. reflexivity.
Qed.

(** ** The number of images *)

(** The request of a generation carries the count held by the view. *)
Lemma handleGenerateImage_count (env : Env) (w : World) :
  generateRejected (view w) = false ->
  exists req,
    ImagesRequested req ∈ trace (handleGenerateImage env w).2
    /\ cfg_numberOfImages (ireq_config req) = genNumImages (view w).
Proof.
  intros Hguard.
  destruct (handleGenerateImage_spec env w Hguard)
    as (result & replyId & w3 & before & log & written & _ & _ & Hrun & _ & _
        & _ & Htr & _).
  cbn zeta in *. rewrite Hrun. cbn [snd]. eexists. split.
  - rewrite Htr, !elem_of_app. right. right. apply list_elem_of_here.
  - reflexivity.
Qed.

(** C9 fails on the code: the count field declares the range 1 to 4, but
    what is typed in it reaches the request unchecked. After 9 is typed
    the request asks for 9 images; after the field is cleared the count is
    not a number. *)
Theorem numberOfImages_unchecked :
  (exists req,
      ImagesRequested req ∈ trace (handleGenerateImage idleEnv nineImages).2
      /\ cfg_numberOfImages (ireq_config req) = Num 9)
  /\ parseInt10 [] = NaN
  /\ parseInt10 (lit "0") = Num 0.
Proof.
  split; [|split; reflexivity].
  destruct (handleGenerateImage_count idleEnv nineImages)
    as (req & Hreq & Hcount); [reflexivity|].
  exists req. split; [exact Hreq|]. rewrite Hcount. reflexivity.
Qed.

(** * Further properties *)

(** ** [saveMessage] in closed form *)

Lemma saveMessage_run (env : Env) (model : jsstring)
    (message : ChatMessage) (w : World) :
  saveMessage env model message w
  = (Returned (savedKey env w), savedWorld env model message w).
Proof.
  unfold savedKey, savedWorld.
  destruct (truthyId (currentConversationIdRef (view w))) as [key|] eqn:Href.
  - apply saveMessage_known, Href.
  - apply saveMessage_new, Href.
Qed.

Lemma savedKey_truthy (env : Env) (w : World) :
  truthy (savedKey env w) = true.
Proof.
  unfold savedKey.
  destruct (truthyId (currentConversationIdRef (view w))) as [key|] eqn:Href.
  - apply truthyId_Some in Href. tauto.
  - apply toString_truthy.
Qed.

Lemma savedWorld_view (env : Env) (model : jsstring)
    (message : ChatMessage) (w : World) :
  view (savedWorld env model message w)
  = with_currentConversationIdRef (Some (savedKey env w)) (view w).
Proof.
  unfold savedKey, savedWorld.
  destruct (truthyId (currentConversationIdRef (view w))) as [key|] eqn:Href.
  - apply truthyId_Some in Href as [Href _].
    rewrite (with_currentConversationIdRef_same _ _ Href).
    destruct (getConversation key (db w)) as [c|]; [|reflexivity].
    destruct (isChat c); reflexivity.
  - reflexivity.
Qed.

Lemma savedWorld_ref (env : Env) (model : jsstring)
    (message : ChatMessage) (w : World) :
  truthyId (currentConversationIdRef (view (savedWorld env model message w)))
  = Some (savedKey env w).
Proof.
  rewrite savedWorld_view. cbn. now rewrite savedKey_truthy.
Qed.

Lemma isChat_true (c : Conversation) :
  isChat c = true <-> conv_type c = lit "chat".
Proof. unfold isChat. apply bool_decide_eq_true. Qed.

Lemma savedWorld_keyed (env : Env) (model : jsstring)
    (message : ChatMessage) (w : World) :
  keyed (db w) -> keyed (db (savedWorld env model message w)).
Proof.
  intros Hk. unfold savedWorld.
  destruct (truthyId (currentConversationIdRef (view w))) as [key|].
  - destruct (getConversation key (db w)) as [c|] eqn:Hc; [|exact Hk].
    destruct (isChat c); [|exact Hk]. cbn.
    intros k c'. unfold getConversation, addOrUpdateConversation. cbn.
    destruct (decide (conv_id c = k)) as [<- | Hne].
    + rewrite lookup_insert_eq. now intros [= <-].
    + rewrite lookup_insert_ne by assumption. apply Hk.
  - cbn. intros k c'. unfold getConversation, addOrUpdateConversation. cbn.
    destruct (decide (toString (clock env (reads w)) = k)) as [<- | Hne].
    + rewrite lookup_insert_eq. now intros [= <-].
    + rewrite lookup_insert_ne by assumption. apply Hk.
Qed.

(** What the store holds under the returned identifier after a save that
    writes: the messages stored before, then the message. *)
Lemma savedWorld_lookup (env : Env) (model : jsstring)
    (message : ChatMessage) (w : World) :
  keyed (db w) ->
  persistable w ->
  exists c,
    getConversation (savedKey env w) (db (savedWorld env model message w))
    = Some c
    /\ conv_type c = lit "chat"
    /\ conv_messages c = storedMessages w ++ [stored message].
Proof.
  intros Hk Hp. unfold persistable, savedKey, savedWorld, storedMessages in *.
  destruct (truthyId (currentConversationIdRef (view w))) as [key|].
  - destruct Hp as (c & Hc & Ht). rewrite Hc.
    apply isChat_true in Ht. rewrite Ht. cbn.
    exists (pushMessage c message).
    unfold getConversation, addOrUpdateConversation in *. cbn.
    rewrite (Hk key c Hc), lookup_insert_eq.
    split; [reflexivity|]. split; [apply isChat_true, Ht | reflexivity].
  - cbn. eexists.
    unfold getConversation, addOrUpdateConversation. cbn.
    rewrite lookup_insert_eq. split; [reflexivity|]. split; reflexivity.
Qed.

Lemma savedWorld_other (env : Env) (model : jsstring)
    (message : ChatMessage) (w : World) (key : jsstring) :
  keyed (db w) ->
  key <> savedKey env w ->
  getConversation key (db (savedWorld env model message w))
  = getConversation key (db w).
Proof.
  intros Hk Hne. unfold savedKey, savedWorld in *.
  destruct (truthyId (currentConversationIdRef (view w))) as [k|].
  - destruct (getConversation k (db w)) as [c|] eqn:Hc; [|reflexivity].
    destruct (isChat c); [|reflexivity]. cbn.
    unfold getConversation, addOrUpdateConversation in *. cbn.
    rewrite (Hk k c Hc). apply lookup_insert_ne. congruence.
  - cbn. unfold getConversation, addOrUpdateConversation. cbn.
    apply lookup_insert_ne. congruence.
Qed.

Lemma persistable_savedWorld (env : Env) (model : jsstring)
    (message : ChatMessage) (w : World) :
  keyed (db w) -> persistable w ->
  persistable (savedWorld env model message w).
Proof.
  intros Hk Hp. unfold persistable at 1. rewrite savedWorld_ref.
  destruct (savedWorld_lookup env model message w Hk Hp) as (c & Hc & Ht & _).
  exists c. auto.
Qed.

Lemma storedMessages_savedWorld (env : Env) (model : jsstring)
    (message : ChatMessage) (w : World) :
  keyed (db w) -> persistable w ->
  storedMessages (savedWorld env model message w)
  = storedMessages w ++ [stored message].
Proof.
  intros Hk Hp. unfold storedMessages at 1. rewrite savedWorld_ref.
  destruct (savedWorld_lookup env model message w Hk Hp) as (c & -> & _ & Hm).
  exact Hm.
Qed.

(** Store, ref and what depends on them only. *)
Lemma persistable_congr (w w' : World) :
  currentConversationIdRef (view w') = currentConversationIdRef (view w) ->
  db w' = db w ->
  persistable w' <-> persistable w.
Proof. unfold persistable. now intros -> ->. Qed.

Lemma storedMessages_congr (w w' : World) :
  currentConversationIdRef (view w') = currentConversationIdRef (view w) ->
  db w' = db w ->
  storedMessages w' = storedMessages w.
Proof. unfold storedMessages. now intros -> ->. Qed.

Lemma savedKey_congr (env : Env) (w w' : World) :
  truthyId (currentConversationIdRef (view w)) <> None ->
  currentConversationIdRef (view w') = currentConversationIdRef (view w) ->
  savedKey env w' = savedKey env w.
Proof.
  unfold savedKey. intros Hsome ->.
  destruct (truthyId (currentConversationIdRef (view w))); congruence.
Qed.

(** ** The handlers in closed form *)

Arguments savedWorld : simpl never.
Arguments savedKey : simpl never.
Arguments getChatResponseStream : simpl never.
Arguments historyOf : simpl never.
Arguments userMessageOf : simpl never.
Arguments generationRequestOf : simpl never.
Arguments streamedFrom : simpl never.

Lemma with_messages_ext (f g : list ChatMessage -> list ChatMessage)
    (s : ViewState) :
  f (messages s) = g (messages s) -> with_messages f s = with_messages g s.
Proof. unfold with_messages. now intros ->. Qed.

Lemma with_messages_same (s : ViewState) : with_messages (fun ms => ms) s = s.
Proof. now destruct s. Qed.

Lemma with_messages_twice (f g : list ChatMessage -> list ChatMessage)
    (s : ViewState) :
  with_messages g (with_messages f s) = with_messages (fun ms => g (f ms)) s.
Proof. reflexivity. Qed.

Lemma replaceText_twice (modelMessageId text text' : jsstring)
    (msg : ChatMessage) :
  replaceText modelMessageId text' (replaceText modelMessageId text msg)
  = replaceText modelMessageId text' msg.
Proof.
  unfold replaceText.
  destruct (bool_decide (msg_id msg = modelMessageId)) eqn:Hid; cbn;
    rewrite Hid; reflexivity.
Qed.

Lemma forAwaitSteps_receiveChunk_run (modelMessageId : jsstring)
    (ss : list Step) :
  forall (acc : jsstring) (w : World),
    forAwaitSteps (receiveChunk modelMessageId) ss acc w
    = (Returned (acc ++ concat (fragments ss)),
       {| view :=
            with_messages (streamedFrom modelMessageId acc (fragments ss))
              (view w);
          db := db w; reads := reads w;
          trace := trace w ++ effects ss |}).
Proof.
  induction ss as [|[chunk | ev] ss IH]; intros acc w.
  - cbn. rewrite !app_nil_r. unfold streamedFrom.
    rewrite with_messages_same. now destruct w.
  - cbn [forAwaitSteps fragments effects concat].
    unfold mbind, M_bind. rewrite receiveChunk_run, IH. cbn.
    rewrite app_assoc. f_equal. f_equal. rewrite with_messages_twice.
    apply with_messages_ext. unfold streamedFrom.
    destruct (fragments ss) as [|c frs].
    + cbn. now rewrite !app_nil_r.
    + rewrite map_map. apply map_ext. intros m.
      rewrite replaceText_twice. now rewrite <- app_assoc.
  - cbn [forAwaitSteps fragments effects]. unfold mbind, M_bind, emit.
    rewrite IH. cbn. now rewrite <- app_assoc.
Qed.

(** The steps of the handlers, one at a time. *)
Lemma bind_run {A B : Type} (m : M A) (f : A -> M B) (w w' : World) (a : A) :
  m w = (Returned a, w') -> (m ≫= f) w = f a w'.
Proof. intros H. unfold mbind, M_bind. now rewrite H. Qed.

Lemma submitStart_run (env : Env) (w : World) :
  submitStart env (view w) w
  = (Returned (historyOf env w, submitMessageId env w),
     withView
       (with_messages (fun prev => prev ++ [placeholder (submitMessageId env w) []])
          (view (submitSaved env w)))
       (afterRead (submitSaved env w))).
Proof.
  unfold submitStart.
  change (userParts (view w)) with (msg_parts (userMessageOf env w)).
  unfold_M. cbn -[savedWorld saveMessage].
  rewrite saveMessage_run.
  unfold submitMessageId, submitSaved, submitStarted, historyOf,
    userMessageOf, withView, afterRead, placeholder.
  cbn [view db reads trace msg_parts]. reflexivity.
Qed.

Lemma forAwait_receiveChunk_run (task : Task unit) (modelMessageId : jsstring)
    (w : World) :
  outcome task = Returned tt ->
  forAwait task (receiveChunk modelMessageId) [] w
  = (Returned (concat (fragments (steps task))),
     {| view :=
          with_messages
            (streamedFrom modelMessageId [] (fragments (steps task))) (view w);
        db := db w; reads := reads w;
        trace := trace w ++ effects (steps task) |}).
Proof.
  intros Ho. unfold forAwait.
  rewrite (bind_run _ _ _ _ _
             (forAwaitSteps_receiveChunk_run modelMessageId (steps task) [] w)).
  rewrite Ho. reflexivity.
Qed.

Lemma submitFinish_run (env : Env) (s : ViewState)
    (modelMessageId fullResponse : jsstring) (w : World) :
  submitFinish env s modelMessageId fullResponse w
  = (Returned tt,
     logged FocusInput
       (savedWorld env (model s) (placeholder modelMessageId fullResponse)
          (withView (with_isLoading false (view w)) w))).
Proof.
  unfold submitFinish. unfold_M. cbn -[savedWorld saveMessage].
  rewrite saveMessage_run. unfold logged, withView, placeholder.
  cbn [view db reads trace]. reflexivity.
Qed.

(** [handleSubmit] past its guard ends in the world [submitted]. *)
Lemma handleSubmit_run (env : Env) (w : World) :
  submitRejected (view w) = false ->
  handleSubmit env w = (Returned tt, submitted env w).
Proof.
  intros Hguard. unfold handleSubmit. rewrite Hguard.
  rewrite (bind_run _ _ _ _ _ (submitStart_run env w)). cbn beta iota.
  fold (submitStream env w).
  assert (outcome (submitStream env w) = Returned tt) as Ho
    by apply getChatResponseStream_steps.
  rewrite (bind_run _ _ _ _ _
             (forAwait_receiveChunk_run (submitStream env w)
                (submitMessageId env w) _ Ho)).
  rewrite submitFinish_run.
  unfold submitted, submitReply, submitStreamed, withView, afterRead.
  cbn [view db reads trace]. rewrite with_messages_twice. reflexivity.
Qed.

Lemma modifyView_run (f : ViewState -> ViewState) (w : World) :
  modifyView f w = (Returned tt, withView (f (view w)) w).
Proof. reflexivity. Qed.

Lemma dateNow_run (env : Env) (w : World) :
  dateNow env w = (Returned (clock env (reads w)), afterRead w).
Proof. reflexivity. Qed.

Lemma emit_run (ev : Event) (w : World) :
  emit ev w = (Returned tt, logged ev w).
Proof. reflexivity. Qed.

(** Runs the first step of a handler. *)
Ltac run_step lemma := rewrite (bind_run _ _ _ _ _ lemma); cbn beta zeta iota.

Ltac run_view :=
  unfold setMessages, setInput, setIsLoading, setModel, setUploadedImage,
    setShowGenerationPanel, setGenPrompt, setGenAspectRatio, setGenModel,
    setGenNumImages, setRef, focusInput.

Ltac run_prim :=
  match goal with
  | |- (mbind _ (modifyView ?f)) ?W = _ => run_step (modifyView_run f W)
  | |- (mbind _ (dateNow ?e)) ?W = _ => run_step (dateNow_run e W)
  | |- (mbind _ (emit ?ev)) ?W = _ => run_step (emit_run ev W)
  | |- (mbind _ (saveMessage ?e ?m ?msg)) ?W = _ =>
      run_step (saveMessage_run e m msg W)
  end.

(** Replaces the world about to be stepped by a name for it. *)
Ltac name_world W' :=
  match goal with
  | |- _ ?W = _ => change W with W'
  end.

(** A reply is stamped, appended to the message list and saved. *)
Lemma reply_run (env : Env) (model : jsstring) (reply : Z -> ChatMessage)
    (w : World) :
  (t' ← dateNow env;
   modifyView (with_messages (fun prev => prev ++ [reply (t' + 1)]));;
   saveMessage env model (reply (t' + 1))) w
  = (let r := reply (clock env (reads w) + 1) in
     let w1 :=
       withView (with_messages (fun prev => prev ++ [r]) (view w))
         (afterRead w) in
     (Returned (savedKey env w1), savedWorld env model r w1)).
Proof.
  do 2 run_prim. cbn zeta. rewrite saveMessage_run. reflexivity.
Qed.

(** [handleGenerateImage] past its guard ends in the world [generated]. *)
Lemma handleGenerateImage_run (env : Env) (w : World)
    (result : option (list jsstring)) :
  generateRejected (view w) = false ->
  outcome (generateTask env w) = Returned result ->
  handleGenerateImage env w = (Returned tt, generated env w result).
Proof.
  intros Hguard Ho. unfold handleGenerateImage. rewrite Hguard.
  cbn beta zeta. run_view.
  do 5 run_prim.
  name_world (generateSaved env w).
  fold (paramsOf (view w)). fold (generateTask env w).
  match goal with
  | |- (mbind _ (await _)) ?W = _ => run_step (await_run _ result W Ho)
  end.
  destruct result as [urls|].
  - match goal with
    | |- (mbind _ _) ?W = _ =>
        run_step
          (reply_run env (model (view w))
             (fun stamp =>
                {| msg_id := toString stamp; msg_author := MODEL;
                   msg_parts :=
                     [ImageGenerationResultPart
                        (map (fun url => {| img_url := url |}) urls)
                        (genPrompt (view w)) (paramsOf (view w))];
                   msg_content := JsUndefined |}) W)
    end.
    name_world (savedWorld env (model (view w))
                  (generateReply env w (Some urls))
                  (generateAnswered env w (Some urls))).
    unfold generated. cbn zeta.
    generalize (savedWorld env (model (view w))
                  (generateReply env w (Some urls))
                  (generateAnswered env w (Some urls))).
    intros W3. do 2 run_prim. rewrite emit_run. reflexivity.
  - match goal with
    | |- (mbind _ _) ?W = _ =>
        run_step
          (reply_run env (model (view w))
             (fun stamp =>
                {| msg_id := toString stamp; msg_author := MODEL;
                   msg_parts := [TextPart imageApology];
                   msg_content := JsUndefined |}) W)
    end.
    name_world (savedWorld env (model (view w))
                  (generateReply env w None)
                  (generateAnswered env w None)).
    unfold generated. cbn zeta.
    generalize (savedWorld env (model (view w))
                  (generateReply env w None)
                  (generateAnswered env w None)).
    intros W3. do 2 run_prim. rewrite emit_run. reflexivity.
Qed.

(** ** Guards and controls *)

Lemma trimStart_nil (s : jsstring) :
  trimStart s = [] <-> forallb is_ws s = true.
Proof.
  induction s as [|c s IH]; cbn; [tauto|].
  destruct (is_ws c); cbn; [exact IH|]. split; discriminate.
Qed.

Lemma trimStart_head (s : jsstring) (c : N) (r : jsstring) :
  trimStart s = c :: r -> is_ws c = false.
Proof.
  induction s as [|c' s IH]; cbn; [discriminate|].
  destruct (is_ws c') eqn:Hc; [exact IH|]. now intros [= <- _].
Qed.

Lemma trim_nil (s : jsstring) : trim s = [] <-> forallb is_ws s = true.
Proof.
  unfold trim, trimEnd. split.
  - intros H. apply trimStart_nil.
    destruct (trimStart s) as [|c r] eqn:Hs; [reflexivity|].
    apply (f_equal (@rev N)) in H. rewrite rev_involutive in H. cbn [rev] in H.
    apply trimStart_nil in H. rewrite forallb_forall in H.
    apply trimStart_head in Hs.
    rewrite (H c) in Hs; [discriminate|]. apply in_or_app. right. now left.
  - intros H. apply trimStart_nil in H. rewrite H. reflexivity.
Qed.

Lemma truthy_false (s : jsstring) : truthy s = false <-> s = [].
Proof. destruct s; cbn; split; congruence. Qed.

(** X1. [handleSubmit] rejects exactly when a request is in flight, or
    nothing is attached and the input is empty or consists of white space
    only. *)
Theorem submitRejected_blank (s : ViewState) :
  submitRejected s = true
  <-> isLoading s = true
      \/ (forallb is_ws (input s) = true /\ uploadedImage s = None).
Proof.
  unfold submitRejected.
  rewrite orb_true_iff, andb_true_iff, !negb_true_iff, truthy_false,
    trim_nil, bool_decide_eq_false.
  split.
  - intros [[Hws Hup] | Hl]; [right | left; exact Hl].
    split; [exact Hws|]. destruct (uploadedImage s); [|reflexivity].
    exfalso. apply Hup. eauto.
  - intros [Hl | [Hws Hup]]; [right; exact Hl | left].
    split; [exact Hws|]. rewrite Hup. intros [? [=]].
Qed.

Lemma savedWorld_reads (env : Env) (model : jsstring)
    (message : ChatMessage) (w : World) :
  (reads w <= reads (savedWorld env model message w))%nat.
Proof.
  unfold savedWorld.
  destruct (truthyId (currentConversationIdRef (view w))) as [key|].
  - destruct (getConversation key (db w)) as [c|]; [|cbn; lia].
    destruct (isChat c); cbn; lia.
  - cbn. lia.
Qed.

(** The named worlds, one layer unfolded. *)
Lemma submitted_eq (env : Env) (w : World) :
  submitted env w
  = logged FocusInput
      (savedWorld env (model (view w)) (submitReply env w)
         (submitStreamed env w)).
Proof. reflexivity. Qed.

Lemma generated_eq (env : Env) (w : World) (result : option (list jsstring)) :
  generated env w result
  = logged FocusInput
      (withView
         (with_isLoading false
            (with_genPrompt []
               (view (savedWorld env (model (view w))
                        (generateReply env w result)
                        (generateAnswered env w result)))))
         (savedWorld env (model (view w)) (generateReply env w result)
            (generateAnswered env w result))).
Proof. reflexivity. Qed.

Lemma logged_reads (ev : Event) (w : World) : reads (logged ev w) = reads w.
Proof. reflexivity. Qed.

Lemma withView_reads (s : ViewState) (w : World) :
  reads (withView s w) = reads w.
Proof. reflexivity. Qed.

(** A submission that passes the guard reads the clock. *)
Lemma submitted_reads (env : Env) (w : World) :
  (reads w < reads (submitted env w))%nat.
Proof.
  assert (reads (submitStarted env w) = S (reads w)) as E1 by reflexivity.
  assert (reads (submitStreamed env w) = S (reads (submitSaved env w)))
    as E2 by reflexivity.
  assert (reads (submitStarted env w) <= reads (submitSaved env w))%nat
    as H1 by apply savedWorld_reads.
  pose proof (savedWorld_reads env (model (view w)) (submitReply env w)
                (submitStreamed env w)) as H2.
  rewrite submitted_eq, logged_reads.
  rewrite E1 in H1. rewrite E2 in H2. revert H1 H2.
  generalize (reads (savedWorld env (model (view w)) (submitReply env w)
                       (submitStreamed env w))),
    (reads (submitSaved env w)), (reads w).
  intros; lia.
Qed.

Lemma generated_reads (env : Env) (w : World)
    (result : option (list jsstring)) :
  (reads w < reads (generated env w result))%nat.
Proof.
  assert (reads (generateStarted env w) = S (reads w)) as E1 by reflexivity.
  assert (reads (generateAnswered env w result)
          = S (reads (generateSaved env w))) as E2 by reflexivity.
  assert (reads (generateStarted env w) <= reads (generateSaved env w))%nat
    as H1 by apply savedWorld_reads.
  pose proof (savedWorld_reads env (model (view w))
                (generateReply env w result)
                (generateAnswered env w result)) as H2.
  rewrite generated_eq, logged_reads, withView_reads.
  rewrite E1 in H1. rewrite E2 in H2. revert H1 H2.
  generalize (reads (savedWorld env (model (view w))
                       (generateReply env w result)
                       (generateAnswered env w result))),
    (reads (generateSaved env w)), (reads w).
  intros; lia.
Qed.

Lemma sendDisabled_submitRejected (s : ViewState) :
  sendDisabled s = submitRejected s.
Proof. unfold sendDisabled, submitRejected. apply orb_comm. Qed.

(** X2. The send button is disabled exactly when [handleSubmit] would do
    nothing: with the button disabled the handler returns and leaves view,
    store, clock and trace as they are; with the button enabled it does
    not leave them so. *)
Theorem sendDisabled_iff_noop (env : Env) (w : World) :
  sendDisabled (view w) = true <-> handleSubmit env w = (Returned tt, w).
Proof.
  rewrite sendDisabled_submitRejected. split.
  - intros Hguard. unfold handleSubmit. rewrite Hguard. reflexivity.
  - intros Hrun. destruct (submitRejected (view w)) eqn:Hguard; [reflexivity|].
    exfalso. rewrite (handleSubmit_run env w Hguard) in Hrun.
    injection Hrun as Hrun. pose proof (submitted_reads env w) as Hr.
    rewrite Hrun in Hr. lia.
Qed.

Lemma generateImage_returns (env : Env) (prompt : jsstring)
    (params : GenerationParameters) :
  exists result,
    outcome (generateImage env prompt params) = Returned result.
Proof.
  destruct (generateImage_spec env prompt params) as (result & _ & Ho & _).
  eauto.
Qed.

(** X3. The Generate button is disabled exactly when [handleGenerateImage]
    would do nothing, which is when a request is in flight or the prompt
    is empty or consists of white space only. *)
Theorem generateDisabled_iff_noop (env : Env) (w : World) :
  (generateDisabled (view w) = true
   <-> handleGenerateImage env w = (Returned tt, w))
  /\ (generateDisabled (view w) = true
      <-> isLoading (view w) = true
          \/ forallb is_ws (genPrompt (view w)) = true).
Proof.
  change (generateDisabled (view w)) with (generateRejected (view w)).
  split; split.
  - intros Hguard. unfold handleGenerateImage. rewrite Hguard. reflexivity.
  - intros Hrun. destruct (generateRejected (view w)) eqn:Hguard;
      [reflexivity|].
    exfalso.
    destruct (generateImage_returns env (genPrompt (view w))
                (paramsOf (view w))) as [result Ho].
    rewrite (handleGenerateImage_run env w result Hguard Ho) in Hrun.
    injection Hrun as Hrun. pose proof (generated_reads env w result) as Hr.
    rewrite Hrun in Hr. lia.
  - unfold generateRejected.
    rewrite orb_true_iff, negb_true_iff, truthy_false, trim_nil. tauto.
  - unfold generateRejected.
    rewrite orb_true_iff, negb_true_iff, truthy_false, trim_nil. tauto.
Qed.

(** ** Loading *)

Lemma migrate_ids (msgs : list StoredMessage) :
  map msg_id (map migrate msgs) = map sm_id msgs
  /\ map msg_author (map migrate msgs) = map sm_author msgs.
Proof.
  rewrite !map_map. split; apply map_ext; intros m; unfold migrate;
    destruct (sm_parts m); [reflexivity | | reflexivity |];
    destruct (sm_content m); reflexivity.
Qed.

(** X4. Loading a chat conversation of the store shows its messages,
    migrated, in the stored order and with the stored identifiers and
    authors, selects the model the conversation was created with, empties
    the input, drops the upload and closes the panel. The store is only
    read, and the loading flag and the fields of the panel stay as they
    were. The input gets the focus last when it is rendered, that is when
    the generation panel was closed; with the panel open no focus call is
    made. *)
Theorem loadConversation_stored_chat (key : jsstring) (c : Conversation)
    (w : World) :
  key <> [] ->
  getConversation key (db w) = Some c ->
  conv_type c = lit "chat" ->
  loadConversation (Some key) w
  = (Returned tt,
     {| view :=
          {| messages := map migrate (conv_messages c);
             input := [];
             isLoading := isLoading (view w);
             model := conv_modelUsed c;
             uploadedImage := None;
             showGenerationPanel := false;
             genPrompt := genPrompt (view w);
             genAspectRatio := genAspectRatio (view w);
             genModel := genModel (view w);
             genNumImages := genNumImages (view w);
             currentConversationIdRef := Some key |};
        db := db w; reads := reads w;
        trace :=
          trace w ++ DbGet key
          :: (if showGenerationPanel (view w) then [] else [FocusInput]) |})
  /\ map msg_id (map migrate (conv_messages c)) = map sm_id (conv_messages c)
  /\ map msg_author (map migrate (conv_messages c))
     = map sm_author (conv_messages c).
Proof.
  intros Hkey Hc Ht. split; [|apply migrate_ids].
  assert (truthy key = true) as Htruthy by (now destruct key).
  unfold loadConversation, truthyId. rewrite Htruthy.
  unfold_M. cbn. rewrite Hc. unfold isChat.
  rewrite bool_decide_eq_true_2 by assumption. cbn.
  destruct (showGenerationPanel (view w)); cbn; rewrite <- ?app_assoc;
    reflexivity.
Qed.

Lemma loadConversation_stored_chat_witness :
  messages (view (worldAfter (loadConversation (Some (lit "42")))
                    (mount None oneChat)))
  = [{| msg_id := lit "1"; msg_author := USER;
        msg_parts := [TextPart (lit "hi")];
        msg_content := JsString (lit "hi") |};
     {| msg_id := lit "3"; msg_author := USER;
        msg_parts := [TextPart (lit "a"); TextPart (lit "b")];
        msg_content := JsUndefined |}]
  /\ trace (worldAfter (loadConversation (Some (lit "42")))
              {| view := view (promptCat None); db := oneChat; reads := 0;
                 trace := [] |})
     = [DbGet (lit "42")].
Proof.
  unfold worldAfter. split.
  - rewrite (proj1 (loadConversation_stored_chat (lit "42") storedChat
                      (mount None oneChat) ltac:(discriminate) eq_refl
                      eq_refl)).
    reflexivity.
  - rewrite (proj1 (loadConversation_stored_chat (lit "42") storedChat
                      {| view := view (promptCat None); db := oneChat;
                         reads := 0; trace := [] |}
                      ltac:(discriminate) eq_refl eq_refl)).
    reflexivity.
Defined.

(** X5. Whatever the identifier and the store, [loadConversation] returns
    normally, writes nothing to the store and reads it at most once, for a
    non-empty identifier only, and does not read the clock. Its last
    outside call is the focus of the input when the generation panel was
    closed; with the panel open the input is not rendered and no focus
    call is made. It holds the identifier in the ref, empties the input,
    drops the upload, closes the panel, and leaves the loading flag and
    the fields of the panel as they were. *)
Theorem loadConversation_frame (conversationId : option jsstring)
    (w : World) :
  let r := loadConversation conversationId w in
  let w' := r.2 in
  let focus :=
    if showGenerationPanel (view w) then [] else [FocusInput] in
  r.1 = Returned tt
  /\ db w' = db w
  /\ reads w' = reads w
  /\ trace w'
     = trace w
       ++ match truthyId conversationId with
          | Some key => [DbGet key]
          | None => []
          end
       ++ focus
  /\ currentConversationIdRef (view w') = conversationId
  /\ input (view w') = []
  /\ uploadedImage (view w') = None
  /\ showGenerationPanel (view w') = false
  /\ isLoading (view w') = isLoading (view w)
  /\ genPrompt (view w') = genPrompt (view w)
  /\ genAspectRatio (view w') = genAspectRatio (view w)
  /\ genModel (view w') = genModel (view w)
  /\ genNumImages (view w') = genNumImages (view w).
Proof.
  cbn zeta. unfold loadConversation.
  destruct (truthyId conversationId) as [key|] eqn:Hid.
  - unfold_M. cbn.
    destruct (getConversation key (db w)) as [c|]; [destruct (isChat c)|];
      cbn; destruct (showGenerationPanel (view w)); cbn;
      rewrite <- ?app_assoc; repeat split.
  - unfold_M. cbn. destruct (showGenerationPanel (view w)); cbn;
      rewrite ?app_nil_r; repeat split.
Qed.

(** ** Saving *)

(** X6. Saving into a chat conversation of a keyed store appends the
    message to the stored messages and changes nothing else of the
    conversation: identifier, title, creation time, model and favourite
    flag stay. The other conversations, the view and the clock are left
    alone, and the creation callback is not called. *)
Theorem saveMessage_appends (env : Env) (model : jsstring)
    (message : ChatMessage) (w : World) (key : jsstring) (c : Conversation) :
  keyed (db w) ->
  truthyId (currentConversationIdRef (view w)) = Some key ->
  getConversation key (db w) = Some c ->
  conv_type c = lit "chat" ->
  exists w' c',
    saveMessage env model message w = (Returned key, w')
    /\ getConversation key (db w') = Some c'
    /\ conv_messages c' = conv_messages c ++ [stored message]
    /\ conv_id c' = conv_id c /\ conv_title c' = conv_title c
    /\ conv_createdAt c' = conv_createdAt c
    /\ conv_modelUsed c' = conv_modelUsed c
    /\ conv_isFavorite c' = conv_isFavorite c
    /\ conv_type c' = conv_type c
    /\ (forall k, k <> key ->
          getConversation k (db w') = getConversation k (db w))
    /\ view w' = view w /\ reads w' = reads w
    /\ trace w' = trace w ++ [DbGet key; DbPut c'].
Proof.
  intros Hk Href Hc Ht.
  eexists _, (pushMessage c message).
  split; [apply (saveMessage_existing env model message w key c); assumption|].
  cbn. unfold getConversation, addOrUpdateConversation in *. cbn.
  rewrite (Hk key c Hc).
  split; [apply lookup_insert_eq|].
  repeat (split; [reflexivity|]).
  split; [|repeat split].
  intros k Hne. apply lookup_insert_ne. congruence.
Qed.

Lemma oneChat_keyed : keyed oneChat.
Proof.
  intros k c. unfold getConversation, oneChat.
  intros H. apply lookup_singleton_Some in H as [<- <-]. reflexivity.
Defined.

Lemma saveMessage_appends_witness :
  exists w' c',
    saveMessage idleEnv defaultModel aMessage resumed
    = (Returned (lit "42"), w')
    /\ getConversation (lit "42") (db w') = Some c'
    /\ conv_messages c' = [legacyText; currentFormat; stored aMessage].
Proof.
  destruct (saveMessage_appends idleEnv defaultModel aMessage resumed
              (lit "42") storedChat)
    as (w' & c' & Hrun & Hget & Hmsgs & _).
  - exact oneChat_keyed.
  - reflexivity.
  - reflexivity.
  - reflexivity.
  - exists w', c'. split; [exact Hrun|]. split; [exact Hget|]. exact Hmsgs.
Defined.

(** X7. Without a current conversation [saveMessage] stores a new chat
    conversation under the stamp of the clock: the message alone, the
    creation time read next from the clock, the selected model, not a
    favourite. Whatever the store held under that stamp is replaced; the
    other conversations stay. The ref then holds the stamp, the rest of
    the view is as before, and the creation callback is called once, after
    the write. *)
Theorem saveMessage_creates (env : Env) (model : jsstring)
    (message : ChatMessage) (w : World) :
  truthyId (currentConversationIdRef (view w)) = None ->
  let key := toString (clock env (reads w)) in
  exists w' c,
    saveMessage env model message w = (Returned key, w')
    /\ getConversation key (db w') = Some c
    /\ conv_id c = key
    /\ conv_messages c = [stored message]
    /\ conv_createdAt c = clock env (S (reads w))
    /\ conv_modelUsed c = model
    /\ conv_isFavorite c = false
    /\ conv_type c = lit "chat"
    /\ (forall k, k <> key ->
          getConversation k (db w') = getConversation k (db w))
    /\ view w' = with_currentConversationIdRef (Some key) (view w)
    /\ reads w' = S (S (reads w))
    /\ trace w' = trace w ++ [DbPut c; ConversationCreated key].
Proof.
  intros Href. cbn zeta. eexists _, _.
  split; [apply saveMessage_new, Href|].
  cbn. unfold getConversation, addOrUpdateConversation. cbn.
  split; [apply lookup_insert_eq|].
  repeat (split; [reflexivity|]).
  split; [|repeat split].
  intros k Hne. apply lookup_insert_ne. congruence.
Qed.

Lemma saveMessage_creates_witness :
  exists w' c,
    saveMessage idleEnv defaultModel aMessage (mount None oneChat)
    = (Returned (lit "1700000000000"), w')
    /\ getConversation (lit "1700000000000") (db w') = Some c
    /\ conv_createdAt c = 1700000000001
    /\ getConversation (lit "42") (db w') = Some storedChat.
Proof.
  destruct (saveMessage_creates idleEnv defaultModel aMessage
              (mount None oneChat))
    as (w' & c & Hrun & Hget & _ & _ & Hat & _ & _ & _ & Hother & _);
    [reflexivity|].
  exists w', c. split; [exact Hrun|]. split; [exact Hget|].
  split; [exact Hat|].
  rewrite (Hother (lit "42")); [reflexivity | discriminate].
Defined.

(** ** What a submission leaves behind *)

Lemma logged_view (ev : Event) (w : World) : view (logged ev w) = view w.
Proof. reflexivity. Qed.

Lemma logged_db (ev : Event) (w : World) : db (logged ev w) = db w.
Proof. reflexivity. Qed.

Lemma logged_trace (ev : Event) (w : World) :
  trace (logged ev w) = trace w ++ [ev].
Proof. reflexivity. Qed.

Lemma withView_view (s : ViewState) (w : World) : view (withView s w) = s.
Proof. reflexivity. Qed.

Lemma withView_db (s : ViewState) (w : World) : db (withView s w) = db w.
Proof. reflexivity. Qed.

Lemma withView_trace (s : ViewState) (w : World) :
  trace (withView s w) = trace w.
Proof. reflexivity. Qed.

Lemma savedKey_ref (env : Env) (w : World) (key : jsstring) :
  currentConversationIdRef (view w) = Some key ->
  truthy key = true ->
  savedKey env w = key.
Proof. unfold savedKey, truthyId. now intros -> ->. Qed.

Lemma savedWorld_trace (env : Env) (model : jsstring)
    (message : ChatMessage) (w : World) :
  trace (savedWorld env model message w)
  = trace w ++ savedEvents env model message w.
Proof.
  unfold savedWorld, savedEvents.
  destruct (truthyId (currentConversationIdRef (view w))) as [key|];
    [|reflexivity].
  destruct (getConversation key (db w)) as [c|]; [|reflexivity].
  destruct (isChat c); reflexivity.
Qed.

(** One save, seen from a world [w0] with the same ref and store. *)
Lemma saved_step (env : Env) (model : jsstring) (message : ChatMessage)
    (w0 w : World) :
  currentConversationIdRef (view w) = currentConversationIdRef (view w0) ->
  db w = db w0 ->
  keyed (db w0) ->
  persistable w0 ->
  keyed (db (savedWorld env model message w))
  /\ persistable (savedWorld env model message w)
  /\ storedMessages (savedWorld env model message w)
     = storedMessages w0 ++ [stored message]
  /\ (forall k, k <> savedKey env w ->
        getConversation k (db (savedWorld env model message w))
        = getConversation k (db w0))
  /\ currentConversationIdRef (view (savedWorld env model message w))
     = Some (savedKey env w).
Proof.
  intros Href Hdb Hk Hp.
  assert (keyed (db w)) as Hk' by now rewrite Hdb.
  assert (persistable w) as Hp' by now apply (persistable_congr w0 w).
  split; [now apply savedWorld_keyed|].
  split; [now apply persistable_savedWorld|].
  split.
  { rewrite storedMessages_savedWorld by assumption.
    now rewrite (storedMessages_congr w0 w). }
  split.
  { intros k Hne. rewrite savedWorld_other by assumption. now rewrite Hdb. }
  rewrite savedWorld_view. reflexivity.
Qed.

Lemma submitStarted_store (env : Env) (w : World) :
  currentConversationIdRef (view (submitStarted env w))
  = currentConversationIdRef (view w)
  /\ db (submitStarted env w) = db w.
Proof. split; reflexivity. Qed.

Lemma submitStreamed_store (env : Env) (w : World) :
  currentConversationIdRef (view (submitStreamed env w))
  = currentConversationIdRef (view (submitSaved env w))
  /\ db (submitStreamed env w) = db (submitSaved env w).
Proof.
  unfold submitStreamed. generalize (submitSaved env w). intros W.
  split; reflexivity.
Qed.

(** The identifier of the conversation a submission in world [w] writes
    to: the one the ref holds, or the stamp of the clock read after the
    user message was stamped. *)
Lemma submitStarted_key (env : Env) (w : World) :
  savedKey env (submitStarted env w)
  = match truthyId (currentConversationIdRef (view w)) with
    | Some key => key
    | None => toString (clock env (S (reads w)))
    end.
Proof. reflexivity. Qed.

Lemma submitStreamed_key (env : Env) (w : World) :
  savedKey env (submitStreamed env w) = savedKey env (submitStarted env w).
Proof.
  apply savedKey_ref.
  - rewrite (proj1 (submitStreamed_store env w)). unfold submitSaved.
    rewrite savedWorld_view. reflexivity.
  - apply savedKey_truthy.
Qed.

Lemma storedMessages_logged (ev : Event) (w : World) :
  storedMessages (logged ev w) = storedMessages w.
Proof. reflexivity. Qed.

(** The store after a submission that passes the guard. *)
Lemma submitted_store (env : Env) (w : World) :
  keyed (db w) ->
  persistable w ->
  let key := savedKey env (submitStarted env w) in
  keyed (db (submitted env w))
  /\ persistable (submitted env w)
  /\ storedMessages (submitted env w)
     = storedMessages w
       ++ [stored (userMessageOf env w); stored (submitReply env w)]
  /\ (forall k, k <> key ->
        getConversation k (db (submitted env w)) = getConversation k (db w))
  /\ currentConversationIdRef (view (submitted env w)) = Some key.
Proof.
  intros Hk Hp. cbn zeta.
  destruct (submitStarted_store env w) as [Href0 Hdb0].
  destruct (saved_step env (model (view w)) (userMessageOf env w) w
              (submitStarted env w) Href0 Hdb0 Hk Hp)
    as (Hk1 & Hp1 & Hm1 & Ho1 & Href1).
  fold (submitSaved env w) in Hk1, Hp1, Hm1, Ho1, Href1.
  destruct (submitStreamed_store env w) as [Href2 Hdb2].
  destruct (saved_step env (model (view w)) (submitReply env w)
              (submitSaved env w) (submitStreamed env w) Href2 Hdb2 Hk1 Hp1)
    as (Hk3 & Hp3 & Hm3 & Ho3 & Href3).
  rewrite submitStreamed_key in Ho3, Href3.
  rewrite submitted_eq.
  generalize dependent (savedWorld env (model (view w)) (submitReply env w)
                          (submitStreamed env w)).
  intros W3 Hk3 Hp3 Hm3 Ho3 Href3.
  split; [exact Hk3|]. split; [exact Hp3|].
  split.
  { rewrite storedMessages_logged, Hm3, Hm1, <- app_assoc. reflexivity. }
  split; [|exact Href3].
  intros k Hne. rewrite logged_db, (Ho3 k Hne). apply Ho1, Hne.
Qed.

Lemma submitStarted_view (env : Env) (w : World) :
  view (submitStarted env w)
  = with_isLoading true
      (with_uploadedImage None
         (with_input []
            (with_messages (fun _ => historyOf env w) (view w)))).
Proof. reflexivity. Qed.

Lemma submitStreamed_view (env : Env) (w : World) :
  view (submitStreamed env w)
  = with_isLoading false
      (with_messages
         (fun prev =>
            streamedFrom (submitMessageId env w) []
              (fragments (steps (submitStream env w)))
              (prev ++ [placeholder (submitMessageId env w) []]))
         (view (submitSaved env w))).
Proof.
  unfold submitStreamed. generalize (submitSaved env w). intros W.
  reflexivity.
Qed.

(** The view after a submission that passes the guard. *)
Lemma submitted_view (env : Env) (w : World) :
  view (submitted env w)
  = {| messages :=
         streamedFrom (submitMessageId env w) []
           (fragments (steps (submitStream env w)))
           (historyOf env w ++ [placeholder (submitMessageId env w) []]);
       input := [];
       isLoading := false;
       model := model (view w);
       uploadedImage := None;
       showGenerationPanel := showGenerationPanel (view w);
       genPrompt := genPrompt (view w);
       genAspectRatio := genAspectRatio (view w);
       genModel := genModel (view w);
       genNumImages := genNumImages (view w);
       currentConversationIdRef := Some (savedKey env (submitStarted env w)) |}.
Proof.
  rewrite submitted_eq, logged_view, savedWorld_view, submitStreamed_key,
    submitStreamed_view.
  unfold submitSaved. rewrite savedWorld_view, submitStarted_view.
  generalize (savedKey env (submitStarted env w)), (submitMessageId env w),
    (fragments (steps (submitStream env w))), (historyOf env w), (view w).
  intros key mid frags history s. reflexivity.
Qed.

Lemma savedWorld_reads_eq (env : Env) (model : jsstring)
    (message : ChatMessage) (w : World) :
  reads (savedWorld env model message w)
  = match truthyId (currentConversationIdRef (view w)) with
    | Some _ => reads w
    | None => S (S (reads w))
    end.
Proof.
  unfold savedWorld.
  destruct (truthyId (currentConversationIdRef (view w))) as [key|];
    [|reflexivity].
  destruct (getConversation key (db w)) as [c|]; [|reflexivity].
  destruct (isChat c); reflexivity.
Qed.

(** The identifier of the model message is the clock read after the save,
    plus one. *)
Lemma submitMessageId_eq (env : Env) (w : World) :
  submitMessageId env w = modelMessageIdOf env w.
Proof.
  unfold submitMessageId, modelMessageIdOf, submitSaved.
  rewrite savedWorld_reads_eq.
  rewrite (proj1 (submitStarted_store env w)).
  destruct (truthyId (currentConversationIdRef (view w))); reflexivity.
Qed.

Lemma replaceText_id (modelMessageId text : jsstring) (msg : ChatMessage) :
  msg_id (replaceText modelMessageId text msg) = msg_id msg
  /\ msg_author (replaceText modelMessageId text msg) = msg_author msg.
Proof.
  unfold replaceText.
  destruct (bool_decide (msg_id msg = modelMessageId)); split; reflexivity.
Qed.

Lemma replaceText_other (modelMessageId text : jsstring) (msg : ChatMessage) :
  msg_id msg <> modelMessageId -> replaceText modelMessageId text msg = msg.
Proof.
  intros Hne. unfold replaceText.
  now rewrite bool_decide_eq_false_2 by assumption.
Qed.

Lemma streamedFrom_ids (modelMessageId acc : jsstring)
    (frags : list jsstring) (msgs : list ChatMessage) :
  map msg_id (streamedFrom modelMessageId acc frags msgs) = map msg_id msgs.
Proof.
  unfold streamedFrom. destruct frags as [|c frags]; [reflexivity|].
  rewrite map_map. apply map_ext. intros m. apply replaceText_id.
Qed.

Lemma streamedFrom_fresh (modelMessageId : jsstring)
    (frags : list jsstring) (pre : list ChatMessage) :
  Forall (fun m => msg_id m <> modelMessageId) pre ->
  streamedFrom modelMessageId [] frags (pre ++ [placeholder modelMessageId []])
  = pre ++ [placeholder modelMessageId (concat frags)].
Proof.
  intros Hpre. unfold streamedFrom. destruct frags as [|c frags].
  - reflexivity.
  - rewrite map_app. cbn [map app]. rewrite replaceText_placeholder.
    f_equal. rewrite <- (map_id pre) at 2. apply map_ext_in.
    intros m Hm. apply replaceText_other.
    rewrite Forall_forall in Hpre. apply Hpre, list_elem_of_In, Hm.
Qed.

(** X8. A submission that passes the guard returns with the message list
    made of the earlier messages without the greeting, the user message and
    the MODEL message, whose identifier is the clock read after the save
    plus one: the identifiers are these in every case, and when no earlier
    message and not the user message has the identifier of the MODEL
    message, the earlier messages and the user message are unchanged and
    the MODEL message holds the streamed text. The input is emptied, the
    upload dropped, the loading flag cleared; the selected model and the
    fields of the generation panel stay as they were. *)
Theorem handleSubmit_shows (env : Env) (w : World) :
  submitRejected (view w) = false ->
  let mid := modelMessageIdOf env w in
  let text :=
    concat (fragments (steps (getChatResponseStream env (historyOf env w)
                                (model (view w))))) in
  exists w',
    handleSubmit env w = (Returned tt, w')
    /\ map msg_id (messages (view w'))
       = map msg_id (historyOf env w) ++ [mid]
    /\ (Forall (fun m => msg_id m <> mid) (historyOf env w) ->
        messages (view w') = historyOf env w ++ [placeholder mid text])
    /\ input (view w') = []
    /\ uploadedImage (view w') = None
    /\ isLoading (view w') = false
    /\ model (view w') = model (view w)
    /\ showGenerationPanel (view w') = showGenerationPanel (view w)
    /\ genPrompt (view w') = genPrompt (view w)
    /\ genAspectRatio (view w') = genAspectRatio (view w)
    /\ genModel (view w') = genModel (view w)
    /\ genNumImages (view w') = genNumImages (view w).
Proof.
  intros Hguard. cbn zeta. exists (submitted env w).
  split; [apply handleSubmit_run, Hguard|].
  rewrite submitted_view, <- submitMessageId_eq.
  fold (submitStream env w).
  generalize (submitMessageId env w), (fragments (steps (submitStream env w))),
    (historyOf env w), (savedKey env (submitStarted env w)).
  intros mid frags history key. cbn [messages input uploadedImage isLoading
    model showGenerationPanel genPrompt genAspectRatio genModel genNumImages].
  split.
  { rewrite streamedFrom_ids, map_app. reflexivity. }
  split; [apply streamedFrom_fresh|].
  repeat split.
Qed.

Lemma handleSubmit_shows_witness :
  exists w',
    handleSubmit helloEnv typedHi = (Returned tt, w')
    /\ messages (view w')
       = [{| msg_id := lit "1700000000000"; msg_author := USER;
             msg_parts := [TextPart (lit "hi")];
             msg_content := JsUndefined |};
          {| msg_id := lit "1700000000004"; msg_author := MODEL;
             msg_parts := [TextPart (lit "Hello")];
             msg_content := JsUndefined |}].
Proof.
  destruct (handleSubmit_shows helloEnv typedHi)
    as (w' & Hrun & _ & Hmsgs & _); [reflexivity|].
  exists w'. split; [exact Hrun|]. rewrite Hmsgs.
  - reflexivity.
  - repeat constructor; discriminate.
Defined.

(** X9. A submission that passes the guard, from a keyed store and a world
    in which [saveMessage] writes, leaves the conversation of the ref with
    the messages stored before, then the user message, then the MODEL
    message with the streamed text. The conversation is the one the ref
    held, or a new one under the stamp of the clock read after the user
    message was stamped; the ref holds its identifier afterwards, and the
    other conversations of the store are as before. *)
Theorem handleSubmit_persists (env : Env) (w : World) :
  submitRejected (view w) = false ->
  keyed (db w) ->
  persistable w ->
  let key :=
    match truthyId (currentConversationIdRef (view w)) with
    | Some key => key
    | None => toString (clock env (S (reads w)))
    end in
  let reply :=
    placeholder (modelMessageIdOf env w)
      (concat (fragments (steps (getChatResponseStream env (historyOf env w)
                                   (model (view w)))))) in
  exists w',
    handleSubmit env w = (Returned tt, w')
    /\ currentConversationIdRef (view w') = Some key
    /\ storedMessages w'
       = storedMessages w ++ [stored (userMessageOf env w); stored reply]
    /\ (forall k, k <> key ->
          getConversation k (db w') = getConversation k (db w))
    /\ keyed (db w')
    /\ persistable w'.
Proof.
  intros Hguard Hk Hp. cbn zeta. exists (submitted env w).
  split; [apply handleSubmit_run, Hguard|].
  destruct (submitted_store env w Hk Hp) as (Hk' & Hp' & Hm & Ho & Href).
  rewrite submitStarted_key in Ho, Href.
  unfold submitReply in Hm. rewrite submitMessageId_eq in Hm.
  auto.
Qed.

Lemma handleSubmit_persists_witness :
  exists w',
    handleSubmit helloEnv resumed = (Returned tt, w')
    /\ storedMessages w'
       = [legacyText; currentFormat;
          {| sm_id := lit "1700000000000"; sm_author := USER;
             sm_parts := Some [TextPart (lit "more")];
             sm_content := JsUndefined |};
          {| sm_id := lit "1700000000002"; sm_author := MODEL;
             sm_parts := Some [TextPart (lit "Hello")];
             sm_content := JsUndefined |}].
Proof.
  destruct (handleSubmit_persists helloEnv resumed)
    as (w' & Hrun & _ & Hm & _).
  - reflexivity.
  - exact oneChat_keyed.
  - exists storedChat. split; reflexivity.
  - exists w'. split; [exact Hrun|]. rewrite Hm. reflexivity.
Defined.

Lemma savedEvents_created (env : Env) (model : jsstring)
    (message : ChatMessage) (w : World) :
  List.filter isConversationCreated (savedEvents env model message w)
  = match truthyId (currentConversationIdRef (view w)) with
    | Some _ => []
    | None => [ConversationCreated (toString (clock env (reads w)))]
    end.
Proof.
  unfold savedEvents.
  destruct (truthyId (currentConversationIdRef (view w))) as [key|];
    [|reflexivity].
  destruct (getConversation key (db w)) as [c|]; [|reflexivity].
  destruct (isChat c); reflexivity.
Qed.

Lemma getChatResponseStream_no_callback (env : Env)
    (messages : list ChatMessage) (model : jsstring) :
  List.filter isConversationCreated
    (effects (steps (getChatResponseStream env messages model))) = [].
Proof.
  destruct (getChatResponseStream_steps env messages model) as [_ ->].
  cbn [effects List.filter isConversationCreated].
  destruct (chatRemote env (chatRequest messages model))
    as [e | chunks [e|]]; cbn [effects].
  - reflexivity.
  - rewrite effects_app, effects_Yield. reflexivity.
  - rewrite effects_Yield. reflexivity.
Qed.

(** The outside calls of a submission that passes the guard. *)
Lemma submitted_trace (env : Env) (w : World) :
  trace (submitted env w)
  = trace w
    ++ savedEvents env (model (view w)) (userMessageOf env w)
         (submitStarted env w)
    ++ effects (steps (submitStream env w))
    ++ savedEvents env (model (view w)) (submitReply env w)
         (submitStreamed env w)
    ++ [FocusInput].
Proof.
  rewrite submitted_eq, logged_trace, savedWorld_trace.
  assert (trace (submitStreamed env w)
          = trace (submitSaved env w) ++ effects (steps (submitStream env w)))
    as ->.
  { unfold submitStreamed. generalize (submitSaved env w). intros W.
    reflexivity. }
  unfold submitSaved at 1. rewrite savedWorld_trace.
  change (trace (submitStarted env w)) with (trace w).
  rewrite <- !app_assoc. reflexivity.
Qed.

(** X10. A submission that passes the guard calls the creation callback
    once when the ref held no conversation, with the identifier that the
    ref holds afterwards, and not at all when the ref held one; in both
    cases the input gets the focus last. *)
Theorem handleSubmit_callback (env : Env) (w : World) :
  submitRejected (view w) = false ->
  exists w' evs,
    handleSubmit env w = (Returned tt, w')
    /\ trace w' = trace w ++ evs ++ [FocusInput]
    /\ List.filter isConversationCreated evs
       = match truthyId (currentConversationIdRef (view w)) with
         | Some _ => []
         | None => [ConversationCreated (toString (clock env (S (reads w))))]
         end
    /\ (truthyId (currentConversationIdRef (view w)) = None ->
        currentConversationIdRef (view w')
        = Some (toString (clock env (S (reads w))))).
Proof.
  intros Hguard. exists (submitted env w).
  exists (savedEvents env (model (view w)) (userMessageOf env w)
            (submitStarted env w)
          ++ effects (steps (submitStream env w))
          ++ savedEvents env (model (view w)) (submitReply env w)
               (submitStreamed env w)).
  split; [apply handleSubmit_run, Hguard|].
  split; [rewrite submitted_trace, <- !app_assoc; reflexivity|].
  split.
  - rewrite !List.filter_app, !savedEvents_created.
    unfold submitStream. rewrite getChatResponseStream_no_callback.
    rewrite (proj1 (submitStreamed_store env w)). unfold submitSaved.
    rewrite savedWorld_ref. rewrite (proj1 (submitStarted_store env w)).
    rewrite !app_nil_r.
    destruct (truthyId (currentConversationIdRef (view w))); reflexivity.
  - intros Href. rewrite submitted_view. cbn [currentConversationIdRef].
    rewrite submitStarted_key, Href. reflexivity.
Qed.

Lemma handleSubmit_callback_witness :
  exists w',
    handleSubmit helloEnv typedHi = (Returned tt, w')
    /\ List.filter isConversationCreated (trace w')
       = [ConversationCreated (lit "1700000000001")].
Proof.
  destruct (handleSubmit_callback helloEnv typedHi)
    as (w' & evs & Hrun & Htr & Hcb & _); [reflexivity|].
  exists w'. split; [exact Hrun|].
  rewrite Htr, !List.filter_app, Hcb. reflexivity.
Defined.

(** ** Image generation, end to end *)

Lemma dataUrls_outcome (mimeType : jsstring) (imgs : list SdkGeneratedImage) :
  outcome (dataUrls mimeType imgs)
  = if forallb hasImage imgs
    then Returned (map (fun img => dataUrl mimeType (bytesOf img)) imgs)
    else Threw (TypeError (lit "img.image is undefined")).
Proof.
  induction imgs as [|img imgs IH]; [reflexivity|].
  rewrite dataUrls_cons. cbn [forallb map]. unfold hasImage at 1, bytesOf at 1.
  destruct (image img) as [i|]; [|reflexivity].
  rewrite bool_decide_eq_true_2 by eauto. cbn [andb].
  unfold mbind, Task_bind. rewrite IH.
  destruct (forallb hasImage imgs); reflexivity.
Qed.

(** The steps and the result of [generateImage], by what the remote call
    does. *)
Lemma generateImage_run (env : Env) (prompt : jsstring)
    (params : GenerationParameters) :
  let req := imageRequest prompt params in
  let mimeType := orElse (gp_outputMimeType params) (lit "image/png") in
  let task := generateImage env prompt params in
  let logs e := Effect (ConsoleError (lit "Error generating image:") e) in
  match imageRemote env req with
  | ImagesRejects e =>
      steps task = [Effect (ImagesRequested req); logs e]
      /\ outcome task = Returned None
  | ImagesResolves None | ImagesResolves (Some []) =>
      steps task = [Effect (ImagesRequested req)]
      /\ outcome task = Returned None
  | ImagesResolves (Some imgs) =>
      if forallb hasImage imgs
      then
        steps task = [Effect (ImagesRequested req)]
        /\ outcome task
           = Returned (Some (map (fun img => dataUrl mimeType (bytesOf img))
                               imgs))
      else
        steps task
        = [Effect (ImagesRequested req);
           logs (TypeError (lit "img.image is undefined"))]
        /\ outcome task = Returned None
  end.
Proof.
  cbn zeta. unfold generateImage, generateImages, imageRequest.
  set (req := {| ireq_model := gp_model params |}).
  unfold tryCatch, mbind, Task_bind. cbn.
  destruct (imageRemote env req) as [e | [imgs|]]; cbn;
    [split; reflexivity | | split; reflexivity].
  destruct imgs as [|img imgs]; cbn [length Nat.ltb Nat.leb];
    [split; reflexivity|].
  pose proof (dataUrls_steps (orElse (gp_outputMimeType params)
                                (lit "image/png")) (img :: imgs)) as Hs.
  pose proof (dataUrls_outcome (orElse (gp_outputMimeType params)
                                  (lit "image/png")) (img :: imgs)) as Ho.
  destruct (forallb hasImage (img :: imgs)); cbn; rewrite Ho; cbn;
    rewrite ?Ho, ?Hs; cbn; split; reflexivity.
Qed.

(** X11. When the remote call returns images that all have their [image],
    [generateImage] returns one data URL for each, in order, made of the
    requested output MIME type, or [image/png] when none or an empty one
    is requested, and of the bytes of the image; it makes one request and
    logs nothing. *)
Theorem generateImage_urls (env : Env) (prompt : jsstring)
    (params : GenerationParameters) (imgs : list SdkGeneratedImage) :
  imageRemote env (imageRequest prompt params) = ImagesResolves (Some imgs) ->
  imgs <> [] ->
  forallb hasImage imgs = true ->
  let mimeType := orElse (gp_outputMimeType params) (lit "image/png") in
  outcome (generateImage env prompt params)
  = Returned (Some (map (fun img => dataUrl mimeType (bytesOf img)) imgs))
  /\ steps (generateImage env prompt params)
     = [Effect (ImagesRequested (imageRequest prompt params))]
  /\ cfg_outputMimeType (ireq_config (imageRequest prompt params)) = mimeType.
Proof.
  intros Hr Hne Hall. cbn zeta.
  pose proof (generateImage_run env prompt params) as H. cbn zeta in H.
  rewrite Hr in H. destruct imgs as [|img imgs]; [contradiction|].
  rewrite Hall in H. destruct H as [Hs Ho]. auto.
Qed.

Lemma generateImage_urls_witness :
  outcome (generateImage paintingEnv (lit "cat") recalledParams)
  = Returned (Some [lit "data:image/jpeg;base64,AAAA";
                    lit "data:image/jpeg;base64,undefined"]).
Proof.
  apply (generateImage_urls paintingEnv (lit "cat") recalledParams
           [{| image := Some {| imageBytes := Some (lit "AAAA") |} |};
            {| image := Some {| imageBytes := None |} |}]).
  - reflexivity.
  - discriminate.
  - reflexivity.
Defined.



Lemma generateStarted_store (env : Env) (w : World) :
  currentConversationIdRef (view (generateStarted env w))
  = currentConversationIdRef (view w)
  /\ db (generateStarted env w) = db w.
Proof. split; reflexivity. Qed.

Lemma generateAnswered_store (env : Env) (w : World)
    (result : option (list jsstring)) :
  currentConversationIdRef (view (generateAnswered env w result))
  = currentConversationIdRef (view (generateSaved env w))
  /\ db (generateAnswered env w result) = db (generateSaved env w).
Proof.
  unfold generateAnswered. generalize (generateSaved env w). intros W.
  split; reflexivity.
Qed.

Lemma generateStarted_key (env : Env) (w : World) :
  savedKey env (generateStarted env w)
  = match truthyId (currentConversationIdRef (view w)) with
    | Some key => key
    | None => toString (clock env (S (reads w)))
    end.
Proof. reflexivity. Qed.

Lemma generateAnswered_key (env : Env) (w : World)
    (result : option (list jsstring)) :
  savedKey env (generateAnswered env w result)
  = savedKey env (generateStarted env w).
Proof.
  apply savedKey_ref.
  - rewrite (proj1 (generateAnswered_store env w result)).
    unfold generateSaved. rewrite savedWorld_view. reflexivity.
  - apply savedKey_truthy.
Qed.

Lemma generateReply_id (env : Env) (w : World)
    (result : option (list jsstring)) :
  generateReply env w result
  = {| msg_id := modelMessageIdOf env w; msg_author := MODEL;
       msg_parts := replyParts (view w) result;
       msg_content := JsUndefined |}.
Proof.
  unfold generateReply, modelMessageIdOf, generateSaved.
  rewrite savedWorld_reads_eq.
  rewrite (proj1 (generateStarted_store env w)).
  destruct (truthyId (currentConversationIdRef (view w))); reflexivity.
Qed.

(** The view after a generation that passes the guard. *)
Lemma generated_view (env : Env) (w : World)
    (result : option (list jsstring)) :
  view (generated env w result)
  = {| messages :=
         List.filter (fun m => negb (isInitial m)) (messages (view w))
         ++ [generationRequestOf env w; generateReply env w result];
       input := input (view w);
       isLoading := false;
       model := model (view w);
       uploadedImage := uploadedImage (view w);
       showGenerationPanel := false;
       genPrompt := [];
       genAspectRatio := genAspectRatio (view w);
       genModel := genModel (view w);
       genNumImages := genNumImages (view w);
       currentConversationIdRef :=
         Some (savedKey env (generateStarted env w)) |}.
Proof.
  rewrite generated_eq, logged_view, withView_view, savedWorld_view,
    generateAnswered_key.
  assert (view (generateAnswered env w result)
          = with_messages (fun prev => prev ++ [generateReply env w result])
              (view (generateSaved env w))) as ->.
  { unfold generateAnswered. generalize (generateSaved env w). intros W.
    reflexivity. }
  unfold generateSaved. rewrite savedWorld_view.
  assert (view (generateStarted env w)
          = with_messages
              (fun prev =>
                 List.filter (fun m => negb (isInitial m)) prev
                 ++ [generationRequestOf env w])
              (with_showGenerationPanel false (with_isLoading true (view w))))
    as -> by reflexivity.
  generalize (savedKey env (generateStarted env w)),
    (generateReply env w result), (generationRequestOf env w), (view w).
  intros key reply request s.
  change [request; reply] with ([request] ++ [reply]).
  rewrite app_assoc. reflexivity.
Qed.

(** The store after a generation that passes the guard. *)
Lemma generated_store (env : Env) (w : World)
    (result : option (list jsstring)) :
  keyed (db w) ->
  persistable w ->
  let key := savedKey env (generateStarted env w) in
  keyed (db (generated env w result))
  /\ persistable (generated env w result)
  /\ storedMessages (generated env w result)
     = storedMessages w
       ++ [stored (generationRequestOf env w);
           stored (generateReply env w result)]
  /\ (forall k, k <> key ->
        getConversation k (db (generated env w result))
        = getConversation k (db w)).
Proof.
  intros Hk Hp. cbn zeta.
  destruct (generateStarted_store env w) as [Href0 Hdb0].
  destruct (saved_step env (model (view w)) (generationRequestOf env w) w
              (generateStarted env w) Href0 Hdb0 Hk Hp)
    as (Hk1 & Hp1 & Hm1 & Ho1 & Href1).
  fold (generateSaved env w) in Hk1, Hp1, Hm1, Ho1, Href1.
  destruct (generateAnswered_store env w result) as [Href2 Hdb2].
  destruct (saved_step env (model (view w)) (generateReply env w result)
              (generateSaved env w) (generateAnswered env w result)
              Href2 Hdb2 Hk1 Hp1)
    as (Hk3 & Hp3 & Hm3 & Ho3 & Href3).
  rewrite generateAnswered_key in Ho3, Href3.
  rewrite generated_eq.
  generalize dependent (savedWorld env (model (view w))
                          (generateReply env w result)
                          (generateAnswered env w result)).
  intros W3 Hk3 Hp3 Hm3 Ho3 Href3.
  split; [exact Hk3|].
  split.
  { unfold persistable in *. rewrite logged_view, withView_view, logged_db,
      withView_db. exact Hp3. }
  split.
  { unfold storedMessages in *. rewrite logged_view, withView_view, logged_db,
      withView_db.
    change (currentConversationIdRef
              (with_isLoading false (with_genPrompt [] (view W3))))
      with (currentConversationIdRef (view W3)).
    rewrite Hm3. unfold storedMessages in Hm1. rewrite Hm1, <- app_assoc.
    reflexivity. }
  intros k Hne. rewrite logged_db, withView_db, (Ho3 k Hne). apply Ho1, Hne.
Qed.

(** X13. When the remote call returns images that all have their [image],
    a generation that passes the guard returns with the message list made
    of the earlier messages without the greeting, the request message and
    a MODEL message whose only part is the generation result: one PNG data
    URL for each image, in order, with the prompt and the parameters of
    the request. The panel is closed, the prompt emptied and the loading
    flag cleared; input, upload, chat model and the other fields of the
    panel stay as they were. *)
Theorem handleGenerateImage_success (env : Env) (w : World)
    (imgs : list SdkGeneratedImage) :
  generateRejected (view w) = false ->
  imageRemote env (imageRequest (genPrompt (view w)) (paramsOf (view w)))
  = ImagesResolves (Some imgs) ->
  imgs <> [] ->
  forallb hasImage imgs = true ->
  let reply :=
    {| msg_id := modelMessageIdOf env w; msg_author := MODEL;
       msg_parts :=
         [ImageGenerationResultPart
            (map (fun img =>
                    {| img_url := dataUrl (lit "image/png") (bytesOf img) |})
               imgs)
            (genPrompt (view w)) (paramsOf (view w))];
       msg_content := JsUndefined |} in
  exists w',
    handleGenerateImage env w = (Returned tt, w')
    /\ messages (view w')
       = List.filter (fun m => negb (isInitial m)) (messages (view w))
         ++ [generationRequestOf env w; reply]
    /\ showGenerationPanel (view w') = false
    /\ genPrompt (view w') = []
    /\ isLoading (view w') = false
    /\ input (view w') = input (view w)
    /\ uploadedImage (view w') = uploadedImage (view w)
    /\ model (view w') = model (view w)
    /\ genAspectRatio (view w') = genAspectRatio (view w)
    /\ genModel (view w') = genModel (view w)
    /\ genNumImages (view w') = genNumImages (view w).
Proof.
  intros Hguard Hr Hne Hall. cbn zeta.
  pose proof (generateImage_run env (genPrompt (view w)) (paramsOf (view w)))
    as Ho.
  cbn zeta in Ho. rewrite Hr in Ho.
  destruct imgs as [|img imgs]; [contradiction|].
  rewrite Hall in Ho. destruct Ho as [_ Ho].
  eexists. split; [apply (handleGenerateImage_run env w _ Hguard Ho)|].
  rewrite generated_view, generateReply_id.
  cbn [messages input uploadedImage isLoading model showGenerationPanel
         genPrompt genAspectRatio genModel genNumImages replyParts].
  rewrite map_map. repeat split.
Qed.

Lemma handleGenerateImage_success_witness :
  exists w',
    handleGenerateImage paintingEnv (promptCat None) = (Returned tt, w')
    /\ messages (view w')
       = [{| msg_id := lit "1700000000000"; msg_author := USER;
             msg_parts :=
               [TextPart (lit "Generate image: " ++ [dquote] ++ lit "cat"
                          ++ [dquote])];
             msg_content := JsUndefined |};
          {| msg_id := lit "1700000000004"; msg_author := MODEL;
             msg_parts :=
               [ImageGenerationResultPart
                  [{| img_url := lit "data:image/png;base64,AAAA" |};
                   {| img_url := lit "data:image/png;base64,undefined" |}]
                  (lit "cat")
                  {| gp_model := Imagen_3_0_generate_002;
                     gp_aspectRatio := Ratio_3_4;
                     gp_numberOfImages := Num 4;
                     gp_outputMimeType := None |}];
             msg_content := JsUndefined |}].
Proof.
  destruct (handleGenerateImage_success paintingEnv (promptCat None)
              [{| image := Some {| imageBytes := Some (lit "AAAA") |} |};
               {| image := Some {| imageBytes := None |} |}])
    as (w' & Hrun & Hmsgs & _).
  - reflexivity.
  - reflexivity.
  - discriminate.
  - reflexivity.
  - exists w'. split; [exact Hrun|]. rewrite Hmsgs. reflexivity.
Defined.

(** X14. A generation that passes the guard, from a keyed store and a
    world in which [saveMessage] writes, leaves the conversation of the
    ref with the messages stored before, then the request message, then
    the MODEL message that answers it, result or apology; the other
    conversations of the store are as before. *)
Theorem handleGenerateImage_persists (env : Env) (w : World) :
  generateRejected (view w) = false ->
  keyed (db w) ->
  persistable w ->
  let key :=
    match truthyId (currentConversationIdRef (view w)) with
    | Some key => key
    | None => toString (clock env (S (reads w)))
    end in
  exists result w',
    outcome (generateImage env (genPrompt (view w)) (paramsOf (view w)))
    = Returned result
    /\ handleGenerateImage env w = (Returned tt, w')
    /\ currentConversationIdRef (view w') = Some key
    /\ storedMessages w'
       = storedMessages w
         ++ [stored (generationRequestOf env w);
             stored {| msg_id := modelMessageIdOf env w; msg_author := MODEL;
                       msg_parts := replyParts (view w) result;
                       msg_content := JsUndefined |}]
    /\ (forall k, k <> key ->
          getConversation k (db w') = getConversation k (db w))
    /\ keyed (db w')
    /\ persistable w'.
Proof.
  intros Hguard Hk Hp. cbn zeta.
  destruct (generateImage_returns env (genPrompt (view w))
              (paramsOf (view w))) as [result Ho].
  exists result, (generated env w result).
  split; [exact Ho|].
  split; [apply (handleGenerateImage_run env w result Hguard Ho)|].
  destruct (generated_store env w result Hk Hp) as (Hk' & Hp' & Hm & Hother).
  rewrite generateStarted_key in Hother. rewrite generateReply_id in Hm.
  split.
  { rewrite generated_view. cbn [currentConversationIdRef].
    rewrite generateStarted_key. reflexivity. }
  auto.
Qed.

Lemma handleGenerateImage_persists_witness :
  exists w',
    handleGenerateImage rejectingEnv
      {| view := with_genPrompt (lit "cat") (view resumed);
         db := oneChat; reads := 0; trace := [] |}
    = (Returned tt, w')
    /\ storedMessages w'
       = [legacyText; currentFormat;
          {| sm_id := lit "1700000000000"; sm_author := USER;
             sm_parts :=
               Some [TextPart (lit "Generate image: " ++ [dquote]
                               ++ lit "cat" ++ [dquote])];
             sm_content := JsUndefined |};
          {| sm_id := lit "1700000000002"; sm_author := MODEL;
             sm_parts := Some [TextPart imageApology];
             sm_content := JsUndefined |}].
Proof.
  destruct (handleGenerateImage_persists rejectingEnv
              {| view := with_genPrompt (lit "cat") (view resumed);
                 db := oneChat; reads := 0; trace := [] |})
    as (result & w' & Ho & Hrun & _ & Hm & _).
  - reflexivity.
  - exact oneChat_keyed.
  - exists storedChat. split; reflexivity.
  - exists w'. split; [exact Hrun|]. rewrite Hm.
    injection Ho as <-. reflexivity.
Defined.

Lemma savedEvents_requests (env : Env) (model : jsstring)
    (message : ChatMessage) (w : World) :
  List.filter isImagesRequested (savedEvents env model message w) = [].
Proof.
  unfold savedEvents.
  destruct (truthyId (currentConversationIdRef (view w))) as [key|];
    [|reflexivity].
  destruct (getConversation key (db w)) as [c|]; [|reflexivity].
  destruct (isChat c); reflexivity.
Qed.

Lemma generateImage_requests (env : Env) (prompt : jsstring)
    (params : GenerationParameters) :
  List.filter isImagesRequested
    (effects (steps (generateImage env prompt params)))
  = [ImagesRequested (imageRequest prompt params)].
Proof.
  pose proof (generateImage_run env prompt params) as H. cbn zeta in H.
  destruct (imageRemote env (imageRequest prompt params)) as [e | [imgs|]].
  - destruct H as [-> _]. reflexivity.
  - destruct imgs as [|img imgs]; [destruct H as [-> _]; reflexivity|].
    destruct (forallb hasImage (img :: imgs)); destruct H as [-> _];
      reflexivity.
  - destruct H as [-> _]. reflexivity.
Qed.

(** The outside calls of a generation that passes the guard. *)
Lemma generated_trace (env : Env) (w : World)
    (result : option (list jsstring)) :
  trace (generated env w result)
  = trace w
    ++ savedEvents env (model (view w)) (generationRequestOf env w)
         (generateStarted env w)
    ++ effects (steps (generateTask env w))
    ++ savedEvents env (model (view w)) (generateReply env w result)
         (generateAnswered env w result)
    ++ [FocusInput].
Proof.
  rewrite generated_eq, logged_trace, withView_trace, savedWorld_trace.
  assert (trace (generateAnswered env w result)
          = trace (generateSaved env w) ++ effects (steps (generateTask env w)))
    as ->.
  { unfold generateAnswered. generalize (generateSaved env w). intros W.
    reflexivity. }
  unfold generateSaved at 1. rewrite savedWorld_trace.
  change (trace (generateStarted env w)) with (trace w).
  rewrite <- !app_assoc. reflexivity.
Qed.

Lemma handleRecallGeneration_run (prompt : jsstring)
    (params : GenerationParameters) (w : World) :
  handleRecallGeneration prompt params w
  = (Returned tt,
     withView
       (with_uploadedImage None
          (with_showGenerationPanel true
             (with_genNumImages (gp_numberOfImages params)
                (with_genAspectRatio (gp_aspectRatio params)
                   (with_genModel (gp_model params)
                      (with_genPrompt prompt (view w)))))))
       w).
Proof. reflexivity. Qed.

(** X15. Recalling a generation and generating again sends one request,
    with the recalled prompt, model, aspect ratio and number of images;
    the output MIME type of the recalled parameters is not sent on, the
    request asks for [image/png]. *)
Theorem recall_then_generate (env : Env) (prompt : jsstring)
    (params : GenerationParameters) (w : World) :
  isLoading (view w) = false ->
  truthy (trim prompt) = true ->
  exists w1 w2,
    handleRecallGeneration prompt params w = (Returned tt, w1)
    /\ handleGenerateImage env w1 = (Returned tt, w2)
    /\ List.filter isImagesRequested (trace w2)
       = List.filter isImagesRequested (trace w)
         ++ [ImagesRequested
               {| ireq_model := gp_model params; ireq_prompt := prompt;
                  ireq_config :=
                    {| cfg_numberOfImages := gp_numberOfImages params;
                       cfg_aspectRatio := gp_aspectRatio params;
                       cfg_outputMimeType := lit "image/png" |} |}].
Proof.
  intros Hl Hprompt.
  pose proof (handleRecallGeneration_run prompt params w) as Hrecall.
  set (w1 := withView _ w) in Hrecall.
  assert (generateRejected (view w1) = false) as Hguard.
  { unfold generateRejected.
    change (genPrompt (view w1)) with prompt.
    change (isLoading (view w1)) with (isLoading (view w)).
    rewrite Hprompt, Hl. reflexivity. }
  destruct (generateImage_returns env (genPrompt (view w1))
              (paramsOf (view w1))) as [result Ho].
  exists w1, (generated env w1 result).
  split; [exact Hrecall|].
  split; [apply (handleGenerateImage_run env w1 result Hguard Ho)|].
  rewrite generated_trace, !List.filter_app, !savedEvents_requests.
  unfold generateTask. rewrite generateImage_requests. reflexivity.
Qed.

Lemma recall_then_generate_witness :
  exists w2,
    handleGenerateImage idleEnv
      (worldAfter (handleRecallGeneration (lit "dog") recalledParams)
         (mount None ∅))
    = (Returned tt, w2)
    /\ List.filter isImagesRequested (trace w2)
       = [ImagesRequested
            {| ireq_model := Imagen_4_0_generate_001;
               ireq_prompt := lit "dog";
               ireq_config :=
                 {| cfg_numberOfImages := Num 2;
                    cfg_aspectRatio := Ratio_16_9;
                    cfg_outputMimeType := lit "image/png" |} |}].
Proof.
  destruct (recall_then_generate idleEnv (lit "dog") recalledParams
              (mount None ∅))
    as (w1 & w2 & Hrecall & Hrun & Hreq); [reflexivity | reflexivity |].
  exists w2. unfold worldAfter. rewrite Hrecall. cbn [snd].
  split; [exact Hrun | exact Hreq].
Defined.

(** ** The model selector *)

Lemma existsb_ids (msgs : list ChatMessage) :
  existsb (fun m => negb (isInitial m)) msgs
  = existsb (fun i => negb (bool_decide (i = lit "initial")))
      (map msg_id msgs).
Proof.
  induction msgs as [|m msgs IH]; [reflexivity|].
  cbn [existsb map]. rewrite IH. reflexivity.
Qed.

(** A message list with a stamped message and another one disables the
    selector. *)
Lemma modelSelectDisabled_ids (s : ViewState) (pre : list jsstring)
    (z : Z) (post : list jsstring) :
  map msg_id (messages s) = pre ++ toString z :: post ->
  (1 <= length pre + length post)%nat ->
  modelSelectDisabled s = true.
Proof.
  intros Hids Hlen. unfold modelSelectDisabled.
  rewrite existsb_ids, Hids, existsb_app. cbn [existsb].
  rewrite (bool_decide_eq_false_2 _ (toString_not_initial z)).
  cbn [negb orb]. rewrite orb_true_r, andb_true_r.
  rewrite <- (length_map msg_id), Hids, length_app. cbn [length].
  apply orb_true_iff. left. apply Nat.ltb_lt. lia.
Qed.

(** X16. Once a submission or a generation has passed its guard, the model
    selector is disabled: the chat model of a conversation cannot be
    changed after its first exchange. *)
Theorem modelSelect_locked (env : Env) (a : Action) (w : World) :
  (a = Submit /\ submitRejected (view w) = false)
  \/ (a = Generate /\ generateRejected (view w) = false) ->
  modelSelectDisabled (view (worldAfter (dispatch env a) w)) = true.
Proof.
  intros [[-> Hguard] | [-> Hguard]]; cbn [dispatch]; unfold worldAfter.
  - rewrite (handleSubmit_run env w Hguard). cbn [snd].
    apply (modelSelectDisabled_ids _
             (map msg_id (List.filter (fun m => negb (isInitial m))
                            (messages (view w))))
             (clock env (reads w)) [submitMessageId env w]).
    + rewrite submitted_view. cbn [messages].
      rewrite streamedFrom_ids, map_app. unfold historyOf.
      rewrite map_app, <- app_assoc. reflexivity.
    + cbn [length]. lia.
  - destruct (generateImage_returns env (genPrompt (view w))
                (paramsOf (view w))) as [result Ho].
    rewrite (handleGenerateImage_run env w result Hguard Ho). cbn [snd].
    apply (modelSelectDisabled_ids _
             (map msg_id (List.filter (fun m => negb (isInitial m))
                            (messages (view w))))
             (clock env (reads w)) [msg_id (generateReply env w result)]).
    + rewrite generated_view. cbn [messages]. rewrite map_app. reflexivity.
    + cbn [length]. lia.
Qed.

Lemma modelSelect_locked_witness :
  modelSelectDisabled (view typedHi) = false
  /\ modelSelectDisabled (view (worldAfter (dispatch helloEnv Submit) typedHi))
     = true.
Proof.
  split; [reflexivity|].
  apply (modelSelect_locked helloEnv Submit typedHi).
  left. split; reflexivity.
Defined.

(** ** Selecting a file *)

Lemma splitComma_cons (s : jsstring) :
  exists segment segments, splitComma s = segment :: segments.
Proof.
  induction s as [|c s (segment & segments & IH)]; cbn [splitComma].
  - eauto.
  - destruct (c =? comma)%N; [eauto|]. rewrite IH. eauto.
Qed.

Lemma splitComma_head (s : jsstring) :
  head (splitComma s) = Some (untilComma s).
Proof.
  induction s as [|c s IH]; [reflexivity|].
  cbn [splitComma untilComma]. destruct (c =? comma)%N; [reflexivity|].
  destruct (splitComma s) as [|segment segments]; [discriminate IH|].
  cbn in IH |- *. now injection IH as ->.
Qed.

(** A string without a comma before its first separator splits there. *)
Lemma splitComma_header (header rest : jsstring) :
  comma ∉ header ->
  splitComma (readerResult header rest) = header :: splitComma rest.
Proof.
  unfold readerResult. induction header as [|c header IH]; intros Hno.
  - cbn [app splitComma]. now rewrite N.eqb_refl.
  - cbn [app splitComma]. apply not_elem_of_cons in Hno as [Hc Hno].
    destruct (N.eqb_spec c comma) as [-> | _]; [congruence|].
    rewrite (IH Hno). reflexivity.
Qed.

Lemma length_splitComma_app (header rest : jsstring) :
  (length (splitComma rest) <= length (splitComma (header ++ rest)))%nat.
Proof.
  induction header as [|c header IH]; [reflexivity|].
  cbn [app splitComma]. destruct (c =? comma)%N; [cbn [length]; lia|].
  destruct (splitComma (header ++ rest)) as [|segment segments] eqn:Hs;
    [|exact IH].
  destruct (splitComma_cons (header ++ rest)) as (? & ? & H). congruence.
Qed.

(** The result of the reader has a second segment. *)
Lemma secondSegment_readerResult (header rest : jsstring) :
  is_Some (secondSegment (readerResult header rest)).
Proof.
  unfold secondSegment, readerResult. apply lookup_lt_is_Some.
  pose proof (length_splitComma_app header (comma :: rest)) as H.
  cbn [splitComma] in H. rewrite N.eqb_refl in H. cbn [length] in H.
  destruct (splitComma_cons rest) as (segment & segments & Hs).
  rewrite Hs in H. cbn [length] in H. lia.
Qed.

Lemma untilComma_all (s : jsstring) : comma ∉ s -> untilComma s = s.
Proof.
  induction s as [|c s IH]; intros Hno; [reflexivity|].
  cbn [untilComma]. apply not_elem_of_cons in Hno as [Hc Hno].
  destruct (N.eqb_spec c comma) as [-> | _]; [congruence|].
  now rewrite (IH Hno).
Qed.

Lemma secondSegment_payload (header rest : jsstring) :
  comma ∉ header ->
  secondSegment (readerResult header rest) = Some (untilComma rest).
Proof.
  intros Hno. unfold secondSegment. rewrite (splitComma_header _ _ Hno).
  pose proof (splitComma_head rest) as H.
  destruct (splitComma rest) as [|segment segments]; [discriminate H|].
  exact H.
Qed.

(** X17. [fileToBase64] resolves with what stands between the first comma
    of the data URL and the next comma or the end: the whole payload, as
    base64 has no comma. *)
Theorem fileToBase64_payload (f : SelectedFile) (header rest : jsstring)
    (w : World) :
  file_reader f = ReaderLoads header rest ->
  comma ∉ header ->
  fileToBase64 f w = (Returned (untilComma rest), w)
  /\ (comma ∉ rest -> untilComma rest = rest).
Proof.
  intros Hr Hno. unfold fileToBase64. rewrite Hr.
  rewrite (secondSegment_payload _ _ Hno).
  split; [reflexivity | apply untilComma_all].
Qed.

Lemma fileToBase64_payload_witness :
  fileToBase64 pngFile (mount None ∅) = (Returned (lit "AAAA"), mount None ∅).
Proof.
  apply (fileToBase64_payload pngFile (lit "data:image/png;base64")
           (lit "AAAA") (mount None ∅) eq_refl).
  apply (bool_decide_unpack _). vm_compute. exact I.
Defined.

Lemma handleFileChange_run (file : option SelectedFile) (w : World) :
  handleFileChange file w
  = match file with
    | None => (Returned tt, w)
    | Some f =>
        match file_reader f with
        | ReaderLoads header rest =>
            (Returned tt,
             withView
               (with_showGenerationPanel false
                  (with_uploadedImage
                     (Some {| up_url := file_objectURL f;
                              up_base64 :=
                                default []
                                  (secondSegment (readerResult header rest));
                              up_mimeType := file_type f |})
                     (view w)))
               w)
        | ReaderFails e => (Threw e, w)
        end
    end.
Proof.
  destruct file as [f|]; [|reflexivity].
  unfold handleFileChange, fileToBase64.
  destruct (file_reader f); reflexivity.
Qed.

(** X18. Selecting a file that the reader loads attaches it, with its
    object URL, its type and the payload of its data URL, and closes the
    generation panel; nothing else of the view changes, and store, clock
    and trace are left alone. *)
Theorem handleFileChange_attaches (f : SelectedFile)
    (header rest : jsstring) (w : World) :
  file_reader f = ReaderLoads header rest ->
  comma ∉ header ->
  comma ∉ rest ->
  handleFileChange (Some f) w
  = (Returned tt,
     {| view :=
          {| messages := messages (view w);
             input := input (view w);
             isLoading := isLoading (view w);
             model := model (view w);
             uploadedImage :=
               Some {| up_url := file_objectURL f; up_base64 := rest;
                       up_mimeType := file_type f |};
             showGenerationPanel := false;
             genPrompt := genPrompt (view w);
             genAspectRatio := genAspectRatio (view w);
             genModel := genModel (view w);
             genNumImages := genNumImages (view w);
             currentConversationIdRef := currentConversationIdRef (view w) |};
        db := db w; reads := reads w; trace := trace w |}).
Proof.
  intros Hr Hheader Hrest. rewrite handleFileChange_run, Hr.
  rewrite (secondSegment_payload _ _ Hheader), (untilComma_all _ Hrest).
  reflexivity.
Qed.

Lemma handleFileChange_attaches_witness :
  uploadedImage (view (worldAfter (handleFileChange (Some pngFile))
                         (promptCat None)))
  = Some {| up_url := lit "blob:1"; up_base64 := lit "AAAA";
            up_mimeType := lit "image/png" |}
  /\ showGenerationPanel
       (view (worldAfter (handleFileChange (Some pngFile)) (promptCat None)))
     = false.
Proof.
  unfold worldAfter.
  rewrite (handleFileChange_attaches pngFile (lit "data:image/png;base64")
             (lit "AAAA") (promptCat None) eq_refl).
  - split; reflexivity.
  - apply (bool_decide_unpack _). vm_compute. exact I.
  - apply (bool_decide_unpack _). vm_compute. exact I.
Defined.

(** When the file cannot be read, [fileToBase64] rejects with the
    error of the reader and [handleFileChange] ends with that error before
    it has touched the view: the earlier upload, if any, stays attached
    and the panel stays as it was. When no file was selected, nothing
    happens. *)
Theorem handleFileChange_unreadable (f : SelectedFile) (e : JsError)
    (w : World) :
  file_reader f = ReaderFails e ->
  fileToBase64 f w = (Threw e, w)
  /\ handleFileChange (Some f) w = (Threw e, w)
  /\ handleFileChange None w = (Returned tt, w).
Proof.
  intros Hr. rewrite handleFileChange_run. unfold fileToBase64.
  rewrite Hr. repeat split.
Qed.

Lemma handleFileChange_unreadable_witness :
  handleFileChange (Some unreadableFile) describeUpload
  = (Threw (RemoteError (lit "NotReadableError")), describeUpload).
Proof.
  apply (handleFileChange_unreadable unreadableFile
           (RemoteError (lit "NotReadableError")) describeUpload eq_refl).
Defined.

(** ** What every handler keeps *)

Lemma loadConversation_store (conversationId : option jsstring) (w : World) :
  let w' := worldAfter (loadConversation conversationId) w in
  db w' = db w
  /\ uploadedImage (view w') = None
  /\ isLoading (view w') = isLoading (view w)
  /\ (loadConversation conversationId w).1 = Returned tt.
Proof.
  cbn zeta. unfold worldAfter, loadConversation.
  destruct (truthyId conversationId) as [key|]; unfold_M; cbn.
  - destruct (getConversation key (db w)) as [c|]; [destruct (isChat c)|];
      cbn; destruct (showGenerationPanel (view w)); repeat split.
  - destruct (showGenerationPanel (view w)); repeat split.
Qed.

Lemma savedWorld_holds (env : Env) (model : jsstring)
    (message : ChatMessage) (w : World) (key : jsstring) :
  is_Some (getConversation key (db w)) ->
  is_Some (getConversation key (db (savedWorld env model message w))).
Proof.
  intros Hkey. unfold savedWorld.
  destruct (truthyId (currentConversationIdRef (view w))) as [k|].
  - destruct (getConversation k (db w)) as [c|]; [|exact Hkey].
    destruct (isChat c); [|exact Hkey]. cbn [db].
    unfold getConversation, addOrUpdateConversation in *.
    apply lookup_insert_is_Some'. now right.
  - cbn [db]. unfold getConversation, addOrUpdateConversation in *.
    apply lookup_insert_is_Some'. now right.
Qed.

(** The store of [submitted] is the store of [w] after two saves. *)
Lemma submitted_db (env : Env) (w : World) (P : Store -> Prop) :
  (forall model message w0, P (db w0) ->
     P (db (savedWorld env model message w0))) ->
  P (db w) -> P (db (submitted env w)).
Proof.
  intros Hsave Hw. rewrite submitted_eq, logged_db. apply Hsave.
  rewrite (proj2 (submitStreamed_store env w)). unfold submitSaved.
  apply Hsave. exact Hw.
Qed.

Lemma generated_db (env : Env) (w : World)
    (result : option (list jsstring)) (P : Store -> Prop) :
  (forall model message w0, P (db w0) ->
     P (db (savedWorld env model message w0))) ->
  P (db w) -> P (db (generated env w result)).
Proof.
  intros Hsave Hw. rewrite generated_eq, logged_db, withView_db.
  apply Hsave. rewrite (proj2 (generateAnswered_store env w result)).
  unfold generateSaved. apply Hsave. exact Hw.
Qed.

(** The world after [handleSubmit]: what the invariants need of it. *)
Lemma handleSubmit_after (env : Env) (w : World) (P : Store -> Prop) :
  (forall model message w0, P (db w0) ->
     P (db (savedWorld env model message w0))) ->
  let w' := worldAfter (handleSubmit env) w in
  (handleSubmit env w).1 = Returned tt
  /\ (P (db w) -> P (db w'))
  /\ (submitRejected (view w) = true -> w' = w)
  /\ (submitRejected (view w) = false ->
      uploadedImage (view w') = None /\ isLoading (view w') = false
      /\ showGenerationPanel (view w') = showGenerationPanel (view w)).
Proof.
  intros Hsave. cbn zeta. unfold worldAfter.
  destruct (submitRejected (view w)) eqn:Hguard.
  - unfold handleSubmit. rewrite Hguard. cbn.
    split; [reflexivity|]. split; [tauto|]. split; [reflexivity|discriminate].
  - rewrite (handleSubmit_run env w Hguard). cbn [fst snd].
    split; [reflexivity|]. split; [|split; [discriminate|]].
    + apply submitted_db, Hsave.
    + intros _. rewrite submitted_view. repeat split.
Qed.

(** The world after [handleGenerateImage]: what the invariants need. *)
Lemma handleGenerateImage_after (env : Env) (w : World) (P : Store -> Prop) :
  (forall model message w0, P (db w0) ->
     P (db (savedWorld env model message w0))) ->
  let w' := worldAfter (handleGenerateImage env) w in
  (handleGenerateImage env w).1 = Returned tt
  /\ (P (db w) -> P (db w'))
  /\ (generateRejected (view w) = true -> w' = w)
  /\ (generateRejected (view w) = false ->
      showGenerationPanel (view w') = false /\ isLoading (view w') = false
      /\ uploadedImage (view w') = uploadedImage (view w)).
Proof.
  intros Hsave. cbn zeta. unfold worldAfter.
  destruct (generateRejected (view w)) eqn:Hguard.
  - unfold handleGenerateImage. rewrite Hguard. cbn.
    split; [reflexivity|]. split; [tauto|]. split; [reflexivity|discriminate].
  - destruct (generateImage_returns env (genPrompt (view w))
                (paramsOf (view w))) as [result Ho].
    rewrite (handleGenerateImage_run env w result Hguard Ho).
    cbn [fst snd].
    split; [reflexivity|]. split; [|split; [discriminate|]].
    + apply generated_db, Hsave.
    + intros _. rewrite generated_view. repeat split.
Qed.

(** What holds of the store before a handler and survives a save holds of
    the store after the handler. *)
Lemma dispatch_db (env : Env) (P : Store -> Prop) :
  (forall model message w0, P (db w0) ->
     P (db (savedWorld env model message w0))) ->
  forall (a : Action) (w : World),
    P (db w) -> P (db (worldAfter (dispatch env a) w)).
Proof.
  intros Hsave a w Hw. destruct a; cbn [dispatch]; try exact Hw.
  - destruct (loadConversation_store conversationId w) as [Hdb _].
    cbn zeta in Hdb. rewrite Hdb. exact Hw.
  - unfold worldAfter. rewrite handleFileChange_run.
    destruct file as [f|]; [|exact Hw].
    destruct (file_reader f); exact Hw.
  - apply (handleSubmit_after env w P Hsave), Hw.
  - apply (handleGenerateImage_after env w P Hsave), Hw.
Qed.

Lemma dispatch_exclusive (env : Env) (a : Action) (w : World) :
  exclusive (view w) -> exclusive (view (worldAfter (dispatch env a) w)).
Proof.
  unfold exclusive. intros Hx.
  destruct a as [conversationId | value | value | file | | | | value | value
                | value | value | | | prompt params]; cbn [dispatch].
  - intros _. apply (loadConversation_store conversationId w).
  - exact Hx.
  - exact Hx.
  - unfold worldAfter. rewrite handleFileChange_run.
    destruct file as [f|]; [|exact Hx].
    destruct (file_reader f); [discriminate | exact Hx].
  - intros _. reflexivity.
  - intros _. reflexivity.
  - discriminate.
  - exact Hx.
  - exact Hx.
  - exact Hx.
  - exact Hx.
  - destruct (handleSubmit_after env w (fun _ => True) (fun _ _ _ H => H))
      as (_ & _ & Hrej & Hacc).
    cbn zeta in *.
    destruct (submitRejected (view w)); [rewrite Hrej by reflexivity; exact Hx|].
    intros _. apply Hacc. reflexivity.
  - destruct (handleGenerateImage_after env w (fun _ => True)
                (fun _ _ _ H => H)) as (_ & _ & Hrej & Hacc).
    cbn zeta in *.
    destruct (generateRejected (view w));
      [rewrite Hrej by reflexivity; exact Hx|].
    destruct Hacc as (Hpanel & _); [reflexivity|]. rewrite Hpanel.
    discriminate.
  - intros _. reflexivity.
Qed.

Lemma dispatch_idle (env : Env) (a : Action) (w : World) :
  isLoading (view w) = false ->
  isLoading (view (worldAfter (dispatch env a) w)) = false.
Proof.
  intros Hl. destruct a; cbn [dispatch]; try exact Hl.
  - destruct (loadConversation_store conversationId w) as (_ & _ & H & _).
    cbn zeta in H. rewrite H. exact Hl.
  - unfold worldAfter. rewrite handleFileChange_run.
    destruct file as [f|]; [|exact Hl].
    destruct (file_reader f); exact Hl.
  - destruct (handleSubmit_after env w (fun _ => True) (fun _ _ _ H => H))
      as (_ & _ & Hrej & Hacc).
    cbn zeta in *.
    destruct (submitRejected (view w)); [rewrite Hrej by reflexivity; exact Hl|].
    apply Hacc. reflexivity.
  - destruct (handleGenerateImage_after env w (fun _ => True)
                (fun _ _ _ H => H)) as (_ & _ & Hrej & Hacc).
    cbn zeta in *.
    destruct (generateRejected (view w));
      [rewrite Hrej by reflexivity; exact Hl|].
    apply Hacc. reflexivity.
Qed.

Lemma worldAfterAll_invariant (env : Env) (P : World -> Prop) :
  (forall a w, P w -> P (worldAfter (dispatch env a) w)) ->
  forall actions w, P w -> P (worldAfterAll env actions w).
Proof.
  intros Hstep actions. unfold worldAfterAll.
  induction actions as [|a actions IH]; intros w Hw; [exact Hw|].
  cbn [fold_left]. apply IH, Hstep, Hw.
Qed.

(** X19. A store keyed by the identifiers of its conversations stays so
    under every sequence of handlers: a conversation is only ever written
    under its own identifier. *)
Theorem store_stays_keyed (env : Env) (actions : list Action) (w : World) :
  keyed (db w) -> keyed (db (worldAfterAll env actions w)).
Proof.
  apply (worldAfterAll_invariant env (fun w => keyed (db w))).
  apply (dispatch_db env keyed). intros model message w0.
  apply savedWorld_keyed.
Qed.

Lemma empty_keyed : keyed ∅.
Proof.
  intros k c. unfold getConversation. rewrite lookup_empty. discriminate.
Defined.

Lemma store_stays_keyed_witness :
  keyed (db (worldAfterAll helloEnv session (mount None ∅))).
Proof.
  apply (store_stays_keyed helloEnv session (mount None ∅)).
  exact empty_keyed.
Defined.

(** X20. No handler removes a conversation: the identifiers under which the
    store holds a conversation are still in use after every sequence of
    handlers. *)
Theorem store_never_shrinks (env : Env) (actions : list Action) (w : World)
    (keys : list jsstring) :
  holds keys (db w) -> holds keys (db (worldAfterAll env actions w)).
Proof.
  apply (worldAfterAll_invariant env (fun w => holds keys (db w))).
  apply (dispatch_db env (holds keys)). intros model message w0.
  unfold holds. rewrite !Forall_forall. intros H key Hkey.
  apply savedWorld_holds, H, Hkey.
Qed.

Lemma store_never_shrinks_witness :
  holds [lit "42"] (db (worldAfterAll helloEnv session (mount None oneChat))).
Proof.
  apply (store_never_shrinks helloEnv session (mount None oneChat)).
  repeat constructor. exists storedChat. reflexivity.
Defined.

(** X21. Upload and generation panel exclude each other: when the panel is
    not open over an attached image, no sequence of handlers makes it
    so. *)
Theorem upload_excludes_panel (env : Env) (actions : list Action)
    (w : World) :
  exclusive (view w) -> exclusive (view (worldAfterAll env actions w)).
Proof.
  apply (worldAfterAll_invariant env (fun w => exclusive (view w))).
  intros a w'. apply dispatch_exclusive.
Qed.

Lemma upload_excludes_panel_witness :
  exclusive (view (worldAfterAll helloEnv session (mount None ∅))).
Proof.
  apply (upload_excludes_panel helloEnv session (mount None ∅)).
  intros _. reflexivity.
Defined.

(** X22. No handler leaves the loading flag set: from a view that is not
    loading, handlers that run one after the other end in a view that is
    not loading, whatever the remote endpoint and the reader do. *)
Theorem loading_is_cleared (env : Env) (actions : list Action) (w : World) :
  isLoading (view w) = false ->
  isLoading (view (worldAfterAll env actions w)) = false.
Proof.
  apply (worldAfterAll_invariant env (fun w => isLoading (view w) = false)).
  intros a w'. apply dispatch_idle.
Qed.

Lemma loading_is_cleared_witness :
  isLoading (view (worldAfterAll rejectingEnv session (mount None ∅))) = false.
Proof.
  apply (loading_is_cleared rejectingEnv session (mount None ∅)).
  reflexivity.
Defined.

(** X23. With a store whose reads and writes resolve, a handler throws
    only when the selected file cannot be read, and then it leaves the
    world as it was; every other action returns normally, whatever
    conversations the store holds and whatever the remote endpoint
    does. *)
Theorem dispatch_returns (env : Env) (a : Action) (w : World) :
  (dispatch env a w).1 = Returned tt
  \/ exists f e,
       a = SelectFile (Some f) /\ file_reader f = ReaderFails e
       /\ dispatch env a w = (Threw e, w).
Proof.
  destruct a; cbn [dispatch]; try (left; reflexivity).
  - left. apply (loadConversation_store conversationId w).
  - rewrite handleFileChange_run. destruct file as [f|]; [|left; reflexivity].
    destruct (file_reader f) as [header rest | e] eqn:Hr;
      [left; reflexivity|].
    right. exists f, e. auto.
  - left. apply (handleSubmit_after env w (fun _ => True) (fun _ _ _ H => H)).
  - left.
    apply (handleGenerateImage_after env w (fun _ => True) (fun _ _ _ H => H)).
Qed.

(** ** The service: wire contents, logging, analysis and editing *)

Lemma translate_parts (msg : ChatMessage) :
  replayed msg -> wire_parts (translate msg) <> [].
Proof.
  unfold replayed, translate. cbn [wire_parts].
  induction 1 as [part parts [p Hp] | part parts _ IH]; cbn [omap list_omap].
  - rewrite Hp. discriminate.
  - destruct (wirePart part); [discriminate | exact IH].
Qed.

Lemma buildContents_app (msgs msgs' : list ChatMessage) :
  buildContents (msgs ++ msgs') = buildContents msgs ++ buildContents msgs'.
Proof.
  rewrite !buildContents_spec. unfold specContents.
  rewrite filter_app, fmap_app. reflexivity.
Qed.

(** X24. [buildContents] never sends a content without parts, gives every
    content the role ['user'] or ['model'], sends at most one content for
    each message, and translates message by message: the contents of two
    histories joined are the contents of the one followed by those of the
    other. *)
Theorem buildContents_wellformed (msgs : list ChatMessage) :
  Forall (fun c => wire_parts c <> []
                   /\ (role c = lit "user" \/ role c = lit "model"))
    (buildContents msgs)
  /\ (length (buildContents msgs) <= length msgs)%nat
  /\ forall msgs', buildContents (msgs ++ msgs')
                   = buildContents msgs ++ buildContents msgs'.
Proof.
  split; [|split].
  - rewrite buildContents_spec. unfold specContents.
    apply Forall_fmap, Forall_forall. intros msg Hmsg.
    apply list_elem_of_filter in Hmsg as [Hr _]. split.
    + apply translate_parts, Hr.
    + cbn. destruct (msg_author msg); auto.
  - rewrite buildContents_spec. unfold specContents.
    rewrite length_fmap. apply length_filter.
  - apply buildContents_app.
Qed.

(** X25. The chat generator makes one request, before anything else, and
    never a second one; it logs an error exactly when the remote call
    fails, the error the remote call gave, after the texts received. *)
Theorem getChatResponseStream_logs (env : Env)
    (messages : list ChatMessage) (model : jsstring) :
  let req := chatRequest messages model in
  let task := getChatResponseStream env messages model in
  let label := lit "Error getting chat response stream:" in
  head (steps task) = Some (Effect (ChatRequested req))
  /\ effects (steps task)
     = ChatRequested req
       :: match chatRemote env req with
          | ChatRejects e | ChatResolves _ (Some e) => [ConsoleError label e]
          | ChatResolves _ None => []
          end
  /\ (existsb isConsoleError (effects (steps task)) = true
      <-> chatFails (chatRemote env req)).
Proof.
  cbn zeta.
  destruct (getChatResponseStream_steps env messages model) as [_ ->].
  split; [reflexivity|]. cbn [effects existsb isConsoleError orb].
  destruct (chatRemote env (chatRequest messages model))
    as [e | chunks [e|]]; cbn [effects chatFails].
  - split; [reflexivity|]. cbn. tauto.
  - rewrite effects_app, effects_Yield. split; [reflexivity|]. cbn. tauto.
  - rewrite effects_Yield. split; [reflexivity|]. cbn.
    split; [discriminate | tauto].
Qed.

Section ContentProperties.
Variable contentRemote : GenerateContentRequest -> ContentRemote.

Lemma generateContent_run (req : GenerateContentRequest) :
  generateContent contentRemote req
  = match contentRemote req with
    | ContentRejects e =>
        {| calls := [GenerateContentCalled req]; settled := Threw e |}
    | ContentResolves response =>
        {| calls := [GenerateContentCalled req];
           settled := Returned response |}
    end.
Proof.
  unfold generateContent, mbind, Async_bind. cbn.
  destruct (contentRemote req); reflexivity.
Qed.

(** X26. [analyzeImage] never rejects and makes one request, to
    [gemini-2.5-flash], with the image as inline data followed by the
    prompt. When the remote call resolves, the result is the text of the
    response as it is, undefined when the response has none, and nothing
    is logged; when it rejects, the error is logged and the result is the
    apology. *)
Theorem analyzeImage_result (base64Image mimeType prompt : jsstring) :
  let req := analyzeRequest base64Image mimeType prompt in
  let run := analyzeImage contentRemote base64Image mimeType prompt in
  match contentRemote req with
  | ContentResolves response =>
      calls run = [GenerateContentCalled req]
      /\ settled run = Returned (resp_text response)
  | ContentRejects e =>
      calls run
      = [GenerateContentCalled req;
         ErrorLogged (lit "Error analyzing image:") e]
      /\ settled run = Returned (Some analyzeApology)
  end.
Proof.
  cbn zeta. unfold analyzeImage. fold (analyzeRequest base64Image mimeType prompt).
  unfold tryAsync, mbind at 1, Async_bind at 1.
  rewrite generateContent_run.
  destruct (contentRemote (analyzeRequest base64Image mimeType prompt));
    split; reflexivity.
Qed.

Lemma firstInlineImage_first (parts : list ResponsePart) :
  firstInlineImage parts
  = match omap rp_inlineData parts with
    | inlineData :: _ =>
        Some (dataUrl (lit "image/png") (rid_data inlineData))
    | [] => None
    end.
Proof.
  induction parts as [|part parts IH]; [reflexivity|].
  cbn [firstInlineImage omap list_omap].
  destruct (rp_inlineData part) as [inlineData|]; [reflexivity | exact IH].
Qed.

Lemma editImage_run (base64Image mimeType prompt : jsstring) :
  let req := editRequest base64Image mimeType prompt in
  let run := editImage contentRemote base64Image mimeType prompt in
  let label := lit "Error editing image:" in
  match contentRemote req with
  | ContentResolves response =>
      match firstCandidateParts response with
      | Some parts =>
          calls run = [GenerateContentCalled req]
          /\ settled run = Returned (firstInlineImage parts)
      | None =>
          (exists what,
              calls run
              = [GenerateContentCalled req;
                 ErrorLogged label (TypeError what)])
          /\ settled run = Returned None
      end
  | ContentRejects e =>
      calls run = [GenerateContentCalled req; ErrorLogged label e]
      /\ settled run = Returned None
  end.
Proof.
  cbn zeta. unfold editImage. fold (editRequest base64Image mimeType prompt).
  unfold tryAsync, mbind, Async_bind. rewrite generateContent_run.
  destruct (contentRemote (editRequest base64Image mimeType prompt))
    as [e | response]; [split; reflexivity|].
  unfold firstCandidateParts. cbn [settled calls].
  destruct (resp_candidates response) as [candidates|];
    [|split; [eexists|]; reflexivity].
  destruct candidates as [|candidate candidates];
    [split; [eexists|]; reflexivity|].
  cbn [mbind option_bind head defined settled calls mret Async_ret].
  destruct (cand_content candidate) as [content|];
    [|split; [eexists|]; reflexivity].
  cbn [mbind option_bind defined settled calls mret Async_ret].
  destruct (rc_parts content) as [parts|];
    [|split; [eexists|]; reflexivity].
  split; reflexivity.
Qed.

(** X27. [editImage] never rejects and makes exactly one request, to
    [gemini-2.5-flash-image], with the image as inline data followed by
    the prompt, asking for an image. When the remote call resolves with a
    response that has the parts of a first candidate, nothing is logged
    and the result is the data URL of the first part that has inline
    data, always labelled [image/png] whatever type the part declares, or
    [null] when no part has inline data. When the response lacks its
    candidates, a first candidate, its content or its parts, the
    [TypeError] of the missing property is logged, once, and the result is
    [null]; when the remote call rejects, its error is logged, once, and
    the result is [null]. *)
Theorem editImage_result (base64Image mimeType prompt : jsstring) :
  let req := editRequest base64Image mimeType prompt in
  let run := editImage contentRemote base64Image mimeType prompt in
  let label := lit "Error editing image:" in
  match contentRemote req with
  | ContentResolves response =>
      match firstCandidateParts response with
      | Some parts =>
          calls run = [GenerateContentCalled req]
          /\ settled run
             = Returned
                 match omap rp_inlineData parts with
                 | inlineData :: _ =>
                     Some (dataUrl (lit "image/png") (rid_data inlineData))
                 | [] => None
                 end
      | None =>
          (exists what,
              calls run
              = [GenerateContentCalled req;
                 ErrorLogged label (TypeError what)])
          /\ settled run = Returned None
      end
  | ContentRejects e =>
      calls run = [GenerateContentCalled req; ErrorLogged label e]
      /\ settled run = Returned None
  end.
Proof.
  cbn zeta. pose proof (editImage_run base64Image mimeType prompt) as H.
  cbn zeta in H.
  destruct (contentRemote (editRequest base64Image mimeType prompt))
    as [e | response]; [exact H|].
  destruct (firstCandidateParts response) as [parts|]; [|exact H].
  rewrite <- firstInlineImage_first. exact H.
Qed.
End ContentProperties.

Example editImage_first_inline :
  settled (editImage (answering editedResponse) (lit "AAAA")
             (lit "image/jpeg") (lit "brighter"))
  = Returned (Some (lit "data:image/png;base64,BBBB")).
Proof. reflexivity. Qed.

Example editImage_blocked :
  editImage (answering blockedResponse) (lit "AAAA") (lit "image/jpeg")
    (lit "brighter")
  = {| calls :=
         [GenerateContentCalled
            (editRequest (lit "AAAA") (lit "image/jpeg") (lit "brighter"));
          ErrorLogged (lit "Error editing image:")
            (TypeError (lit "response.candidates"))];
       settled := Returned None |}.
Proof. reflexivity. Qed.

Example analyzeImage_undefined :
  settled (analyzeImage (answering blockedResponse) (lit "AAAA")
             (lit "image/png") (lit "what is this?"))
  = Returned None.
Proof. reflexivity. Qed.

(** ** From one handler to the next *)

Lemma savedEvents_chat (env : Env) (model : jsstring)
    (message : ChatMessage) (w : World) :
  List.filter isChatRequested (savedEvents env model message w) = [].
Proof.
  unfold savedEvents.
  destruct (truthyId (currentConversationIdRef (view w))) as [key|];
    [|reflexivity].
  destruct (getConversation key (db w)) as [c|]; [|reflexivity].
  destruct (isChat c); reflexivity.
Qed.

Lemma getChatResponseStream_requests (env : Env)
    (messages : list ChatMessage) (model : jsstring) :
  List.filter isChatRequested
    (effects (steps (getChatResponseStream env messages model)))
  = [ChatRequested (chatRequest messages model)].
Proof.
  destruct (getChatResponseStream_steps env messages model) as [_ ->].
  cbn [effects List.filter isChatRequested]. f_equal.
  destruct (chatRemote env (chatRequest messages model))
    as [e | chunks [e|]]; cbn [effects].
  - reflexivity.
  - rewrite effects_app, effects_Yield. reflexivity.
  - rewrite effects_Yield. reflexivity.
Qed.

(** The chat requests of a submission that passes the guard: one. *)
Lemma submitted_requests (env : Env) (w : World) :
  List.filter isChatRequested (trace (submitted env w))
  = List.filter isChatRequested (trace w)
    ++ [ChatRequested (chatRequest (historyOf env w) (model (view w)))].
Proof.
  rewrite submitted_trace, !List.filter_app, !savedEvents_chat.
  unfold submitStream. rewrite getChatResponseStream_requests.
  reflexivity.
Qed.

(** X28. An attached file travels to the model with the next submission:
    after a file was selected and loaded, a submission sends one chat
    request whose last content has the role ['user'] and holds the payload
    of the file as inline data of the type of the file, followed by the
    input when it is not blank; the earlier messages come before it,
    without the greeting. *)
Theorem attach_then_submit (env : Env) (f : SelectedFile)
    (header rest : jsstring) (w : World) :
  file_reader f = ReaderLoads header rest ->
  comma ∉ header ->
  comma ∉ rest ->
  isLoading (view w) = false ->
  exists w1 w2,
    handleFileChange (Some f) w = (Returned tt, w1)
    /\ handleSubmit env w1 = (Returned tt, w2)
    /\ List.filter isChatRequested (trace w2)
       = List.filter isChatRequested (trace w)
         ++ [ChatRequested
               {| chat_model := model (view w);
                  chat_contents :=
                    buildContents
                      (List.filter (fun m => negb (isInitial m))
                         (messages (view w)))
                    ++ [{| role := lit "user";
                           wire_parts :=
                             WireInlineData (file_type f) rest
                             :: (if truthy (trim (input (view w)))
                                 then [WireText (input (view w))]
                                 else []) |}];
                  chat_systemInstruction := systemInstruction |}].
Proof.
  intros Hr Hheader Hrest Hl.
  pose proof (handleFileChange_run (Some f) w) as Hattach.
  cbn beta iota in Hattach.
  rewrite Hr, (secondSegment_payload _ _ Hheader), (untilComma_all _ Hrest)
    in Hattach.
  cbn [default] in Hattach. set (w1 := withView _ w) in Hattach.
  assert (submitRejected (view w1) = false) as Hguard.
  { unfold submitRejected.
    change (isLoading (view w1)) with (isLoading (view w)). rewrite Hl.
    rewrite (bool_decide_eq_true_2 (is_Some (uploadedImage (view w1))))
      by (eexists; reflexivity).
    rewrite andb_false_r. reflexivity. }
  exists w1, (submitted env w1).
  split; [exact Hattach|].
  split; [apply handleSubmit_run, Hguard|].
  rewrite submitted_requests. f_equal. f_equal. unfold chatRequest. f_equal.
  unfold historyOf. rewrite buildContents_app. f_equal.
  unfold userMessageOf, userParts, buildContents.
  change (uploadedImage (view w1))
    with (Some {| up_url := file_objectURL f; up_base64 := rest;
                  up_mimeType := file_type f |}).
  change (input (view w1)) with (input (view w)).
  destruct (truthy (trim (input (view w)))); reflexivity.
Qed.

Lemma attach_then_submit_witness :
  exists w1 w2,
    handleFileChange (Some pngFile) typedHi = (Returned tt, w1)
    /\ handleSubmit helloEnv w1 = (Returned tt, w2)
    /\ List.filter isChatRequested (trace w2)
       = [ChatRequested
            {| chat_model := defaultModel;
               chat_contents :=
                 [{| role := lit "user";
                     wire_parts :=
                       [WireInlineData (lit "image/png") (lit "AAAA");
                        WireText (lit "hi")] |}];
               chat_systemInstruction := systemInstruction |}].
Proof.
  destruct (attach_then_submit helloEnv pngFile (lit "data:image/png;base64")
              (lit "AAAA") typedHi eq_refl)
    as (w1 & w2 & Hattach & Hrun & Hreq).
  - apply (bool_decide_unpack _). vm_compute. exact I.
  - apply (bool_decide_unpack _). vm_compute. exact I.
  - reflexivity.
  - exists w1, w2. split; [exact Hattach|]. split; [exact Hrun|].
    rewrite Hreq. reflexivity.
Defined.

Lemma migrate_stored (m : ChatMessage) : migrate (stored m) = m.
Proof. now destruct m. Qed.

(** X29. What a submission stores is what loading the conversation shows:
    after a submission that passes the guard, from a keyed store and a
    world in which [saveMessage] writes, loading the conversation of the
    ref shows the messages stored before, migrated, then the user message
    and the MODEL message with the streamed text, and selects the chat
    model stored with the conversation. *)
Theorem reload_after_submit (env : Env) (w : World) :
  submitRejected (view w) = false ->
  keyed (db w) ->
  persistable w ->
  let reply :=
    placeholder (modelMessageIdOf env w)
      (concat (fragments (steps (getChatResponseStream env (historyOf env w)
                                   (model (view w)))))) in
  exists w1 key c w2,
    handleSubmit env w = (Returned tt, w1)
    /\ currentConversationIdRef (view w1) = Some key
    /\ getConversation key (db w1) = Some c
    /\ loadConversation (Some key) w1 = (Returned tt, w2)
    /\ messages (view w2)
       = map migrate (storedMessages w) ++ [userMessageOf env w; reply]
    /\ model (view w2) = conv_modelUsed c.
Proof.
  intros Hguard Hk Hp. cbn zeta.
  destruct (submitted_store env w Hk Hp) as (_ & Hp' & Hm & _ & Href).
  unfold submitReply in Hm. rewrite submitMessageId_eq in Hm.
  pose proof (handleSubmit_run env w Hguard) as Hrun.
  pose proof (savedKey_truthy env (submitStarted env w)) as Hkey.
  revert Hp' Hm Href Hrun Hkey.
  generalize (submitted env w), (savedKey env (submitStarted env w)).
  intros w1 key Hp' Hm Href Hrun Hkey.
  unfold persistable, storedMessages in Hp', Hm.
  rewrite Href in Hp', Hm. cbn [truthyId] in Hp', Hm.
  rewrite Hkey in Hp', Hm. destruct Hp' as (c & Hc & Ht).
  rewrite Hc in Hm.
  destruct (loadConversation_chat key c w1 Hkey Hc Ht) as [Hmsgs Hmodel].
  exists w1, key, c, (loadConversation (Some key) w1).2.
  split; [exact Hrun|]. split; [exact Href|]. split; [exact Hc|].
  split.
  { destruct (loadConversation_store (Some key) w1) as (_ & _ & _ & Hret).
    destruct (loadConversation (Some key) w1) as [r w2]. cbn in Hret.
    now rewrite Hret. }
  split; [|exact Hmodel].
  rewrite Hmsgs, Hm, map_app. cbn [map]. rewrite !migrate_stored.
  reflexivity.
Qed.

Lemma reload_after_submit_witness :
  exists w1 w2,
    handleSubmit helloEnv typedHi = (Returned tt, w1)
    /\ loadConversation (Some (lit "1700000000001")) w1 = (Returned tt, w2)
    /\ messages (view w2) = messages (view w1)
    /\ messages (view w2)
       = [{| msg_id := lit "1700000000000"; msg_author := USER;
             msg_parts := [TextPart (lit "hi")];
             msg_content := JsUndefined |};
          {| msg_id := lit "1700000000004"; msg_author := MODEL;
             msg_parts := [TextPart (lit "Hello")];
             msg_content := JsUndefined |}].
Proof.
  destruct (reload_after_submit helloEnv typedHi)
    as (w1 & key & c & w2 & Hrun & Href & Hc & Hload & Hmsgs & _).
  - reflexivity.
  - exact empty_keyed.
  - exact I.
  - exists w1, w2. split; [exact Hrun|].
    assert (w1 = (handleSubmit helloEnv typedHi).2) as Hw1
      by now rewrite Hrun.
    assert (key = lit "1700000000001") as ->.
    { rewrite Hw1 in Href. vm_compute in Href. injection Href as <-.
      reflexivity. }
    split; [exact Hload|]. rewrite Hmsgs. rewrite Hw1.
    split; vm_compute; reflexivity.
Defined.

(** X30. When the remote call of a submission fails, by a rejected promise
    or a stream that breaks, the submission still returns normally with
    the loading flag cleared, and the MODEL message shown last holds the
    texts received so far followed by the apology. *)
Theorem handleSubmit_degraded (env : Env) (w : World) :
  submitRejected (view w) = false ->
  chatFails (chatRemote env (chatRequest (historyOf env w) (model (view w)))) ->
  exists w',
    handleSubmit env w = (Returned tt, w')
    /\ isLoading (view w') = false
    /\ last (messages (view w'))
       = Some (placeholder (modelMessageIdOf env w)
                 (concat (received (chatRemote env
                                      (chatRequest (historyOf env w)
                                         (model (view w)))))
                  ++ chatApology)).
Proof.
  intros Hguard Hfails. exists (submitted env w).
  split; [apply handleSubmit_run, Hguard|].
  rewrite submitted_view. cbn [isLoading messages]. split; [reflexivity|].
  rewrite <- submitMessageId_eq. unfold submitStream.
  destruct (getChatResponseStream_steps env (historyOf env w)
              (model (view w))) as [_ ->].
  cbn [fragments].
  assert (forall frags,
             frags <> [] ->
             last (streamedFrom (submitMessageId env w) [] frags
                     (historyOf env w
                      ++ [placeholder (submitMessageId env w) []]))
             = Some (placeholder (submitMessageId env w) (concat frags)))
    as Hlast.
  { intros frags Hne. unfold streamedFrom.
    destruct frags as [|c frags]; [contradiction|].
    rewrite map_app. cbn [map]. rewrite replaceText_placeholder.
    apply last_snoc. }
  destruct (chatRemote env (chatRequest (historyOf env w) (model (view w))))
    as [e | chunks [e|]]; cbn [chatFails received] in *; [| |contradiction].
  - cbn [fragments]. rewrite Hlast by discriminate. reflexivity.
  - rewrite fragments_app, fragments_Yield. cbn [fragments].
    rewrite Hlast by (destruct chunks; discriminate).
    rewrite concat_app. cbn [concat]. rewrite app_nil_r. reflexivity.
Qed.

Lemma handleSubmit_degraded_witness :
  exists w',
    handleSubmit brokenStreamEnv typedHi = (Returned tt, w')
    /\ last (messages (view w'))
       = Some (placeholder (lit "1700000000004")
                 (lit "Hello" ++ chatApology)).
Proof.
  destruct (handleSubmit_degraded brokenStreamEnv typedHi)
    as (w' & Hrun & _ & Hlast); [reflexivity | exact I |].
  exists w'. split; [exact Hrun|]. rewrite Hlast. reflexivity.
Defined.
